(** * faster-whisper: the windowed decoding loop of [transcribe.py]

    A shallow embedding of [WhisperModel.get_prompt],
    [WhisperModel.generate_with_fallback] and
    [WhisperModel.generate_segments] from
    [faster_whisper/transcribe.py], with the properties of the
    transcription loop proved about it.

    Conventions.
    - Python [int] is [Z]; token ids are [Z].
    - Python [float] is the carrier of the class [PyFloat]: the code only
      adds, multiplies, divides, compares and exponentiates floats, so
      every theorem holds for any implementation of these operations.
      The instance [binary64] (IEEE doubles) is used for worked examples.
    - Python [str] is a [string] holding the UTF-8 encoding of the text, so
      that [len(text.encode("utf-8"))] is [String.length]; [str.strip]
      and [zlib.compress] are fields of the class [PyLib].
    - Exceptions are values of [exn]; the decoder is an oracle that
      threads a [World], so sampling need not be a function of its
      arguments. *)

From Stdlib Require Import ZArith List String Ascii Bool Lia PrimFloat Uint63.
Import ListNotations.

Local Open Scope Z_scope.
Local Open Scope list_scope.

Set Implicit Arguments.

(* ================================================================== *)
(** ** Exceptions and the two monads *)

Inductive exn : Type :=
| AttributeError      (* attribute access on None *)
| IndexError          (* list index out of range *)
| ZeroDivisionError
| OverflowError
| ValueError
| CollaboratorError.  (* anything raised by the model itself *)

(** Pure code that may raise. *)
Definition Exc (A : Type) : Type := (exn + A)%type.

Definition eret {A} (a : A) : Exc A := inr a.
Definition eraise {A} (e : exn) : Exc A := inl e.
Definition ebind {A B} (m : Exc A) (k : A -> Exc B) : Exc B :=
  match m with
  | inl e => inl e
  | inr a => k a
  end.

Notation "x <-? m ;; k" := (ebind m (fun x => k))
  (at level 61, m at next level, right associativity).
Notation "' p <-? m ;; k" := (ebind m (fun x => let 'p := x in k))
  (at level 61, p pattern, m at next level, right associativity).

(* ================================================================== *)
(** ** Python lists: length, indexing, slicing *)

Definition len {A} (l : list A) : Z := Z.of_nat (List.length l).

(** [l[i]], negative indices counting from the end. *)
Definition py_index {A} (l : list A) (i : Z) : Exc A :=
  let j := if i <? 0 then i + len l else i in
  if j <? 0 then eraise IndexError
  else match nth_error l (Z.to_nat j) with
       | Some a => eret a
       | None => eraise IndexError
       end.

(** A slice bound, clamped to [0 .. n] as Python does. *)
Definition clamp_index (n i : Z) : Z :=
  if i <? 0 then Z.max (i + n) 0 else Z.min i n.

(** [l[start:stop]]; [None] is an omitted bound. *)
Definition py_slice {A} (l : list A) (start stop : option Z) : list A :=
  let n := len l in
  let lo := match start with None => 0 | Some i => clamp_index n i end in
  let hi := match stop with None => n | Some j => clamp_index n j end in
  firstn (Z.to_nat (hi - lo)) (skipn (Z.to_nat lo) l).

(** [range(n)] *)
Definition range (n : Z) : list Z := map Z.of_nat (seq 0 (Z.to_nat n)).

(** Truthiness of a list and of a string. *)
Definition list_truthy {A} (l : list A) : bool :=
  match l with [] => false | _ => true end.

Definition str_truthy (s : string) : bool :=
  match s with EmptyString => false | _ => true end.

(* ================================================================== *)
(** ** The Python runtime the module relies on *)

(** Floats.  [of_int] is the implicit int-to-float conversion of mixed
    arithmetic, [lit m e] the literal [m * 10^-e], [fpow_int n x] is
    [n ** x] for an int [n], which raises for [0 ** negative]. *)
Class PyFloat : Type := {
  float : Type;
  of_int : Z -> float;
  lit : Z -> nat -> float;
  fadd : float -> float -> float;
  fmul : float -> float -> float;
  fdiv : float -> float -> float;
  int_truediv : Z -> Z -> float;
  fpow_int : Z -> float -> Exc float;
  fround : float -> Exc Z;
  fgt : float -> float -> bool;
  flt : float -> float -> bool
}.

(** Library functions: [str.strip] and [zlib.compress] (on the UTF-8
    bytes). *)
Class PyLib : Type := {
  strip : string -> string;
  zlib_compress : string -> string
}.

(* ================================================================== *)
(** ** Data model *)

Section Model.

Context {PF : PyFloat} {PL : PyLib}.

(** State of the decoder between calls. *)
Variable World : Type.

(** One column of the feature matrix; the matrix is stored by frames, so
    [features.shape[-1]] is its length and [features[:, a:b]] a slice. *)
Variable Frame : Type.

(** Code that calls the model: state passing over [World], may raise. *)
Definition M (A : Type) : Type := World -> Exc (A * World).

Definition ret {A} (a : A) : M A := fun w => inr (a, w).
Definition raise {A} (e : exn) : M A := fun _ => inl e.
Definition bind {A B} (m : M A) (k : A -> M B) : M B :=
  fun w => match m w with
           | inl e => inl e
           | inr (a, w') => k a w'
           end.
Definition lift {A} (m : Exc A) : M A :=
  fun w => match m with
           | inl e => inl e
           | inr a => inr (a, w)
           end.

Notation "x <- m ;; k" := (bind m (fun x => k))
  (at level 61, m at next level, right associativity).
Notation "' p <- m ;; k" := (bind m (fun x => let 'p := x in k))
  (at level 61, p pattern, m at next level, right associativity).

Record Segment : Type := {
  start : float;
  end_ : float;
  text : string
}.

Record TranscriptionOptions : Type := {
  beam_size : Z;
  best_of : Z;
  patience : float;
  length_penalty : float;
  log_prob_threshold : option float;
  no_speech_threshold : option float;
  compression_ratio_threshold : option float;
  condition_on_previous_text : bool;
  temperatures : list float;
  initial_prompt : option string;
  prefix : option string;
  suppress_blank : bool;
  suppress_tokens : option (list Z);
  without_timestamps : bool;
  max_initial_timestamp : float
}.

(** [faster_whisper.tokenizer.Tokenizer], as far as this module uses it. *)
Record Tokenizer : Type := {
  encode : string -> list Z;
  decode : list Z -> string;
  sot_prev : Z;
  sot_sequence : list Z;
  no_timestamps : Z;
  timestamp_begin : Z
}.

(** [faster_whisper.feature_extractor.FeatureExtractor], likewise. *)
Record FeatureExtractor : Type := {
  nb_max_frames : Z;
  time_per_frame : float
}.

(** One entry of the list [ctranslate2.models.Whisper.generate] returns. *)
Record WhisperGenerationResult : Type := {
  sequences_ids : list (list Z);
  scores : list float;
  no_speech_prob : float
}.

(** The decoding keywords chosen per temperature. *)
Inductive DecodeKwargs : Type :=
| Sampling (kw_beam_size : Z) (num_hypotheses : Z) (sampling_topk : Z)
           (sampling_temperature : float)
| BeamSearch (kw_beam_size : Z) (kw_patience : float).

(** The arguments of one [self.model.generate] call. *)
Record GenerateCall : Type := {
  call_features : list (list Frame);
  call_prompts : list (list Z);
  call_length_penalty : float;
  call_max_length : Z;
  call_return_scores : bool;
  call_return_no_speech_prob : bool;
  call_suppress_blank : bool;
  call_suppress_tokens : option (list Z);
  call_max_initial_timestamp_index : Z;
  call_kwargs : DecodeKwargs
}.

Record WhisperModel : Type := {
  model : GenerateCall -> M (list WhisperGenerationResult);
  feature_extractor : FeatureExtractor;
  input_stride : Z;
  time_precision : float;
  max_length : Z
}.

(** [WhisperModel.__init__], given the loaded model and the feature
    extractor. *)
Definition init (generate : GenerateCall -> M (list WhisperGenerationResult))
    (fe : FeatureExtractor) : WhisperModel :=
  {| model := generate;
     feature_extractor := fe;
     input_stride := 2;
     time_precision := lit 2 2;
     max_length := 448 |}.

(* ================================================================== *)
(** ** [get_prompt] *)

Definition get_prompt (self : WhisperModel) (tokenizer : Tokenizer)
    (previous_tokens : list Z) (without_timestamps : bool)
    (prefix : option string) : list Z :=
  let prompt := [] in
  let prompt :=
    if list_truthy previous_tokens then
      let prompt := prompt ++ [sot_prev tokenizer] in
      prompt ++ py_slice previous_tokens
                  (Some (- (max_length self / 2 - 1))) None
    else prompt in
  let prompt := prompt ++ sot_sequence tokenizer in
  let prompt :=
    if without_timestamps then prompt ++ [no_timestamps tokenizer]
    else prompt in
  let prompt :=
    match prefix with
    | Some p =>
        if str_truthy p then
          let prefix_tokens := encode tokenizer (" " ++ strip p)%string in
          let prefix_tokens :=
            if len prefix_tokens >=? max_length self / 2 then
              py_slice prefix_tokens None (Some (max_length self / 2 - 1))
            else prefix_tokens in
          prompt ++ prefix_tokens
        else prompt
    | None => prompt
    end in
  prompt.

(* ================================================================== *)
(** ** [get_input] and [get_compression_ratio] *)

(** [get_input] only adds the batch dimension. *)
Definition get_input (segment : list Frame) : list (list Frame) := [segment].

Definition strlen (s : string) : Z := Z.of_nat (String.length s).

Definition get_compression_ratio (text : string) : Exc float :=
  let text_bytes := text in
  let compressed := strlen (zlib_compress text_bytes) in
  if compressed =? 0 then eraise ZeroDivisionError
  else eret (int_truediv (strlen text_bytes) compressed).

(* ================================================================== *)
(** ** [generate_with_fallback] *)

(** The [kwargs] dictionary built at the top of the loop body. *)
Definition fallback_kwargs (options : TranscriptionOptions)
    (temperature : float) : DecodeKwargs :=
  if fgt temperature (of_int 0) then
    Sampling 1 (best_of options) 0 temperature
  else
    BeamSearch (beam_size options) (patience options).

(** [needs_fallback] as the two [if] statements leave it. *)
Definition needs_fallback_of (options : TranscriptionOptions)
    (compression_ratio avg_log_prob : float) : bool :=
  let needs_fallback := false in
  let needs_fallback :=
    match compression_ratio_threshold options with
    | Some thr => if fgt compression_ratio thr then true else needs_fallback
    | None => needs_fallback
    end in
  let needs_fallback :=
    match log_prob_threshold options with
    | Some thr => if flt avg_log_prob thr then true else needs_fallback
    | None => needs_fallback
    end in
  needs_fallback.

(** The body of [for temperature in options.temperatures], up to the
    test of [needs_fallback]: the result, its average log probability
    and whether a fallback is needed. *)
Definition fallback_attempt (self : WhisperModel) (features : list (list Frame))
    (prompt : list Z) (tokenizer : Tokenizer) (options : TranscriptionOptions)
    (max_initial_timestamp_index : Z) (temperature : float)
    : M (WhisperGenerationResult * float * bool) :=
  let kwargs := fallback_kwargs options temperature in
  results <- model self
    {| call_features := features;
       call_prompts := [prompt];
       call_length_penalty := length_penalty options;
       call_max_length := max_length self;
       call_return_scores := true;
       call_return_no_speech_prob := true;
       call_suppress_blank := suppress_blank options;
       call_suppress_tokens := suppress_tokens options;
       call_max_initial_timestamp_index := max_initial_timestamp_index;
       call_kwargs := kwargs |} ;;
  result <- lift (py_index results 0) ;;
  tokens <- lift (py_index (sequences_ids result) 0) ;;
  let seq_len := len tokens in
  score <- lift (py_index (scores result) 0) ;;
  pw <- lift (fpow_int seq_len (length_penalty options)) ;;
  let cum_log_prob := fmul score pw in
  let avg_log_prob := fdiv cum_log_prob (of_int (seq_len + 1)) in
  let text := strip (decode tokenizer tokens) in
  compression_ratio <- lift (get_compression_ratio text) ;;
  ret (result, avg_log_prob,
       needs_fallback_of options compression_ratio avg_log_prob).

(** The [for] loop with its [break].  [current] holds
    [(result, avg_log_prob, final_temperature)], which are [None]
    together until the first iteration has completed. *)
Fixpoint fallback_loop (self : WhisperModel) (features : list (list Frame))
    (prompt : list Z) (tokenizer : Tokenizer) (options : TranscriptionOptions)
    (max_initial_timestamp_index : Z) (temps : list float)
    (current : option (WhisperGenerationResult * float * float))
    : M (option (WhisperGenerationResult * float * float)) :=
  match temps with
  | [] => ret current
  | temperature :: rest =>
      ' (result, avg_log_prob, needs_fallback) <-
        fallback_attempt self features prompt tokenizer options
          max_initial_timestamp_index temperature ;;
      if negb needs_fallback then
        ret (Some (result, avg_log_prob, temperature))
      else
        fallback_loop self features prompt tokenizer options
          max_initial_timestamp_index rest
          (Some (result, avg_log_prob, temperature))
  end.

Definition generate_with_fallback (self : WhisperModel) (segment : list Frame)
    (prompt : list Z) (tokenizer : Tokenizer) (options : TranscriptionOptions)
    : M (option (WhisperGenerationResult * float * float)) :=
  let features := get_input segment in
  max_initial_timestamp_index <-
    lift (fround (fdiv (max_initial_timestamp options) (time_precision self))) ;;
  fallback_loop self features prompt tokenizer options
    max_initial_timestamp_index (temperatures options) None.

(* ================================================================== *)
(** ** [generate_segments] *)

(** The dictionaries [dict(start=..., end=..., tokens=...)] collected in
    [current_segments]. *)
Record RawSegment : Type := {
  seg_start : float;
  seg_end : float;
  seg_tokens : list Z
}.

(** The variables that live across iterations of the [while] loop. *)
Record LoopState : Type := {
  seek : Z;
  all_tokens : list Z;
  prompt_reset_since : Z
}.

(** List comprehension with a condition that indexes a list. *)
Fixpoint efilter {A} (p : A -> Exc bool) (l : list A) : Exc (list A) :=
  match l with
  | [] => eret []
  | a :: l' =>
      b <-? p a ;;
      r <-? efilter p l' ;;
      eret (if b then a :: r else r)
  end.

Definition single_timestamp_ending (tokenizer : Tokenizer) (tokens : list Z)
    : Exc bool :=
  if len tokens >=? 2 then
    t2 <-? py_index tokens (-2) ;;
    if t2 <? timestamp_begin tokenizer then
      t1 <-? py_index tokens (-1) ;;
      eret (t1 >=? timestamp_begin tokenizer)
    else eret false
  else eret false.

Definition consecutive_timestamps (tokenizer : Tokenizer) (tokens : list Z)
    : Exc (list Z) :=
  efilter
    (fun i =>
       if i >? 0 then
         ti <-? py_index tokens i ;;
         if ti >=? timestamp_begin tokenizer then
           tp <-? py_index tokens (i - 1) ;;
           eret (tp >=? timestamp_begin tokenizer)
         else eret false
       else eret false)
    (range (len tokens)).

(** [for current_slice in slices], returning [current_segments] and the
    final [last_slice]. *)
Fixpoint slice_loop (self : WhisperModel) (tokenizer : Tokenizer)
    (time_offset : float) (tokens : list Z) (slices : list Z)
    (last_slice : Z) (current_segments : list RawSegment)
    : Exc (list RawSegment * Z) :=
  match slices with
  | [] => eret (current_segments, last_slice)
  | current_slice :: rest =>
      let sliced_tokens :=
        py_slice tokens (Some last_slice) (Some current_slice) in
      first <-? py_index sliced_tokens 0 ;;
      let start_timestamp_position := first - timestamp_begin tokenizer in
      last <-? py_index sliced_tokens (-1) ;;
      let end_timestamp_position := last - timestamp_begin tokenizer in
      let start_time :=
        fadd time_offset
          (fmul (of_int start_timestamp_position) (time_precision self)) in
      let end_time :=
        fadd time_offset
          (fmul (of_int end_timestamp_position) (time_precision self)) in
      let current_segments :=
        current_segments ++
        [ {| seg_start := start_time; seg_end := end_time;
             seg_tokens := sliced_tokens |} ] in
      slice_loop self tokenizer time_offset tokens rest current_slice
        current_segments
  end.

(** From [current_segments = []] to the end of the [if]/[else] on
    [consecutive_timestamps]: the raw segments and the new [seek]. *)
Definition split_tokens (self : WhisperModel) (tokenizer : Tokenizer)
    (time_offset : float) (segment_size : Z) (segment_duration : float)
    (seek : Z) (tokens : list Z) : Exc (list RawSegment * Z) :=
  let current_segments := [] in
  ste <-? single_timestamp_ending tokenizer tokens ;;
  consecutive <-? consecutive_timestamps tokenizer tokens ;;
  if len consecutive >? 0 then
    let slices := consecutive in
    let slices := if ste : bool then slices ++ [len tokens] else slices in
    ' (current_segments, last_slice) <-?
      slice_loop self tokenizer time_offset tokens slices 0 current_segments ;;
    if ste then
      eret (current_segments, seek + segment_size)
    else
      t <-? py_index tokens (last_slice - 1) ;;
      let last_timestamp_position := t - timestamp_begin tokenizer in
      eret (current_segments,
            seek + last_timestamp_position * input_stride self)
  else
    let duration := segment_duration in
    let timestamps :=
      filter (fun token => token >=? timestamp_begin tokenizer) tokens in
    duration <-?
      (if len timestamps >? 0 then
         t <-? py_index timestamps (-1) ;;
         if negb (t =? timestamp_begin tokenizer) then
           let last_timestamp_position := t - timestamp_begin tokenizer in
           eret (fmul (of_int last_timestamp_position) (time_precision self))
         else eret duration
       else eret duration) ;;
    let current_segments :=
      current_segments ++
      [ {| seg_start := time_offset; seg_end := fadd time_offset duration;
           seg_tokens := tokens |} ] in
    eret (current_segments, seek + segment_size).

(** The no-voice-activity test: [true] when [continue] is reached. *)
Definition no_speech_skip (options : TranscriptionOptions)
    (result : WhisperGenerationResult) (avg_log_prob : float) : bool :=
  match no_speech_threshold options with
  | Some nst =>
      let should_skip := fgt (no_speech_prob result) nst in
      let should_skip :=
        match log_prob_threshold options with
        | Some lpt => if fgt avg_log_prob lpt then false else should_skip
        | None => should_skip
        end in
      should_skip
  | None => false
  end.

(** [for segment in current_segments]: the extended [all_tokens] and the
    segments yielded. *)
Fixpoint emit_loop (tokenizer : Tokenizer) (current_segments : list RawSegment)
    (all_tokens : list Z) : list Z * list Segment :=
  match current_segments with
  | [] => (all_tokens, [])
  | segment :: rest =>
      let tokens := seg_tokens segment in
      let all_tokens := all_tokens ++ tokens in
      let text := decode tokenizer tokens in
      if negb (str_truthy (strip text)) then
        emit_loop tokenizer rest all_tokens
      else
        let ' (all_tokens, yielded) := emit_loop tokenizer rest all_tokens in
        (all_tokens,
         {| start := seg_start segment; end_ := seg_end segment;
            text := text |} :: yielded)
  end.

(** What one pass through the body of [while seek < content_frames] did:
    it hit [continue], or it built [current_segments]. *)
Inductive WindowEvent : Type :=
| Skipped
| Decoded (current_segments : list RawSegment).

Definition segment_size_at (self : WhisperModel) (content_frames seek : Z) : Z :=
  Z.min (nb_max_frames (feature_extractor self)) (content_frames - seek).

(** [all_tokens[prompt_reset_since:]] *)
Definition previous_tokens_of (st : LoopState) : list Z :=
  py_slice (all_tokens st) (Some (prompt_reset_since st)) None.

(** One iteration of the [while] loop. *)
Definition window_body (self : WhisperModel) (features : list Frame)
    (tokenizer : Tokenizer) (options : TranscriptionOptions)
    (content_frames : Z) (st : LoopState)
    : M (WindowEvent * list Segment * LoopState) :=
  let time_offset :=
    fmul (of_int (seek st)) (time_per_frame (feature_extractor self)) in
  let segment :=
    py_slice features (Some (seek st))
      (Some (seek st + nb_max_frames (feature_extractor self))) in
  let segment_size := segment_size_at self content_frames (seek st) in
  let segment_duration :=
    fmul (of_int segment_size) (time_per_frame (feature_extractor self)) in
  let previous_tokens := previous_tokens_of st in
  let prompt :=
    get_prompt self tokenizer previous_tokens (without_timestamps options)
      (prefix options) in
  fb <- generate_with_fallback self segment prompt tokenizer options ;;
  match fb with
  | None =>
      (* [result] is [None]: its first attribute access raises *)
      raise AttributeError
  | Some (result, avg_log_prob, temperature) =>
      if no_speech_skip options result avg_log_prob then
        ret (Skipped, [],
             {| seek := seek st + segment_size;
                all_tokens := all_tokens st;
                prompt_reset_since := prompt_reset_since st |})
      else
        tokens <- lift (py_index (sequences_ids result) 0) ;;
        ' (current_segments, seek') <-
          lift (split_tokens self tokenizer time_offset segment_size
                  segment_duration (seek st) tokens) ;;
        let prompt_reset_since :=
          if negb (condition_on_previous_text options)
             || fgt temperature (lit 5 1)
          then len (all_tokens st)
          else prompt_reset_since st in
        let ' (all_tokens, yielded) :=
          emit_loop tokenizer current_segments (all_tokens st) in
        ret (Decoded current_segments, yielded,
             {| seek := seek';
                all_tokens := all_tokens;
                prompt_reset_since := prompt_reset_since |})
  end.

(** The state before the first iteration. *)
Definition initial_state (tokenizer : Tokenizer)
    (options : TranscriptionOptions) : LoopState :=
  let all_tokens := [] in
  let all_tokens :=
    match initial_prompt options with
    | Some p =>
        let initial_prompt := (" " ++ strip p)%string in
        let initial_prompt_tokens := encode tokenizer initial_prompt in
        all_tokens ++ initial_prompt_tokens
    | None => all_tokens
    end in
  {| seek := 0; all_tokens := all_tokens; prompt_reset_since := 0 |}.

(** How a run of the generator ends: the loop condition became false, an
    exception escaped, or the iteration budget of the model was used
    up with the loop still running. *)
Inductive Outcome : Type :=
| Finished (st : LoopState) (w : World)
| Raised (e : exn)
| Running (st : LoopState) (w : World).

(** The [while] loop, run for at most [fuel] iterations: the segments
    yielded so far and how the run stands. *)
Fixpoint while_loop (self : WhisperModel) (features : list Frame)
    (tokenizer : Tokenizer) (options : TranscriptionOptions)
    (content_frames : Z) (fuel : nat) (st : LoopState) (w : World)
    : list Segment * Outcome :=
  if seek st <? content_frames then
    match fuel with
    | O => ([], Running st w)
    | S fuel' =>
        match window_body self features tokenizer options content_frames st w with
        | inl e => ([], Raised e)
        | inr ((_, yielded), st', w') =>
            let ' (more, out) :=
              while_loop self features tokenizer options content_frames
                fuel' st' w' in
            (yielded ++ more, out)
        end
    end
  else ([], Finished st w).

Definition generate_segments (self : WhisperModel) (features : list Frame)
    (tokenizer : Tokenizer) (options : TranscriptionOptions)
    (fuel : nat) (w : World) : list Segment * Outcome :=
  let content_frames :=
    len features - nb_max_frames (feature_extractor self) in
  while_loop self features tokenizer options content_frames fuel
    (initial_state tokenizer options) w.

End Model.

Arguments Skipped {PF}.
Arguments Raised {World} e.

(* ================================================================== *)
(** ** [transcribe] *)

(** Indexing a Python [str] counts characters.  In the UTF-8 encoding a
    character is a lead byte with the continuation bytes (10xxxxxx)
    that follow it. *)
Definition is_continuation (c : ascii) : bool :=
  let n := nat_of_ascii c in ((128 <=? n) && (n <? 192))%nat.

Definition starts_with_continuation (s : string) : bool :=
  match s with
  | EmptyString => false
  | String c _ => is_continuation c
  end.

(** The characters of a string, in order. *)
Fixpoint utf8_chars (s : string) : list string :=
  match s with
  | EmptyString => []
  | String c rest =>
      match utf8_chars rest with
      | [] => [String c EmptyString]
      | ch :: more =>
          if starts_with_continuation ch then String c ch :: more
          else String c EmptyString :: ch :: more
      end
  end.

Definition join_chars (chars : list string) : string :=
  fold_right String.append EmptyString chars.

(** [s[start:stop]] for a [str]. *)
Definition str_slice (s : string) (start stop : option Z) : string :=
  join_chars (py_slice (utf8_chars s) start stop).

Section Transcribe.

Context {PF : PyFloat} {PL : PyLib}.

Variables World Frame : Type.

(** An audio waveform ([np.ndarray]) and anything else [transcribe]
    accepts as [audio] (a path or a file-like object). *)
Variables Waveform AudioFile : Type.

Inductive AudioInput : Type :=
| AudioArray (waveform : Waveform)
| AudioSource (source : AudioFile).

(** The [temperature] argument: one value, or a list or tuple. *)
Inductive TemperatureArg : Type :=
| TemperatureValue (t : float)
| TemperatureList (ts : list float).

Record AudioInfo : Type := {
  language : string;
  language_probability : float
}.

(** What [transcribe] uses besides [self.model.generate]: the other
    attributes of [self.model] and of [self.feature_extractor], the
    imported [decode_audio], and the construction of a [Tokenizer] from
    [self.hf_tokenizer]. *)
Record Collaborators : Type := {
  is_multilingual : bool;
  detect_language :
    list (list Frame) -> M World (list (list (string * float)));
  sampling_rate : Z;
  decode_audio : AudioFile -> Z -> Exc Waveform;
  extract_features : Waveform -> list Frame;
  new_tokenizer : bool -> string -> string -> Exc Tokenizer
}.

(** The generator [transcribe] returns: nothing of it has run yet. *)
Definition SegmentGenerator : Type :=
  nat -> World -> list Segment * Outcome World.

Definition transcribe (self : WhisperModel World Frame) (env : Collaborators)
    (audio : AudioInput) (language : option string) (task : string)
    (beam_size best_of : Z) (patience length_penalty : float)
    (temperature : TemperatureArg)
    (compression_ratio_threshold log_prob_threshold no_speech_threshold
       : option float)
    (condition_on_previous_text : bool)
    (initial_prompt prefix : option string)
    (suppress_blank : bool) (suppress_tokens : option (list Z))
    (without_timestamps : bool) (max_initial_timestamp : float)
    : M World (SegmentGenerator * AudioInfo) :=
  bind
    (lift
       (match audio with
        | AudioArray waveform => eret waveform
        | AudioSource source => decode_audio env source (sampling_rate env)
        end))
    (fun audio =>
  let features := extract_features env audio in
  bind
    (match language with
     | None =>
         if negb (is_multilingual env) then
           ret ("en"%string, of_int 1)
         else
           let segment :=
             py_slice features None
               (Some (nb_max_frames (feature_extractor self))) in
           let input := get_input segment in
           bind (detect_language env input) (fun results =>
           bind (lift (py_index results 0)) (fun best =>
           bind (lift (py_index best 0)) (fun first =>
           let ' (language_token, language_probability) := first in
           let language := str_slice language_token (Some 2) (Some (-2)) in
           ret (language, language_probability))))
     | Some language => ret (language, of_int 1)
     end)
    (fun detected =>
  let ' (language, language_probability) := detected in
  bind
    (lift (new_tokenizer env (is_multilingual env) task language))
    (fun tokenizer =>
  let options :=
    {| beam_size := beam_size;
       best_of := best_of;
       patience := patience;
       length_penalty := length_penalty;
       log_prob_threshold := log_prob_threshold;
       no_speech_threshold := no_speech_threshold;
       compression_ratio_threshold := compression_ratio_threshold;
       condition_on_previous_text := condition_on_previous_text;
       temperatures :=
         match temperature with
         | TemperatureList ts => ts
         | TemperatureValue t => [t]
         end;
       initial_prompt := initial_prompt;
       prefix := prefix;
       suppress_blank := suppress_blank;
       suppress_tokens := suppress_tokens;
       without_timestamps := without_timestamps;
       max_initial_timestamp := max_initial_timestamp |} in
  let segments : SegmentGenerator :=
    generate_segments self features tokenizer options in
  let audio_info :=
    {| language := language;
       language_probability := language_probability |} in
  ret (segments, audio_info)))).

End Transcribe.

Arguments AudioArray {Waveform AudioFile} waveform.
Arguments AudioSource {Waveform AudioFile} source.

(* ================================================================== *)
(** ** A concrete runtime for worked examples *)

Module Binary64.

(** IEEE doubles.  The conversion from [int] is exact below [2^53] and
    is only meant for magnitudes below [2^63]. *)
Definition b64_of_int (z : Z) : PrimFloat.float :=
  if z <? 0 then PrimFloat.opp (PrimFloat.of_uint63 (Uint63.of_Z (- z)))
  else PrimFloat.of_uint63 (Uint63.of_Z z).

(** The integer nearest to [n / d], ties to even, for [d > 0]. *)
Definition round_half_even (n d : Z) : Z :=
  let q := n / d in
  let r := n mod d in
  if 2 * r <? d then q
  else if d <? 2 * r then q + 1
  else if Z.even q then q else q + 1.

(** The bias [frshiftexp] adds to the exponent it returns. *)
Definition frexp_shift : Z := 2101.

(** The value of a finite double as [m * 2^e] with [m] an integer. *)
Definition b64_decompose (x : PrimFloat.float) : Z * Z :=
  let ' (f, e) := PrimFloat.frshiftexp (PrimFloat.abs x) in
  (Uint63.to_Z (PrimFloat.normfr_mantissa f),
   Uint63.to_Z e - frexp_shift - 53).

Definition b64_is_finite (x : PrimFloat.float) : bool :=
  PrimFloat.ltb (PrimFloat.abs x) PrimFloat.infinity.

(** [round(x)] *)
Definition b64_round (x : PrimFloat.float) : Exc Z :=
  if PrimFloat.is_nan x then eraise ValueError
  else if negb (b64_is_finite x) then eraise OverflowError
  else
    let ' (m, e) := b64_decompose x in
    let a := if 0 <=? e then m * 2 ^ e else round_half_even m (2 ^ (- e)) in
    eret (if PrimFloat.ltb x PrimFloat.zero then - a else a).

(** [n ** x] for the exponents the examples use, integers; any other
    exponent is reported as [ValueError] by this stand-in. *)
Definition b64_pow_int (n : Z) (x : PrimFloat.float) : Exc PrimFloat.float :=
  if negb (b64_is_finite x) then eraise ValueError
  else
    let ' (m, e) := b64_decompose x in
    if (e <? 0) && negb (m mod 2 ^ (- e) =? 0) then eraise ValueError
    else
      let k := if 0 <=? e then m * 2 ^ e else m / 2 ^ (- e) in
      if PrimFloat.ltb x PrimFloat.zero then
        if n =? 0 then eraise ZeroDivisionError
        else eret (PrimFloat.div PrimFloat.one (b64_of_int (n ^ k)))
      else eret (b64_of_int (n ^ k)).

#[export] Instance binary64 : PyFloat := {|
  float := PrimFloat.float;
  of_int := b64_of_int;
  lit := fun m e => PrimFloat.div (b64_of_int m) (b64_of_int (10 ^ Z.of_nat e));
  fadd := PrimFloat.add;
  fmul := PrimFloat.mul;
  fdiv := PrimFloat.div;
  int_truediv := fun a b => PrimFloat.div (b64_of_int a) (b64_of_int b);
  fpow_int := b64_pow_int;
  fround := b64_round;
  fgt := fun x y => PrimFloat.ltb y x;
  flt := fun x y => PrimFloat.ltb x y
|}.

End Binary64.

Module AsciiLib.

(** [str.isspace] on ASCII. *)
Definition is_space (c : ascii) : bool :=
  let n := nat_of_ascii c in
  ((9 <=? n) && (n <=? 13) || (28 <=? n) && (n <=? 32))%nat.

Fixpoint lstrip (s : string) : string :=
  match s with
  | EmptyString => EmptyString
  | String c s' => if is_space c then lstrip s' else s
  end.

Fixpoint rstrip (s : string) : string :=
  match s with
  | EmptyString => EmptyString
  | String c s' =>
      match rstrip s' with
      | EmptyString => if is_space c then EmptyString else String c EmptyString
      | r => String c r
      end
  end.

(** A stand-in for [zlib.compress] that stores its input: two header
    bytes, a five-byte block header, the data, a four-byte checksum. *)
Definition stored (s : string) : string :=
  ("xx" ++ "bbbbb" ++ s ++ "cccc")%string.

#[export] Instance ascii_lib : PyLib := {|
  strip := fun s => rstrip (lstrip s);
  zlib_compress := stored
|}.

End AsciiLib.

(* ================================================================== *)
(** ** Worked inputs *)

Module Examples.

Import Binary64 AsciiLib.

(** A byte-level tokenizer with Whisper's multilingual special tokens:
    text tokens are byte values, decoding drops every other token. *)
Definition byte_tokenizer : Tokenizer := {|
  encode := fun s => map (fun c => Z.of_nat (nat_of_ascii c)) (list_ascii_of_string s);
  decode := fun toks =>
    string_of_list_ascii
      (map (fun t => ascii_of_nat (Z.to_nat t))
         (filter (fun t => (0 <=? t) && (t <? 256)) toks));
  sot_prev := 50361;
  sot_sequence := [50258; 50259; 50359];
  no_timestamps := 50363;
  timestamp_begin := 50364
|}.

(** The feature extractor's constants: 3000 frames of 10 ms. *)
Definition extractor : FeatureExtractor :=
  {| nb_max_frames := 3000; time_per_frame := lit 1 2 |}.

(** The defaults of [transcribe]. *)
Definition default_options : TranscriptionOptions := {|
  beam_size := 5;
  best_of := 5;
  patience := of_int 1;
  length_penalty := of_int 1;
  log_prob_threshold := Some (PrimFloat.opp (of_int 1));
  no_speech_threshold := Some (lit 6 1);
  compression_ratio_threshold := Some (lit 24 1);
  condition_on_previous_text := true;
  temperatures := [lit 0 1; lit 2 1; lit 4 1; lit 6 1; lit 8 1; lit 10 1];
  initial_prompt := None;
  prefix := None;
  suppress_blank := true;
  suppress_tokens := Some [-1];
  without_timestamps := false;
  max_initial_timestamp := of_int 1
|}.

Definition with_initial_prompt (o : TranscriptionOptions) (p : option string)
    : TranscriptionOptions :=
  {| beam_size := beam_size o; best_of := best_of o; patience := patience o;
     length_penalty := length_penalty o;
     log_prob_threshold := log_prob_threshold o;
     no_speech_threshold := no_speech_threshold o;
     compression_ratio_threshold := compression_ratio_threshold o;
     condition_on_previous_text := condition_on_previous_text o;
     temperatures := temperatures o;
     initial_prompt := p;
     prefix := prefix o;
     suppress_blank := suppress_blank o;
     suppress_tokens := suppress_tokens o;
     without_timestamps := without_timestamps o;
     max_initial_timestamp := max_initial_timestamp o |}.

Definition with_condition_on_previous_text (o : TranscriptionOptions)
    (b : bool) : TranscriptionOptions :=
  {| beam_size := beam_size o; best_of := best_of o; patience := patience o;
     length_penalty := length_penalty o;
     log_prob_threshold := log_prob_threshold o;
     no_speech_threshold := no_speech_threshold o;
     compression_ratio_threshold := compression_ratio_threshold o;
     condition_on_previous_text := b;
     temperatures := temperatures o;
     initial_prompt := initial_prompt o;
     prefix := prefix o;
     suppress_blank := suppress_blank o;
     suppress_tokens := suppress_tokens o;
     without_timestamps := without_timestamps o;
     max_initial_timestamp := max_initial_timestamp o |}.

(** A decoder that answers every call with the same single hypothesis
    and records the prompts it was given. *)
Definition constant_decoder (tokens : list Z) (score no_speech : PrimFloat.float)
    : GenerateCall unit -> M (list (list Z)) (list WhisperGenerationResult) :=
  fun call log =>
    inr ([ {| sequences_ids := [tokens]; scores := [score];
              no_speech_prob := no_speech |} ],
         log ++ call_prompts call).

(** A decoder that replays a script, one result per call, and raises
    once the script is used up. *)
Definition scripted_decoder
    : GenerateCall unit ->
      M (list WhisperGenerationResult) (list WhisperGenerationResult) :=
  fun _ script =>
    match script with
    | [] => inl CollaboratorError
    | r :: rest => inr ([r], rest)
    end.

Definition one_hypothesis (tokens : list Z) (score no_speech : PrimFloat.float)
    : WhisperGenerationResult :=
  {| sequences_ids := [tokens]; scores := [score];
     no_speech_prob := no_speech |}.

(** [n] frames of (empty) features. *)
Definition silence (n : Z) : list unit := repeat tt (Z.to_nat n).

(** The first timestamp token, [<|0.00|>]. *)
Definition tb : Z := 50364.

(** A decoder that always answers "hi" between 0.00 s and 1.00 s. *)
Definition hi_decoder
    : GenerateCall unit -> M (list (list Z)) (list WhisperGenerationResult) :=
  constant_decoder [tb; 104; 105; tb + 50] (PrimFloat.opp (lit 25 2))
    (lit 1 1).

Definition says_hi : WhisperModel (list (list Z)) unit :=
  init hi_decoder extractor.

(** A decoder that always answers with two [<|0.00|>] tokens. *)
Definition says_nothing : WhisperModel (list (list Z)) unit :=
  init (constant_decoder [tb; tb] (PrimFloat.opp (lit 1 1)) (lit 1 1))
    extractor.

(** A decoder sure of silence: high no-speech probability, low score. *)
Definition hears_silence : WhisperModel (list (list Z)) unit :=
  init (constant_decoder [tb; 104; 105; tb + 50] (PrimFloat.opp (of_int 2))
          (lit 9 1)) extractor.

(** A decoder that replays a script. *)
Definition replays : WhisperModel (list WhisperGenerationResult) unit :=
  init scripted_decoder extractor.

Definition state0 : LoopState :=
  {| seek := 0; all_tokens := []; prompt_reset_since := 0 |}.

(** What [says_hi] makes of a window that starts at 0 s. *)
Definition hi_raw : RawSegment :=
  {| seg_start := 0%float; seg_end := 1%float;
     seg_tokens := [tb; 104; 105; tb + 50] |}.

Definition hi_segment : Segment :=
  {| start := 0%float; end_ := 1%float; text := "hi" |}.

Definition hi_result : WhisperGenerationResult :=
  one_hypothesis [tb; 104; 105; tb + 50] (-0.25)%float (lit 1 1).

(** Timestamps out of order: 0.10 s, a text token, 0.00 s. *)
Definition backwards : list Z := [tb + 5; 104; tb].

(** Two sentences: 1.00 s to 2.00 s and 2.00 s to 3.00 s. *)
Definition two_sentences : list Z :=
  [tb + 50; 104; 105; tb + 100; tb + 100; 106; tb + 150].

(** A script whose first entry is too unlikely to be accepted. *)
Definition first_try : WhisperGenerationResult :=
  one_hypothesis [tb; 104; tb + 50] (-3)%float (lit 1 1).

Definition second_try : WhisperGenerationResult :=
  one_hypothesis [tb; 105; tb + 50] (-0.5)%float (lit 1 1).

Definition third_try : WhisperGenerationResult :=
  one_hypothesis [tb; 106; tb + 50] (-0.5)%float (lit 1 1).

Definition poor_then_good : list WhisperGenerationResult :=
  [first_try; second_try; third_try].

Definition silent_result : WhisperGenerationResult :=
  one_hypothesis [tb; 104; 105; tb + 50] (-2)%float (lit 9 1).

(** What [says_nothing] makes of a window that starts at 0 s. *)
Definition nothing_raw : RawSegment :=
  {| seg_start := 0%float; seg_end := 0%float; seg_tokens := [tb] |}.

Definition nothing_result : WhisperGenerationResult :=
  one_hypothesis [tb; tb] (PrimFloat.opp (lit 1 1)) (lit 1 1).

Definition nothing_avg : PrimFloat.float :=
  PrimFloat.div (PrimFloat.mul (PrimFloat.opp (lit 1 1)) 2%float) 3%float.

Definition no_context : TranscriptionOptions :=
  with_condition_on_previous_text default_options false.

Definition with_temperatures (o : TranscriptionOptions)
    (ts : list PrimFloat.float) : TranscriptionOptions :=
  {| beam_size := beam_size o; best_of := best_of o; patience := patience o;
     length_penalty := length_penalty o;
     log_prob_threshold := log_prob_threshold o;
     no_speech_threshold := no_speech_threshold o;
     compression_ratio_threshold := compression_ratio_threshold o;
     condition_on_previous_text := condition_on_previous_text o;
     temperatures := ts;
     initial_prompt := initial_prompt o;
     prefix := prefix o;
     suppress_blank := suppress_blank o;
     suppress_tokens := suppress_tokens o;
     without_timestamps := without_timestamps o;
     max_initial_timestamp := max_initial_timestamp o |}.

Definition with_no_speech_threshold (o : TranscriptionOptions)
    (thr : option PrimFloat.float) : TranscriptionOptions :=
  {| beam_size := beam_size o; best_of := best_of o; patience := patience o;
     length_penalty := length_penalty o;
     log_prob_threshold := log_prob_threshold o;
     no_speech_threshold := thr;
     compression_ratio_threshold := compression_ratio_threshold o;
     condition_on_previous_text := condition_on_previous_text o;
     temperatures := temperatures o;
     initial_prompt := initial_prompt o;
     prefix := prefix o;
     suppress_blank := suppress_blank o;
     suppress_tokens := suppress_tokens o;
     without_timestamps := without_timestamps o;
     max_initial_timestamp := max_initial_timestamp o |}.

Definition with_prefix (o : TranscriptionOptions) (p : option string)
    : TranscriptionOptions :=
  {| beam_size := beam_size o; best_of := best_of o; patience := patience o;
     length_penalty := length_penalty o;
     log_prob_threshold := log_prob_threshold o;
     no_speech_threshold := no_speech_threshold o;
     compression_ratio_threshold := compression_ratio_threshold o;
     condition_on_previous_text := condition_on_previous_text o;
     temperatures := temperatures o;
     initial_prompt := initial_prompt o;
     prefix := p;
     suppress_blank := suppress_blank o;
     suppress_tokens := suppress_tokens o;
     without_timestamps := without_timestamps o;
     max_initial_timestamp := max_initial_timestamp o |}.

(** Neither a compression-ratio nor a log-probability threshold. *)
Definition no_thresholds : TranscriptionOptions :=
  {| beam_size := 5; best_of := 5; patience := of_int 1;
     length_penalty := of_int 1;
     log_prob_threshold := None;
     no_speech_threshold := Some (lit 6 1);
     compression_ratio_threshold := None;
     condition_on_previous_text := true;
     temperatures := [lit 0 1; lit 2 1; lit 4 1; lit 6 1; lit 8 1; lit 10 1];
     initial_prompt := None;
     prefix := None;
     suppress_blank := true;
     suppress_tokens := Some [-1];
     without_timestamps := false;
     max_initial_timestamp := of_int 1 |}.

(** No temperature to try. *)
Definition no_ladder : TranscriptionOptions :=
  with_temperatures default_options [].

(** No no-speech gate. *)
Definition no_gate : TranscriptionOptions :=
  with_no_speech_threshold default_options None.

(** A decoder that fails on every call. *)
Definition broken_decoder
    : GenerateCall unit -> M (list (list Z)) (list WhisperGenerationResult) :=
  fun _ _ => inl CollaboratorError.

Definition breaks : WhisperModel (list (list Z)) unit :=
  init broken_decoder extractor.

(** The state [says_hi] leaves after its first window. *)
Definition state1 : LoopState :=
  {| seek := 3000; all_tokens := [tb; 104; 105; tb + 50];
     prompt_reset_since := 0 |}.

(** The state [says_hi] leaves after its second window, and what it
    makes of that window, which starts at 30 s. *)
Definition state2 : LoopState :=
  {| seek := 6000;
     all_tokens := [tb; 104; 105; tb + 50; tb; 104; 105; tb + 50];
     prompt_reset_since := 0 |}.

Definition hi_again_raw : RawSegment :=
  {| seg_start := 30%float; seg_end := 31%float;
     seg_tokens := [tb; 104; 105; tb + 50] |}.

Definition hi_again_segment : Segment :=
  {| start := 30%float; end_ := 31%float; text := "hi" |}.

(** The prompts of the two windows of [says_hi]. *)
Definition first_prompt : list Z := [50258; 50259; 50359].

Definition second_prompt : list Z :=
  [50361; tb; 104; 105; tb + 50; 50258; 50259; 50359].

(** Collaborators of [transcribe]: a waveform is its number of frames,
    an audio source is a path, each language detection is logged as
    [[-1]], and the answer of the detection is fixed. *)
Definition collaborators (multilingual : bool)
    (answer : list (list (string * PrimFloat.float)))
    : Collaborators (list (list Z)) unit Z string :=
  {| is_multilingual := multilingual;
     detect_language := fun _ log => inr (answer, log ++ [[-1]]);
     sampling_rate := 16000;
     decode_audio := fun path _ =>
       if String.eqb path EmptyString then inl ValueError else inr 9000;
     extract_features := silence;
     new_tokenizer := fun _ _ _ => inr byte_tokenizer |}.

Definition english_only : Collaborators (list (list Z)) unit Z string :=
  collaborators false [].

Definition hears_french : Collaborators (list (list Z)) unit Z string :=
  collaborators true [[("<|fr|>"%string, lit 9 1); ("<|en|>"%string, lit 1 1)]].

Definition hears_no_language : Collaborators (list (list Z)) unit Z string :=
  collaborators true [].

(** The options [transcribe] builds from its defaults and one
    temperature, 0. *)
Definition greedy_options : TranscriptionOptions :=
  with_temperatures default_options [lit 0 1].

End Examples.

(* ================================================================== *)
(** ** Vocabulary of the statements *)

Section Vocabulary.

Context {PF : PyFloat} {PL : PyLib}.

(** The Segment the loop yields for a raw segment. *)
Definition segment_of (tokenizer : Tokenizer) (r : RawSegment) : Segment :=
  {| start := seg_start r; end_ := seg_end r;
     text := decode tokenizer (seg_tokens r) |}.

(** The decoded text of a raw segment is not blank. *)
Definition has_text (tokenizer : Tokenizer) (r : RawSegment) : bool :=
  str_truthy (strip (decode tokenizer (seg_tokens r))).

(** The prompt as the specification words it: the prefix part is there
    whenever a prefix is supplied. *)
Definition prompt_as_specified (tokenizer : Tokenizer)
    (previous_tokens : list Z) (without_timestamps : bool)
    (prefix : option string) : list Z :=
  (match previous_tokens with
   | [] => []
   | _ => sot_prev tokenizer
          :: skipn (List.length previous_tokens - 223) previous_tokens
   end)
  ++ sot_sequence tokenizer
  ++ (if without_timestamps then [no_timestamps tokenizer] else [])
  ++ (match prefix with
      | Some p => firstn 223 (encode tokenizer (" " ++ strip p)%string)
      | None => []
      end).

(** *** Timestamps in a token sequence *)

Definition is_timestamp (tokenizer : Tokenizer) (t : Z) : bool :=
  timestamp_begin tokenizer <=? t.

(** Index [i > 0] is a boundary: the tokens at [i - 1] and [i] are both
    timestamps. *)
Definition boundary (tokenizer : Tokenizer) (tokens : list Z) (i : Z) : Prop :=
  0 < i /\
  exists a b,
    nth_error tokens (Z.to_nat (i - 1)) = Some a /\
    nth_error tokens (Z.to_nat i) = Some b /\
    timestamp_begin tokenizer <= a /\ timestamp_begin tokenizer <= b.

(** The same as a test, for indices below the length. *)
Definition boundaryb (tokenizer : Tokenizer) (tokens : list Z) (i : Z) : bool :=
  (0 <? i)
  && is_timestamp tokenizer (nth (Z.to_nat i) tokens 0)
  && is_timestamp tokenizer (nth (Z.to_nat (i - 1)) tokens 0).

(** The sequence ends in one timestamp that follows a token that is not
    a timestamp. *)
Definition ends_with_single_timestamp (tokenizer : Tokenizer)
    (tokens : list Z) : Prop :=
  exists pre a b,
    tokens = pre ++ [a; b] /\
    a < timestamp_begin tokenizer /\ timestamp_begin tokenizer <= b.

(** The last timestamp token of the sequence, if it has one. *)
Definition last_timestamp (tokenizer : Tokenizer) (tokens : list Z)
    : option Z :=
  match filter (is_timestamp tokenizer) tokens with
  | [] => None
  | t :: rest => Some (last rest t)
  end.

(** The tokens from index [a] up to index [b]. *)
Definition tokens_between (tokens : list Z) (a b : Z) : list Z :=
  firstn (Z.to_nat (b - a)) (skipn (Z.to_nat a) tokens).

(** [l] increases strictly, from above [from] up to [upto] at most. *)
Fixpoint ascending (from : Z) (l : list Z) (upto : Z) : Prop :=
  match l with
  | [] => True
  | x :: rest => from < x <= upto /\ ascending x rest upto
  end.

(** Cutting [tokens] at the indices [slices], starting from [from]. *)
Fixpoint chunks (tokens : list Z) (slices : list Z) (from : Z)
    : list (list Z) :=
  match slices with
  | [] => []
  | s :: rest => tokens_between tokens from s :: chunks tokens rest s
  end.

Variables World Frame : Type.

(** The raw segment of a chunk: its times are the offsets of its first
    and last token from [timestamp_begin], scaled by [time_precision]
    and added to [time_offset]. *)
Definition chunk_segment (self : WhisperModel World Frame)
    (tokenizer : Tokenizer) (time_offset : float) (chunk : list Z)
    : RawSegment :=
  {| seg_start :=
       fadd time_offset
         (fmul (of_int (hd 0 chunk - timestamp_begin tokenizer))
            (time_precision self));
     seg_end :=
       fadd time_offset
         (fmul (of_int (last chunk 0 - timestamp_begin tokenizer))
            (time_precision self));
     seg_tokens := chunk |}.

(** The duration of the only segment of an output without boundary:
    that of its last timestamp, unless there is none or it is
    [timestamp_begin] itself. *)
Definition single_segment_duration (self : WhisperModel World Frame)
    (tokenizer : Tokenizer) (segment_duration : float) (tokens : list Z)
    : float :=
  match last_timestamp tokenizer tokens with
  | Some t =>
      if t =? timestamp_begin tokenizer then segment_duration
      else fmul (of_int (t - timestamp_begin tokenizer)) (time_precision self)
  | None => segment_duration
  end.

(** The output makes the loop stand still: it has boundaries, does not
    end in a single timestamp, and the token before its last boundary is
    [timestamp_begin] itself. *)
Definition stalls (tokenizer : Tokenizer) (tokens : list Z) : Prop :=
  ~ ends_with_single_timestamp tokenizer tokens /\
  exists i,
    boundary tokenizer tokens i /\
    (forall j, boundary tokenizer tokens j -> j <= i) /\
    nth_error tokens (Z.to_nat (i - 1)) = Some (timestamp_begin tokenizer).

(** No first hypothesis the decoder returns makes the loop stand still. *)
Definition never_stalls
    (generate : GenerateCall Frame -> M World (list WhisperGenerationResult))
    (tokenizer : Tokenizer) : Prop :=
  forall call w results w' r tokens,
    generate call w = inr (results, w') ->
    py_index results 0 = inr r ->
    py_index (sequences_ids r) 0 = inr tokens ->
    ~ stalls tokenizer tokens.

(** The duration of the single segment as the specification words it:
    that of some timestamp other than [timestamp_begin] if there is
    one, [segment_duration] otherwise. *)
Definition duration_as_specified (self : WhisperModel World Frame)
    (tokenizer : Tokenizer) (segment_duration : float) (tokens : list Z)
    (duration : float) : Prop :=
  ((exists t, In t tokens /\ timestamp_begin tokenizer <= t /\
              t <> timestamp_begin tokenizer) ->
   exists t, In t tokens /\ timestamp_begin tokenizer <= t /\
             t <> timestamp_begin tokenizer /\
             duration =
               fmul (of_int (t - timestamp_begin tokenizer))
                 (time_precision self)) /\
  (~ (exists t, In t tokens /\ timestamp_begin tokenizer <= t /\
                t <> timestamp_begin tokenizer) ->
   duration = segment_duration).

(** Every temperature of a list was tried in turn and needed a
    fallback, taking the decoder from [w] to [w']. *)
Inductive all_need_fallback
    (attempt : float -> M World (WhisperGenerationResult * float * bool))
    : list float -> World -> World -> Prop :=
| anf_nil w : all_need_fallback attempt [] w w
| anf_cons t rest w w1 w2 r avg :
    attempt t w = inr (r, avg, true, w1) ->
    all_need_fallback attempt rest w1 w2 ->
    all_need_fallback attempt (t :: rest) w w2.

(** The quantities an iteration computes from the loop state. *)
Definition window_time_offset (self : WhisperModel World Frame)
    (st : LoopState) : float :=
  fmul (of_int (seek st)) (time_per_frame (feature_extractor self)).

Definition window_segment (self : WhisperModel World Frame)
    (features : list Frame) (st : LoopState) : list Frame :=
  py_slice features (Some (seek st))
    (Some (seek st + nb_max_frames (feature_extractor self))).

Definition window_duration (self : WhisperModel World Frame)
    (content_frames : Z) (st : LoopState) : float :=
  fmul (of_int (segment_size_at self content_frames (seek st)))
    (time_per_frame (feature_extractor self)).

Definition window_prompt (self : WhisperModel World Frame)
    (tokenizer : Tokenizer) (options : TranscriptionOptions)
    (st : LoopState) : list Z :=
  get_prompt self tokenizer (previous_tokens_of st)
    (without_timestamps options) (prefix options).

(** The decoding of the window at [st]. *)
Definition window_decode (self : WhisperModel World Frame)
    (features : list Frame) (tokenizer : Tokenizer)
    (options : TranscriptionOptions) (st : LoopState)
    : M World (option (WhisperGenerationResult * float * float)) :=
  generate_with_fallback self (window_segment self features st)
    (window_prompt self tokenizer options st) tokenizer options.

(** The prompt-reset test of the loop. *)
Definition resets_prompt (options : TranscriptionOptions)
    (temperature : float) : bool :=
  negb (condition_on_previous_text options) || fgt temperature (lit 5 1).

(** *** Strings *)

(** All bytes of the string are ASCII. *)
Fixpoint all_ascii (s : string) : bool :=
  match s with
  | EmptyString => true
  | String c rest => (nat_of_ascii c <? 128)%nat && all_ascii rest
  end.

(** *** The history *)

(** [prompt_reset_since] is an index into [all_tokens]. *)
Definition history_ok (st : LoopState) : Prop :=
  0 <= prompt_reset_since st <= len (all_tokens st).

(** The state in which a run stands, unless it raised. *)
Definition final_state (out : Outcome World) : option LoopState :=
  match out with
  | Finished st _ => Some st
  | Running st _ => Some st
  | Raised _ => None
  end.

End Vocabulary.

(* ================================================================== *)
(** ** Lists, indices and slices *)

Section ListFacts.

Variable A : Type.
Implicit Types l : list A.

Lemma len_nonneg l : 0 <= len l.
Proof. unfold len; lia. Qed.

Lemma len_app l1 l2 : len (l1 ++ l2) = len l1 + len l2.
Proof. unfold len; rewrite length_app; lia. Qed.

Lemma len_nil_iff l : len l = 0 <-> l = [].
Proof.
  unfold len; destruct l; simpl; split; intro H; try reflexivity;
    try discriminate; lia.
Qed.

Lemma py_index_nat l (i : Z) :
  0 <= i ->
  py_index l i =
    match nth_error l (Z.to_nat i) with
    | Some a => inr a
    | None => inl IndexError
    end.
Proof.
  intros Hi. unfold py_index.
  destruct (i <? 0) eqn:E; [apply Z.ltb_lt in E; lia|].
  rewrite E. reflexivity.
Qed.

Lemma py_index_from_end l (k : Z) :
  0 < k <= len l ->
  py_index l (- k) =
    match nth_error l (Z.to_nat (len l - k)) with
    | Some a => inr a
    | None => inl IndexError
    end.
Proof.
  intros Hk. unfold py_index.
  destruct (- k <? 0) eqn:E; [|apply Z.ltb_ge in E; lia].
  destruct (- k + len l <? 0) eqn:E2; [apply Z.ltb_lt in E2; lia|].
  replace (- k + len l) with (len l - k) by lia. reflexivity.
Qed.

Lemma py_index_head l d : l <> [] -> py_index l 0 = inr (hd d l).
Proof.
  intros H. rewrite py_index_nat by lia. destruct l; [congruence|reflexivity].
Qed.

Lemma nth_error_last l d :
  l <> [] -> nth_error l (List.length l - 1) = Some (last l d).
Proof.
  induction l as [|a l IH]; [congruence|]. intros _.
  destruct l as [|b l]; [reflexivity|].
  assert (Hb : b :: l <> []) by discriminate.
  specialize (IH Hb).
  replace (List.length (a :: b :: l) - 1)%nat with (S (List.length (b :: l) - 1))
    by (simpl; lia).
  change (nth_error (b :: l) (List.length (b :: l) - 1) = Some (last (a :: b :: l) d)).
  exact IH.
Qed.

Lemma py_index_last l d : l <> [] -> py_index l (-1) = inr (last l d).
Proof.
  intros H.
  assert (0 < len l) by (unfold len; destruct l; [congruence|simpl; lia]).
  change (-1) with (- (1)). rewrite py_index_from_end by lia.
  replace (Z.to_nat (len l - 1)) with (List.length l - 1)%nat
    by (unfold len; lia).
  rewrite (nth_error_last d H). reflexivity.
Qed.

(** A slice with both bounds inside the list. *)
Lemma py_slice_inside l (a b : Z) :
  0 <= a <= b -> b <= len l ->
  py_slice l (Some a) (Some b) =
    firstn (Z.to_nat (b - a)) (skipn (Z.to_nat a) l).
Proof.
  intros Hab Hb. unfold py_slice, clamp_index.
  destruct (a <? 0) eqn:Ea; [apply Z.ltb_lt in Ea; lia|].
  destruct (b <? 0) eqn:Eb; [apply Z.ltb_lt in Eb; lia|].
  rewrite !Z.min_l by lia. reflexivity.
Qed.

(** [l[a:]] for a bound inside the list. *)
Lemma py_slice_suffix l (a : Z) :
  0 <= a <= len l -> py_slice l (Some a) None = skipn (Z.to_nat a) l.
Proof.
  intros Ha. unfold py_slice, clamp_index.
  destruct (a <? 0) eqn:Ea; [apply Z.ltb_lt in Ea; lia|].
  rewrite Z.min_l by lia.
  apply firstn_all2. rewrite length_skipn. unfold len. lia.
Qed.

(** [l[-k:]] keeps the last [k] elements. *)
Lemma py_slice_last_k l (k : Z) :
  0 < k ->
  py_slice l (Some (- k)) None = skipn (List.length l - Z.to_nat k) l.
Proof.
  intros Hk. unfold py_slice, clamp_index.
  destruct (- k <? 0) eqn:E; [|apply Z.ltb_ge in E; lia].
  replace (Z.to_nat (Z.max (- k + len l) 0)) with (List.length l - Z.to_nat k)%nat
    by (unfold len; lia).
  apply firstn_all2. rewrite length_skipn. unfold len. lia.
Qed.

(** [l[:k]] keeps the first [k] elements. *)
Lemma py_slice_first_k l (k : Z) :
  0 <= k -> py_slice l None (Some k) = firstn (Z.to_nat k) l.
Proof.
  intros Hk. unfold py_slice, clamp_index.
  destruct (k <? 0) eqn:E; [apply Z.ltb_lt in E; lia|].
  simpl skipn. rewrite Z.sub_0_r.
  destruct (Z.le_ge_cases k (len l)).
  - rewrite Z.min_l by lia. reflexivity.
  - rewrite Z.min_r by lia.
    rewrite !firstn_all2; unfold len in *; try lia. reflexivity.
Qed.

End ListFacts.

(* ================================================================== *)
(** ** The monads *)

Section MonadFacts.

Variable World : Type.

Lemma ebind_inr A B (m : Exc A) (k : A -> Exc B) b :
  ebind m k = inr b -> exists a, m = inr a /\ k a = inr b.
Proof. destruct m as [e|a]; simpl; [discriminate|]. eauto. Qed.

Lemma bind_inr A B (m : M World A) (k : A -> M World B) w b w' :
  bind m k w = inr (b, w') ->
  exists a w1, m w = inr (a, w1) /\ k a w1 = inr (b, w').
Proof.
  unfold bind. destruct (m w) as [e|[a w1]]; [discriminate|]. eauto.
Qed.

Lemma lift_inr A (m : Exc A) (w : World) a w' :
  lift m w = inr (a, w') -> m = inr a /\ w' = w.
Proof.
  unfold lift. destruct m as [e|x]; [discriminate|].
  intros H; inversion H; auto.
Qed.

Lemma ret_inr A (x : A) (w : World) a w' :
  ret x w = inr (a, w') -> a = x /\ w' = w.
Proof. unfold ret. intros H; inversion H; auto. Qed.

End MonadFacts.

(* ================================================================== *)
(** ** Properties of the transcription loop *)

Section Properties.

Context {PF : PyFloat} {PL : PyLib}.
Variables World Frame : Type.

Implicit Types (self : WhisperModel World Frame) (tok : Tokenizer)
  (opts : TranscriptionOptions) (st : LoopState) (w : World)
  (fe : FeatureExtractor)
  (generate : GenerateCall Frame -> M World (list WhisperGenerationResult)).

(** *** The constants set by the constructor *)

Lemma init_max_length generate fe :
  max_length (init generate fe : WhisperModel World Frame) = 448.
Proof. reflexivity. Qed.

Lemma init_input_stride generate fe :
  input_stride (init generate fe : WhisperModel World Frame) = 2.
Proof. reflexivity. Qed.

(** *** [emit_loop] *)

Lemma emit_loop_spec tok cs all :
  emit_loop tok cs all =
    (all ++ List.concat (map seg_tokens cs),
     map (segment_of tok) (filter (has_text tok) cs)).
Proof.
  revert all. induction cs as [|c cs IH]; intros all; simpl.
  - rewrite app_nil_r. reflexivity.
  - unfold has_text at 1.
    destruct (str_truthy (strip (decode tok (seg_tokens c)))); simpl;
      rewrite IH, <- app_assoc; reflexivity.
Qed.

(** *** One iteration, taken apart *)

Lemma window_body_inv self features tok opts cf st w ev ys st' w' :
  window_body self features tok opts cf st w = inr (ev, ys, st', w') ->
  exists r avg t,
    window_decode self features tok opts st w = inr (Some (r, avg, t), w') /\
    ((no_speech_skip opts r avg = true /\
      ev = Skipped /\ ys = [] /\
      st' = {| seek := seek st + segment_size_at self cf (seek st);
               all_tokens := all_tokens st;
               prompt_reset_since := prompt_reset_since st |})
     \/
     (no_speech_skip opts r avg = false /\
      exists tokens cs seek',
        py_index (sequences_ids r) 0 = inr tokens /\
        split_tokens self tok (window_time_offset self st)
          (segment_size_at self cf (seek st)) (window_duration self cf st)
          (seek st) tokens = inr (cs, seek') /\
        ev = Decoded cs /\
        ys = map (segment_of tok) (filter (has_text tok) cs) /\
        st' = {| seek := seek';
                 all_tokens := all_tokens st ++ List.concat (map seg_tokens cs);
                 prompt_reset_since :=
                   if resets_prompt opts t then len (all_tokens st)
                   else prompt_reset_since st |})).
Proof.
  unfold window_body. intros H.
  apply bind_inr in H. destruct H as (fb & w1 & Hfb & H).
  destruct fb as [[[r avg] t]|]; [|discriminate].
  exists r, avg, t.
  destruct (no_speech_skip opts r avg) eqn:Hskip.
  - apply ret_inr in H. destruct H as [H ->]. inversion H; subst.
    split; [exact Hfb|]. left. auto.
  - apply bind_inr in H. destruct H as (tokens & w2 & Htok & H).
    apply lift_inr in Htok. destruct Htok as [Htok ->].
    apply bind_inr in H. destruct H as ([cs seek'] & w3 & Hsplit & H).
    apply lift_inr in Hsplit. destruct Hsplit as [Hsplit ->].
    rewrite emit_loop_spec in H.
    apply ret_inr in H. destruct H as [H ->]. inversion H; subst.
    split; [exact Hfb|]. right. split; [reflexivity|].
    exists tokens, cs, seek'. auto.
Qed.

(** *** The fallback ladder *)

Lemma needs_fallback_of_iff opts ratio avg :
  needs_fallback_of opts ratio avg = true <->
  (exists thr, compression_ratio_threshold opts = Some thr /\
               fgt ratio thr = true) \/
  (exists thr, log_prob_threshold opts = Some thr /\ flt avg thr = true).
Proof.
  unfold needs_fallback_of.
  destruct (compression_ratio_threshold opts) as [c|];
    destruct (log_prob_threshold opts) as [l|];
    try destruct (fgt ratio c) eqn:Ec; try destruct (flt avg l) eqn:El;
    split; intro H;
    try reflexivity; try discriminate;
    try (left; eexists; split; [reflexivity|assumption]);
    try (right; eexists; split; [reflexivity|assumption]);
    destruct H as [(x & Hx & Hy)|(x & Hx & Hy)];
    try discriminate; inversion Hx; subst; congruence.
Qed.

Lemma fallback_attempt_inv self features prompt tok opts mits t w r avg nf w' :
  fallback_attempt self features prompt tok opts mits t w
    = inr (r, avg, nf, w') ->
  exists call results tokens score pw ratio,
    model self call w = inr (results, w') /\
    call_prompts call = [prompt] /\
    call_kwargs call = fallback_kwargs opts t /\
    py_index results 0 = inr r /\
    py_index (sequences_ids r) 0 = inr tokens /\
    py_index (scores r) 0 = inr score /\
    fpow_int (len tokens) (length_penalty opts) = inr pw /\
    avg = fdiv (fmul score pw) (of_int (len tokens + 1)) /\
    get_compression_ratio (strip (decode tok tokens)) = inr ratio /\
    nf = needs_fallback_of opts ratio avg.
Proof.
  unfold fallback_attempt. intros H.
  apply bind_inr in H. destruct H as (results & w1 & Hgen & H).
  apply bind_inr in H. destruct H as (r0 & w2 & Hr & H).
  apply lift_inr in Hr. destruct Hr as [Hr ->].
  apply bind_inr in H. destruct H as (tokens & w3 & Htok & H).
  apply lift_inr in Htok. destruct Htok as [Htok ->].
  apply bind_inr in H. destruct H as (score & w4 & Hsc & H).
  apply lift_inr in Hsc. destruct Hsc as [Hsc ->].
  apply bind_inr in H. destruct H as (pw & w5 & Hpw & H).
  apply lift_inr in Hpw. destruct Hpw as [Hpw ->].
  apply bind_inr in H. destruct H as (ratio & w6 & Hra & H).
  apply lift_inr in Hra. destruct Hra as [Hra ->].
  apply ret_inr in H. destruct H as [H ->]. inversion H; subst.
  eexists; exists results, tokens, score, pw, ratio.
  split; [exact Hgen|]. repeat split; assumption.
Qed.

(** The loop skips a prefix of attempts that all need a fallback. *)
Lemma fallback_loop_skip self features prompt tok opts mits pre rest cur w w1 :
  all_need_fallback
    (fallback_attempt self features prompt tok opts mits) pre w w1 ->
  pre <> [] ->
  exists cur',
    fallback_loop self features prompt tok opts mits (pre ++ rest) cur w =
    fallback_loop self features prompt tok opts mits rest (Some cur') w1 /\
    exists r avg t, cur' = (r, avg, t) /\ last pre t = t /\
      forall d, last pre d = t.
Proof.
  intros Hall. revert cur.
  induction Hall as [w|t pre' w w1 w2 r avg Hatt Hall IH]; intros cur Hne;
    [congruence|].
  destruct pre' as [|t' pre''].
  - inversion Hall; subst. exists (r, avg, t). split.
    + simpl. unfold bind at 1. rewrite Hatt. reflexivity.
    + exists r, avg, t. auto.
  - destruct (IH (Some (r, avg, t))) as (cur' & Heq & r' & avg' & t0 & -> & Hl & Hd);
      [discriminate|].
    exists (r', avg', t0). split.
    + rewrite <- Heq. simpl. unfold bind at 1. rewrite Hatt. reflexivity.
    + exists r', avg', t0. repeat split; auto.
Qed.

Lemma fallback_loop_first_pass
    self features prompt tok opts mits pre t post cur w w1 r avg w2 :
  all_need_fallback
    (fallback_attempt self features prompt tok opts mits) pre w w1 ->
  fallback_attempt self features prompt tok opts mits t w1
    = inr (r, avg, false, w2) ->
  fallback_loop self features prompt tok opts mits (pre ++ t :: post) cur w
    = inr (Some (r, avg, t), w2).
Proof.
  intros Hall Hatt.
  assert (Hstep : forall c,
    fallback_loop self features prompt tok opts mits (t :: post) c w1
      = inr (Some (r, avg, t), w2)).
  { intros c. simpl. unfold bind at 1. rewrite Hatt. reflexivity. }
  destruct pre as [|t0 pre'].
  - inversion Hall; subst. apply Hstep.
  - destruct (fallback_loop_skip (t :: post) cur Hall) as (cur' & Heq & _);
      [discriminate|].
    rewrite Heq. apply Hstep.
Qed.

Lemma fallback_loop_exhausted
    self features prompt tok opts mits pre t cur w w1 r avg w2 :
  all_need_fallback
    (fallback_attempt self features prompt tok opts mits) pre w w1 ->
  fallback_attempt self features prompt tok opts mits t w1
    = inr (r, avg, true, w2) ->
  fallback_loop self features prompt tok opts mits (pre ++ [t]) cur w
    = inr (Some (r, avg, t), w2).
Proof.
  intros Hall Hatt.
  assert (Hstep : forall c,
    fallback_loop self features prompt tok opts mits [t] c w1
      = inr (Some (r, avg, t), w2)).
  { intros c. simpl. unfold bind at 1. rewrite Hatt. reflexivity. }
  destruct pre as [|t0 pre'].
  - inversion Hall; subst. apply Hstep.
  - destruct (fallback_loop_skip [t] cur Hall) as (cur' & Heq & _);
      [discriminate|].
    rewrite Heq. apply Hstep.
Qed.

(** Whatever the loop returns is its starting value or the outcome of
    the first passing attempt, or of the last attempt when none passes. *)
Lemma fallback_loop_inv self features prompt tok opts mits temps cur w res w' :
  fallback_loop self features prompt tok opts mits temps cur w
    = inr (res, w') ->
  (temps = [] /\ res = cur /\ w' = w) \/
  exists pre t post w1 r avg nf,
    temps = pre ++ t :: post /\
    all_need_fallback
      (fallback_attempt self features prompt tok opts mits) pre w w1 /\
    fallback_attempt self features prompt tok opts mits t w1
      = inr (r, avg, nf, w') /\
    res = Some (r, avg, t) /\
    (nf = false \/ post = []).
Proof.
  revert cur w. induction temps as [|t temps IH]; intros cur w H.
  - simpl in H. apply ret_inr in H. left. tauto.
  - right. simpl in H.
    apply bind_inr in H. destruct H as ([[r avg] nf] & w1 & Hatt & H).
    destruct nf; simpl in H.
    + apply IH in H.
      destruct H as [(-> & -> & ->)|(pre & t' & post & w2 & r' & avg' & nf' & -> & Hall & Hatt' & -> & Hnf)].
      * exists [], t, [], w, r, avg, true. simpl.
        repeat split; auto. constructor.
      * exists (t :: pre), t', post, w2, r', avg', nf'. simpl.
        repeat split; auto. econstructor; eauto.
    + apply ret_inr in H. destruct H as [-> ->].
      exists [], t, temps, w, r, avg, false. simpl.
      repeat split; auto. constructor.
Qed.

Lemma generate_with_fallback_inv self segment prompt tok opts w res w' :
  generate_with_fallback self segment prompt tok opts w = inr (res, w') ->
  exists mits,
    fround (fdiv (max_initial_timestamp opts) (time_precision self))
      = inr mits /\
    fallback_loop self (get_input segment) prompt tok opts mits
      (temperatures opts) None w = inr (res, w').
Proof.
  unfold generate_with_fallback. intros H.
  apply bind_inr in H. destruct H as (mits & w1 & Hm & H).
  apply lift_inr in Hm. destruct Hm as [Hm ->]. eauto.
Qed.

Lemma generate_with_fallback_run self segment prompt tok opts mits w :
  fround (fdiv (max_initial_timestamp opts) (time_precision self))
    = inr mits ->
  generate_with_fallback self segment prompt tok opts w =
  fallback_loop self (get_input segment) prompt tok opts mits
    (temperatures opts) None w.
Proof.
  intros Hm. unfold generate_with_fallback, bind, lift. rewrite Hm.
  reflexivity.
Qed.

(** C5.  Each attempt needs a fallback exactly when the compression
    ratio of its text exceeds a configured [compression_ratio_threshold]
    or its average log probability is below a configured
    [log_prob_threshold].  The temperatures are tried in order: when all
    of [pre] need a fallback and the attempt at [t] passes, the result,
    average log probability and temperature of that attempt are
    returned, whatever follows [t]; when [t] is the last temperature and
    needs a fallback as well, its attempt is returned all the same.
    Nothing else is ever returned. *)
Theorem fallback_returns_first_pass_or_last self segment prompt tok opts mits :
  fround (fdiv (max_initial_timestamp opts) (time_precision self))
    = inr mits ->
  let attempt :=
    fallback_attempt self (get_input segment) prompt tok opts mits in
  (forall t w r avg nf w',
     attempt t w = inr (r, avg, nf, w') ->
     exists tokens ratio,
       py_index (sequences_ids r) 0 = inr tokens /\
       get_compression_ratio (strip (decode tok tokens)) = inr ratio /\
       (nf = true <->
        (exists thr, compression_ratio_threshold opts = Some thr /\
                     fgt ratio thr = true) \/
        (exists thr, log_prob_threshold opts = Some thr /\
                     flt avg thr = true))) /\
  (forall pre t post w w1 r avg w2,
     temperatures opts = pre ++ t :: post ->
     all_need_fallback attempt pre w w1 ->
     attempt t w1 = inr (r, avg, false, w2) ->
     generate_with_fallback self segment prompt tok opts w
       = inr (Some (r, avg, t), w2)) /\
  (forall pre t w w1 r avg w2,
     temperatures opts = pre ++ [t] ->
     all_need_fallback attempt pre w w1 ->
     attempt t w1 = inr (r, avg, true, w2) ->
     generate_with_fallback self segment prompt tok opts w
       = inr (Some (r, avg, t), w2)) /\
  (forall w r avg t w',
     generate_with_fallback self segment prompt tok opts w
       = inr (Some (r, avg, t), w') ->
     exists pre post w1 nf,
       temperatures opts = pre ++ t :: post /\
       all_need_fallback attempt pre w w1 /\
       attempt t w1 = inr (r, avg, nf, w') /\
       (nf = false \/ post = [])).
Proof.
  intros Hm attempt. repeat split.
  - intros t w r avg nf w' H.
    destruct (fallback_attempt_inv _ _ _ _ _ _ _ _ H)
      as (call & results & tokens & score & pw & ratio & _ & _ & _ & _ & Htok & _ & _ & _ & Hr & Hnf).
    exists tokens, ratio. split; [exact Htok|]. split; [exact Hr|].
    rewrite Hnf. apply needs_fallback_of_iff.
  - intros pre t post w w1 r avg w2 Ht Hall Hatt.
    rewrite generate_with_fallback_run with (mits := mits) by exact Hm.
    rewrite Ht.
    eapply fallback_loop_first_pass; eauto.
  - intros pre t w w1 r avg w2 Ht Hall Hatt.
    rewrite generate_with_fallback_run with (mits := mits) by exact Hm.
    rewrite Ht.
    eapply fallback_loop_exhausted; eauto.
  - intros w r avg t w' H.
    rewrite generate_with_fallback_run with (mits := mits) in H by exact Hm.
    apply fallback_loop_inv in H.
    destruct H as [(_ & Hres & _)|(pre & t' & post & w1 & r' & avg' & nf & Ht & Hall & Hatt & Hres & Hnf)];
      [discriminate|].
    inversion Hres; subst. exists pre, post, w1, nf. auto.
Qed.

(** C7.  In every attempt, and so for whatever the fallback decoder
    returns, the average log probability is the score of the first
    hypothesis times its length raised to [length_penalty], divided by
    its length plus one. *)
Theorem avg_log_prob_is_recovered_from_score self segment prompt tok opts :
  (forall features mits t w r avg nf w',
     fallback_attempt self features prompt tok opts mits t w
       = inr (r, avg, nf, w') ->
     exists tokens score pw,
       py_index (sequences_ids r) 0 = inr tokens /\
       py_index (scores r) 0 = inr score /\
       fpow_int (len tokens) (length_penalty opts) = inr pw /\
       avg = fdiv (fmul score pw) (of_int (len tokens + 1))) /\
  (forall w r avg t w',
     generate_with_fallback self segment prompt tok opts w
       = inr (Some (r, avg, t), w') ->
     exists tokens score pw,
       py_index (sequences_ids r) 0 = inr tokens /\
       py_index (scores r) 0 = inr score /\
       fpow_int (len tokens) (length_penalty opts) = inr pw /\
       avg = fdiv (fmul score pw) (of_int (len tokens + 1))).
Proof.
  assert (Hatt : forall features mits t w r avg nf w',
     fallback_attempt self features prompt tok opts mits t w
       = inr (r, avg, nf, w') ->
     exists tokens score pw,
       py_index (sequences_ids r) 0 = inr tokens /\
       py_index (scores r) 0 = inr score /\
       fpow_int (len tokens) (length_penalty opts) = inr pw /\
       avg = fdiv (fmul score pw) (of_int (len tokens + 1))).
  { intros features mits t w r avg nf w' H.
    destruct (fallback_attempt_inv _ _ _ _ _ _ _ _ H)
      as (call & results & tokens & score & pw & ratio & _ & _ & _ & _ & Htok & Hsc & Hpw & Havg & _).
    exists tokens, score, pw. auto. }
  split; [exact Hatt|].
  intros w r avg t w' H.
  apply generate_with_fallback_inv in H. destruct H as (mits & _ & H).
  apply fallback_loop_inv in H.
  destruct H as [(_ & Hres & _)|(pre & t' & post & w1 & r' & avg' & nf & _ & _ & Ha & Hres & _)];
    [discriminate|].
  inversion Hres; subst. eapply Hatt; eauto.
Qed.

(** *** The no-speech gate *)

Lemma no_speech_skip_iff opts nst r avg :
  no_speech_threshold opts = Some nst ->
  (no_speech_skip opts r avg = true <->
   fgt (no_speech_prob r) nst = true /\
   ~ (exists lpt, log_prob_threshold opts = Some lpt /\
                  fgt avg lpt = true)).
Proof.
  intros Hn. unfold no_speech_skip. rewrite Hn.
  destruct (log_prob_threshold opts) as [l|].
  - destruct (fgt avg l) eqn:E; split.
    + discriminate.
    + intros [_ H]. exfalso. apply H. eauto.
    + intros H. split; [exact H|]. intros (x & Hx & Hy).
      inversion Hx; subst. congruence.
    + tauto.
  - split; [|tauto]. intros H. split; [exact H|].
    intros (x & Hx & _). discriminate.
Qed.

(** C4.  With [no_speech_threshold] configured, the window is skipped
    exactly when the no-speech probability of the result exceeds it and
    it is not the case that [log_prob_threshold] is configured and
    exceeded by the average log probability.  A skipped window yields
    nothing, advances [seek] by [segment_size] and leaves [all_tokens]
    and [prompt_reset_since] as they were. *)
Theorem no_speech_gate self features tok opts cf st w nst r avg t w1 :
  no_speech_threshold opts = Some nst ->
  window_decode self features tok opts st w = inr (Some (r, avg, t), w1) ->
  let quiet :=
    fgt (no_speech_prob r) nst = true /\
    ~ (exists lpt, log_prob_threshold opts = Some lpt /\
                   fgt avg lpt = true) in
  (quiet ->
   window_body self features tok opts cf st w =
     inr (Skipped, [],
          {| seek := seek st + segment_size_at self cf (seek st);
             all_tokens := all_tokens st;
             prompt_reset_since := prompt_reset_since st |}, w1)) /\
  (forall ev ys st' w',
     window_body self features tok opts cf st w = inr (ev, ys, st', w') ->
     (ev = Skipped <-> quiet) /\
     (ev = Skipped ->
      ys = [] /\
      seek st' = seek st + segment_size_at self cf (seek st) /\
      all_tokens st' = all_tokens st /\
      prompt_reset_since st' = prompt_reset_since st)).
Proof.
  intros Hn Hdec quiet.
  pose proof (no_speech_skip_iff opts r avg Hn) as Hiff.
  fold quiet in Hiff. split.
  - intros Hq. apply Hiff in Hq.
    unfold window_body. unfold window_decode, window_segment, window_prompt in Hdec.
    unfold bind at 1. rewrite Hdec. rewrite Hq. reflexivity.
  - intros ev ys st' w' H. apply window_body_inv in H.
    destruct H as (r' & avg' & t' & Hdec' & Hcase).
    rewrite Hdec in Hdec'. inversion Hdec'; subst r' avg' t' w'.
    destruct Hcase as [(Hs & -> & -> & ->)|(Hs & tokens & cs & sk & _ & _ & -> & _ & _)].
    + split; [|intros _; simpl; auto]. split; [intros _; apply Hiff; exact Hs|reflexivity].
    + split.
      * split; [discriminate|]. intros Hq. apply Hiff in Hq. congruence.
      * discriminate.
Qed.

(** *** Timestamp parsing *)

Lemma efilter_total A (p : A -> Exc bool) (q : A -> bool) (l : list A) :
  (forall x, In x l -> p x = inr (q x)) ->
  efilter p l = inr (filter q l).
Proof.
  induction l as [|a l IH]; intros H; simpl; [reflexivity|].
  rewrite (H a (or_introl eq_refl)). simpl.
  rewrite IH by (intros x Hx; apply H; right; exact Hx). simpl.
  destruct (q a); reflexivity.
Qed.

Lemma in_range n i : In i (range n) <-> 0 <= i < n.
Proof.
  unfold range. rewrite in_map_iff. split.
  - intros (k & <- & Hk). apply in_seq in Hk. lia.
  - intros Hi. exists (Z.to_nat i). split; [lia|]. apply in_seq. lia.
Qed.

Lemma py_index_in_range (l : list Z) i :
  0 <= i < len l -> py_index l i = inr (nth (Z.to_nat i) l 0).
Proof.
  intros Hi. rewrite py_index_nat by lia.
  destruct (nth_error l (Z.to_nat i)) as [a|] eqn:E.
  - rewrite (nth_error_nth _ _ 0 E). reflexivity.
  - apply nth_error_None in E. unfold len in Hi. lia.
Qed.

Lemma consecutive_timestamps_spec tok tokens :
  consecutive_timestamps tok tokens =
    inr (filter (boundaryb tok tokens) (range (len tokens))).
Proof.
  unfold consecutive_timestamps. apply efilter_total.
  intros i Hi. apply in_range in Hi. unfold boundaryb, is_timestamp.
  rewrite Z.gtb_ltb. destruct (0 <? i) eqn:E0; [|reflexivity].
  apply Z.ltb_lt in E0.
  rewrite py_index_in_range by lia. simpl.
  rewrite Z.geb_leb.
  destruct (timestamp_begin tok <=? nth (Z.to_nat i) tokens 0);
    [|reflexivity].
  rewrite py_index_in_range by lia. simpl.
  rewrite Z.geb_leb. reflexivity.
Qed.

Lemma boundaryb_iff tok tokens i :
  In i (filter (boundaryb tok tokens) (range (len tokens))) <->
  boundary tok tokens i.
Proof.
  rewrite filter_In, in_range. unfold boundaryb, boundary, is_timestamp.
  split.
  - intros (Hi & Hb).
    apply andb_prop in Hb. destruct Hb as [Hb H1].
    apply andb_prop in Hb. destruct Hb as [H0 H2].
    apply Z.ltb_lt in H0. apply Z.leb_le in H1, H2.
    split; [exact H0|].
    exists (nth (Z.to_nat (i - 1)) tokens 0), (nth (Z.to_nat i) tokens 0).
    repeat split; try assumption;
      apply nth_error_nth'; unfold len in Hi; lia.
  - intros (H0 & a & b & Ha & Hb & Hta & Htb).
    assert (Hlt : (Z.to_nat i < List.length tokens)%nat)
      by (apply nth_error_Some; congruence).
    split; [unfold len; lia|].
    rewrite (nth_error_nth _ _ 0 Ha), (nth_error_nth _ _ 0 Hb).
    apply andb_true_intro; split; [apply andb_true_intro; split|].
    + apply Z.ltb_lt; exact H0.
    + apply Z.leb_le; exact Htb.
    + apply Z.leb_le; exact Hta.
Qed.

Lemma ascending_weaken from from' l upto :
  from' <= from -> ascending from l upto -> ascending from' l upto.
Proof. destruct l; simpl; [tauto|]. intros H [H1 H2]. split; [lia|exact H2]. Qed.

Lemma ascending_filter_seq (q : Z -> bool) (n a : nat) (from : Z) :
  from < Z.of_nat a ->
  ascending from (filter q (map Z.of_nat (seq a n))) (Z.of_nat (a + n) - 1).
Proof.
  revert a from. induction n as [|n IH]; intros a from Hfrom; simpl; [exact I|].
  destruct (q (Z.of_nat a)).
  - simpl. split; [lia|].
    replace (a + S n)%nat with (S a + n)%nat by lia. apply IH. lia.
  - replace (a + S n)%nat with (S a + n)%nat by lia. apply IH. lia.
Qed.

Lemma ascending_boundaries tok tokens :
  ascending 0 (filter (boundaryb tok tokens) (range (len tokens)))
    (len tokens - 1).
Proof.
  unfold range, len. rewrite Nat2Z.id.
  destruct (List.length tokens) as [|n] eqn:E.
  - exact I.
  - change (seq 0 (S n)) with (0%nat :: seq 1 n).
    change (map Z.of_nat (0%nat :: seq 1 n))
      with (0 :: map Z.of_nat (seq 1 n)).
    change (filter (boundaryb tok tokens) (0 :: map Z.of_nat (seq 1 n)))
      with (filter (boundaryb tok tokens) (map Z.of_nat (seq 1 n))).
    replace (Z.of_nat (S n) - 1) with (Z.of_nat (1 + n) - 1) by lia.
    apply ascending_filter_seq. lia.
Qed.

Lemma ascending_app from l upto x upto' :
  ascending from l upto -> upto < x <= upto' -> from <= upto ->
  ascending from (l ++ [x]) upto'.
Proof.
  revert from. induction l as [|a l IH]; intros from Hl Hx Hf; simpl in *.
  - split; [lia|exact I].
  - destruct Hl as [Ha Hl]. split; [lia|]. apply IH; auto. lia.
Qed.

Lemma ascending_upto from l upto upto' :
  ascending from l upto -> upto <= upto' -> ascending from l upto'.
Proof.
  revert from. induction l as [|a l IH]; intros from Hl Hu; simpl in *;
    [exact I|].
  destruct Hl as [Ha Hl]. split; [lia|]. apply IH; auto.
Qed.

Lemma ascending_last from l upto : ascending from l upto ->
  from <= last l from <= Z.max from upto /\
  (l <> [] -> forall d, last l d = last l from) /\
  (forall x, In x l -> from < x <= last l from).
Proof.
  revert from. induction l as [|a l IH]; intros from H.
  - simpl. split; [lia|]. split; [congruence|]. intros x [].
  - destruct H as [Ha Hl]. specialize (IH a Hl).
    destruct IH as (IH1 & IH2 & IH3).
    assert (Hlast : forall d, last (a :: l) d = last l a).
    { intros d. destruct l as [|b l]; [reflexivity|].
      change (last (a :: b :: l) d) with (last (b :: l) d).
      rewrite (IH2 ltac:(discriminate) d). reflexivity. }
    rewrite Hlast. split; [lia|]. split.
    + intros _ d. rewrite Hlast. reflexivity.
    + intros x [<-|Hx]; [lia|]. specialize (IH3 x Hx). lia.
Qed.

Lemma length_tokens_between tokens a b :
  0 <= a <= b -> b <= len tokens ->
  len (tokens_between tokens a b) = b - a.
Proof.
  intros Hab Hb. unfold tokens_between, len in *.
  rewrite length_firstn, length_skipn. lia.
Qed.

Lemma tokens_between_nth tokens a b k :
  0 <= a -> (k < Z.to_nat (b - a))%nat ->
  nth_error (tokens_between tokens a b) k =
  nth_error tokens (Z.to_nat a + k).
Proof.
  intros Ha Hk. unfold tokens_between.
  rewrite nth_error_firstn.
  destruct (Nat.ltb_spec k (Z.to_nat (b - a))); [|lia].
  apply nth_error_skipn.
Qed.

Lemma firstn_plus (l : list Z) (n m : nat) :
  firstn (n + m) l = firstn n l ++ firstn m (skipn n l).
Proof.
  revert l. induction n as [|n IH]; intros l; [reflexivity|].
  destruct l as [|x l]; simpl.
  - rewrite firstn_nil. reflexivity.
  - rewrite IH. reflexivity.
Qed.

Lemma tokens_between_split tokens a b c :
  0 <= a <= b -> b <= c ->
  tokens_between tokens a b ++ tokens_between tokens b c =
  tokens_between tokens a c.
Proof.
  intros Hab Hbc. unfold tokens_between.
  replace (Z.to_nat (c - a)) with (Z.to_nat (b - a) + Z.to_nat (c - b))%nat
    by lia.
  rewrite firstn_plus. f_equal. rewrite skipn_skipn.
  replace (Z.to_nat (b - a) + Z.to_nat a)%nat with (Z.to_nat b) by lia.
  reflexivity.
Qed.

Lemma concat_chunks tokens slices from upto :
  0 <= from -> ascending from slices upto ->
  List.concat (chunks tokens slices from) =
  tokens_between tokens from (last slices from).
Proof.
  revert from. induction slices as [|x l IH]; intros from Hf Hasc.
  - simpl. unfold tokens_between. rewrite Z.sub_diag. reflexivity.
  - destruct Hasc as [Hx Hl]. simpl chunks. simpl List.concat.
    rewrite IH by (auto; lia).
    pose proof (ascending_last _ _ _ Hl) as (Hlast & Hd & _).
    rewrite tokens_between_split by lia.
    f_equal. destruct l as [|y l]; [reflexivity|].
    change (last (x :: y :: l) from) with (last (y :: l) from).
    symmetry. apply Hd. discriminate.
Qed.

Lemma slice_loop_spec self tok time_offset tokens slices from acc :
  0 <= from -> ascending from slices (len tokens) ->
  slice_loop self tok time_offset tokens slices from acc =
    inr (acc ++ map (chunk_segment self tok time_offset)
                  (chunks tokens slices from),
         last slices from).
Proof.
  revert from acc. induction slices as [|x l IH]; intros from acc Hf Hasc.
  - simpl. rewrite app_nil_r. reflexivity.
  - destruct Hasc as [Hx Hl]. simpl slice_loop.
    rewrite py_slice_inside by lia.
    fold (tokens_between tokens from x).
    assert (Hne : tokens_between tokens from x <> []).
    { intros E.
      assert (Hlen : len (tokens_between tokens from x) = x - from)
        by (apply length_tokens_between; lia).
      rewrite E in Hlen. unfold len in Hlen at 1. simpl in Hlen. lia. }
    rewrite (py_index_head 0 Hne). simpl ebind.
    rewrite (py_index_last 0 Hne). simpl ebind.
    rewrite IH by (auto; lia).
    rewrite <- app_assoc. simpl.
    f_equal. f_equal.
    destruct l as [|y l]; [reflexivity|].
    pose proof (ascending_last _ _ _ Hl) as (_ & Hd & _).
    change (last (x :: y :: l) from) with (last (y :: l) from).
    rewrite (Hd ltac:(discriminate) from). reflexivity.
Qed.

Lemma py_index_last_two (pre : list Z) a b :
  py_index (pre ++ [a; b]) (-2) = inr a /\
  py_index (pre ++ [a; b]) (-1) = inr b.
Proof.
  assert (Hlen : len (pre ++ [a; b]) = len pre + 2)
    by (rewrite len_app; reflexivity).
  pose proof (len_nonneg pre) as Hp.
  split.
  - change (-2) with (- (2)). rewrite py_index_from_end by lia.
    rewrite Hlen. replace (Z.to_nat (len pre + 2 - 2)) with (List.length pre + 0)%nat
      by (unfold len; lia).
    rewrite nth_error_app2 by lia.
    replace (List.length pre + 0 - List.length pre)%nat with 0%nat by lia.
    reflexivity.
  - change (-1) with (- (1)). rewrite py_index_from_end by lia.
    rewrite Hlen. replace (Z.to_nat (len pre + 2 - 1)) with (List.length pre + 1)%nat
      by (unfold len; lia).
    rewrite nth_error_app2 by lia.
    replace (List.length pre + 1 - List.length pre)%nat with 1%nat by lia.
    reflexivity.
Qed.

Lemma split_last_two (l : list Z) :
  2 <= len l -> exists pre a b, l = pre ++ [a; b].
Proof.
  intros H.
  destruct (exists_last (l := l)) as (l1 & b & ->).
  { intros ->. unfold len in H. simpl in H. lia. }
  destruct (exists_last (l := l1)) as (pre & a & ->).
  { intros ->. unfold len in H. simpl in H. lia. }
  exists pre, a, b. rewrite <- app_assoc. reflexivity.
Qed.

Lemma single_timestamp_ending_spec tok tokens :
  exists b,
    single_timestamp_ending tok tokens = inr b /\
    (b = true <-> ends_with_single_timestamp tok tokens).
Proof.
  unfold single_timestamp_ending, ends_with_single_timestamp.
  destruct (len tokens >=? 2) eqn:E.
  - rewrite Z.geb_leb in E. apply Z.leb_le in E.
    destruct (split_last_two tokens E) as (pre & a & b & ->).
    destruct (py_index_last_two pre a b) as [H2 H1].
    rewrite H2. simpl ebind.
    assert (Huniq : forall pre' a' b',
      pre ++ [a; b] = pre' ++ [a'; b'] -> a = a' /\ b = b').
    { intros pre' a' b' Heq.
      change [a; b] with ([a] ++ [b]) in Heq.
      change [a'; b'] with ([a'] ++ [b']) in Heq.
      rewrite !app_assoc in Heq.
      apply app_inj_tail in Heq. destruct Heq as [Heq ->].
      apply app_inj_tail in Heq. destruct Heq as [_ ->]. auto. }
    destruct (a <? timestamp_begin tok) eqn:Ea.
    + rewrite H1. simpl ebind. eexists; split; [reflexivity|].
      rewrite Z.geb_leb, Z.leb_le. apply Z.ltb_lt in Ea. split.
      * intros Hb. exists pre, a, b. auto.
      * intros (pre' & a' & b' & Heq & _ & Hb).
        apply Huniq in Heq. destruct Heq as [-> ->]. exact Hb.
    + exists false. split; [reflexivity|]. split; [discriminate|].
      intros (pre' & a' & b' & Heq & Ha & _).
      apply Huniq in Heq. destruct Heq as [-> ->].
      apply Z.ltb_ge in Ea. lia.
  - exists false. split; [reflexivity|]. split; [discriminate|].
    intros (pre & a & b & -> & _).
    rewrite Z.geb_leb in E. apply Z.leb_gt in E.
    rewrite len_app in E. pose proof (len_nonneg pre).
    unfold len in E at 2. simpl in E. lia.
Qed.

Lemma last_default_irrelevant (l : list Z) d d' :
  l <> [] -> last l d = last l d'.
Proof.
  induction l as [|a l IH]; [congruence|]. intros _.
  destruct l as [|b l]; [reflexivity|].
  change (last (b :: l) d = last (b :: l) d'). apply IH. discriminate.
Qed.

Lemma last_cons (l : list Z) a d : last (a :: l) d = last l a.
Proof.
  destruct l as [|b l]; [reflexivity|].
  change (last (b :: l) d = last (b :: l) a).
  apply last_default_irrelevant. discriminate.
Qed.

Lemma last_in (l : list Z) d : l <> [] -> In (last l d) l.
Proof.
  induction l as [|a l IH]; [congruence|]. intros _.
  destruct l as [|b l]; [left; reflexivity|].
  right. change (In (last (b :: l) d) (b :: l)). apply IH. discriminate.
Qed.

Lemma length_chunks tokens slices from :
  List.length (chunks tokens slices from) = List.length slices.
Proof.
  revert from. induction slices as [|x l IH]; intros from; simpl;
    [reflexivity|]. rewrite IH. reflexivity.
Qed.

Lemma chunks_nonempty tokens slices from :
  0 <= from -> ascending from slices (len tokens) ->
  forall c, In c (chunks tokens slices from) -> c <> [].
Proof.
  revert from. induction slices as [|x l IH]; intros from Hf Hasc c Hc;
    [destruct Hc|].
  destruct Hasc as [Hx Hl]. destruct Hc as [<-|Hc].
  - intros E.
    assert (Hlen : len (tokens_between tokens from x) = x - from)
      by (apply length_tokens_between; lia).
    rewrite E in Hlen. unfold len in Hlen at 1. simpl in Hlen. lia.
  - eapply IH; [| exact Hl | exact Hc]. lia.
Qed.

(** An output without boundary gives one segment and a full advance. *)
Lemma split_tokens_no_boundary self tok time_offset size dur seek tokens :
  filter (boundaryb tok tokens) (range (len tokens)) = [] ->
  split_tokens self tok time_offset size dur seek tokens =
    inr ([ {| seg_start := time_offset;
              seg_end :=
                fadd time_offset
                  (single_segment_duration self tok dur tokens);
              seg_tokens := tokens |} ],
         seek + size).
Proof.
  intros Hb. unfold split_tokens.
  destruct (single_timestamp_ending_spec tok tokens) as (ste & -> & _).
  rewrite consecutive_timestamps_spec, Hb. simpl ebind.
  change (len (@nil Z) >? 0) with false. cbv iota.
  unfold single_segment_duration, last_timestamp.
  replace (filter (fun token => token >=? timestamp_begin tok) tokens)
    with (filter (is_timestamp tok) tokens)
    by (apply filter_ext; intros a; unfold is_timestamp;
        rewrite Z.geb_leb; reflexivity).
  destruct (filter (is_timestamp tok) tokens) as [|t rest] eqn:Ets.
  - reflexivity.
  - replace (len (t :: rest) >? 0) with true
      by (symmetry; apply Z.gtb_lt; unfold len; simpl; lia).
    rewrite (@py_index_last _ (t :: rest) 0) by discriminate.
    rewrite last_cons. simpl ebind.
    destruct (last rest t =? timestamp_begin tok); reflexivity.
Qed.

(** An output with boundaries is cut at them. *)
Lemma split_tokens_boundaries self tok time_offset size dur seek tokens ste :
  single_timestamp_ending tok tokens = inr ste ->
  let bounds := filter (boundaryb tok tokens) (range (len tokens)) in
  bounds <> [] ->
  let slices := bounds ++ (if ste then [len tokens] else []) in
  ascending 0 slices (len tokens) /\
  exists t,
    nth_error tokens (Z.to_nat (last bounds 0 - 1)) = Some t /\
    timestamp_begin tok <= t /\
    split_tokens self tok time_offset size dur seek tokens =
      inr (map (chunk_segment self tok time_offset) (chunks tokens slices 0),
           if ste then seek + size
           else seek + (t - timestamp_begin tok) * input_stride self).
Proof.
  intros Hste bounds Hne slices.
  pose proof (ascending_boundaries tok tokens) as Hasc. fold bounds in Hasc.
  assert (Hin : In (last bounds 0) bounds) by (apply last_in; exact Hne).
  pose proof (proj1 (boundaryb_iff tok tokens _) Hin) as Hbd.
  destruct Hbd as (Hpos & a & b & Ha & Hb & Hta & Htb).
  assert (Hlen : 1 <= len tokens - 1).
  { pose proof (ascending_last _ _ _ Hasc) as (_ & _ & Hall).
    destruct bounds as [|x l]; [congruence|].
    destruct Hasc as [Hx _]. lia. }
  assert (Hslices : ascending 0 slices (len tokens)).
  { unfold slices. destruct ste.
    - eapply ascending_app; [exact Hasc| lia | lia].
    - rewrite app_nil_r. eapply ascending_upto; [exact Hasc|lia]. }
  split; [exact Hslices|].
  exists a. split; [exact Ha|]. split; [exact Hta|].
  unfold split_tokens. rewrite Hste, consecutive_timestamps_spec.
  fold bounds. simpl ebind.
  replace (len bounds >? 0) with true
    by (symmetry; apply Z.gtb_lt; unfold len; destruct bounds;
        [congruence|simpl; lia]).
  cbv iota.
  replace (if ste then bounds ++ [len tokens] else bounds) with slices
    by (unfold slices; destruct ste; [reflexivity|apply app_nil_r]).
  rewrite slice_loop_spec by (auto; lia). simpl ebind. simpl app.
  destruct ste; [reflexivity|].
  assert (Hl : last slices 0 = last bounds 0)
    by (unfold slices; rewrite app_nil_r; reflexivity).
  rewrite Hl. rewrite py_index_nat by lia. rewrite Ha. reflexivity.
Qed.

(** C6.  When the output has a boundary, it is cut at every boundary,
    in increasing order, and at its end as well when it ends in a single
    timestamp that follows a non-timestamp token.  The cuts give
    consecutive, non-empty chunks that together cover the output up to
    the last cut, and [current_segments] has one raw segment per chunk,
    in order, holding the chunk's tokens, with the offsets of the
    chunk's first and last token from [timestamp_begin], scaled by
    [time_precision] and added to [time_offset], as start and end. *)
Theorem boundaries_cut_the_output_into_segments
    self tok time_offset size dur seek tokens :
  (exists i, boundary tok tokens i) ->
  exists (bounds : list Z) (ste : bool) (seek' : Z),
    (forall i, In i bounds <-> boundary tok tokens i) /\
    ascending 0 bounds (len tokens - 1) /\
    (ste = true <-> ends_with_single_timestamp tok tokens) /\
    let slices := bounds ++ (if ste then [len tokens] else []) in
    split_tokens self tok time_offset size dur seek tokens =
      inr (map (chunk_segment self tok time_offset) (chunks tokens slices 0),
           seek') /\
    List.length (chunks tokens slices 0) = List.length slices /\
    List.concat (chunks tokens slices 0)
      = firstn (Z.to_nat (last slices 0)) tokens /\
    (forall c, In c (chunks tokens slices 0) -> c <> []).
Proof.
  intros (i & Hi).
  destruct (single_timestamp_ending_spec tok tokens) as (ste & Hste & Hiff).
  set (bounds := filter (boundaryb tok tokens) (range (len tokens))).
  assert (Hne : bounds <> []).
  { apply boundaryb_iff in Hi. fold bounds in Hi.
    intros E. rewrite E in Hi. destruct Hi. }
  destruct (split_tokens_boundaries self tok time_offset size dur seek tokens Hste Hne)
    as (Hasc & t & _ & _ & Hsplit).
  fold bounds in Hasc, Hsplit.
  exists bounds, ste. eexists.
  split; [intros j; apply boundaryb_iff|].
  split; [apply ascending_boundaries|].
  split; [exact Hiff|].
  split; [exact Hsplit|].
  split; [|split].
  - apply length_chunks.
  - rewrite concat_chunks with (upto := len tokens) by (auto; lia).
    unfold tokens_between. rewrite Z.sub_0_r. reflexivity.
  - apply chunks_nonempty; [lia|exact Hasc].
Qed.

(** C3 (as amended).  When the output has no boundary, there is exactly
    one raw segment; it holds all the tokens, starts at [time_offset]
    and ends at [time_offset + duration], where [duration] is that of
    the last timestamp token of the output if there is one and it is not
    [timestamp_begin] itself, and [segment_duration] otherwise; and
    [seek] advances by [segment_size]. *)
Theorem output_without_boundary_is_one_segment
    self tok time_offset size dur seek tokens :
  (forall i, ~ boundary tok tokens i) ->
  split_tokens self tok time_offset size dur seek tokens =
    inr ([ {| seg_start := time_offset;
              seg_end :=
                fadd time_offset
                  (match last_timestamp tok tokens with
                   | Some t =>
                       if t =? timestamp_begin tok then dur
                       else fmul (of_int (t - timestamp_begin tok))
                              (time_precision self)
                   | None => dur
                   end);
              seg_tokens := tokens |} ],
         seek + size).
Proof.
  intros Hno. apply split_tokens_no_boundary.
  destruct (filter (boundaryb tok tokens) (range (len tokens))) as [|x l] eqn:E;
    [reflexivity|].
  exfalso. apply (Hno x). apply boundaryb_iff. rewrite E. left. reflexivity.
Qed.

(** *** The advance of [seek] *)

(** How far [split_tokens] moves [seek]. *)
Lemma split_tokens_advance self tok time_offset size dur seek tokens cs seek' :
  split_tokens self tok time_offset size dur seek tokens = inr (cs, seek') ->
  (seek' = seek + size /\
   (ends_with_single_timestamp tok tokens \/
    forall i, ~ boundary tok tokens i))
  \/
  (~ ends_with_single_timestamp tok tokens /\
   exists i t,
     boundary tok tokens i /\
     (forall j, boundary tok tokens j -> j <= i) /\
     nth_error tokens (Z.to_nat (i - 1)) = Some t /\
     timestamp_begin tok <= t /\
     seek' = seek + (t - timestamp_begin tok) * input_stride self).
Proof.
  intros H.
  destruct (filter (boundaryb tok tokens) (range (len tokens)))
    as [|x l] eqn:Eb.
  - rewrite (split_tokens_no_boundary self tok time_offset size dur seek tokens Eb) in H.
    inversion H; subst. left. split; [reflexivity|]. right.
    intros i Hi. apply boundaryb_iff in Hi. rewrite Eb in Hi. destruct Hi.
  - destruct (single_timestamp_ending_spec tok tokens) as (ste & Hste & Hiff).
    assert (Hne : filter (boundaryb tok tokens) (range (len tokens)) <> [])
      by (rewrite Eb; discriminate).
    destruct (split_tokens_boundaries self tok time_offset size dur seek tokens Hste Hne)
      as (_ & t & Ht & Htb & Hsplit).
    rewrite Hsplit in H. inversion H; subst. clear H.
    destruct ste.
    + left. split; [reflexivity|]. left. apply Hiff. reflexivity.
    + right. split.
      { intros He. apply Hiff in He. discriminate. }
      exists (last (filter (boundaryb tok tokens) (range (len tokens))) 0), t.
      split; [apply boundaryb_iff, last_in; exact Hne|].
      split; [|auto].
      intros j Hj. apply boundaryb_iff in Hj.
      pose proof (ascending_last _ _ _ (ascending_boundaries tok tokens))
        as (_ & _ & Hall).
      specialize (Hall j Hj). lia.
Qed.

Lemma window_decode_from_model self features tok opts st w r avg t w' :
  window_decode self features tok opts st w = inr (Some (r, avg, t), w') ->
  exists call w0 results,
    model self call w0 = inr (results, w') /\
    py_index results 0 = inr r.
Proof.
  unfold window_decode. intros H.
  apply generate_with_fallback_inv in H. destruct H as (mits & _ & H).
  apply fallback_loop_inv in H.
  destruct H as [(_ & Hres & _)|(pre & t' & post & w1 & r' & avg' & nf & _ & _ & Ha & Hres & _)];
    [discriminate|].
  inversion Hres; subst.
  destruct (fallback_attempt_inv _ _ _ _ _ _ _ _ Ha)
    as (call & results & _ & _ & _ & _ & Hgen & _ & _ & Hr & _).
  eauto.
Qed.

(** One iteration: [seek] never goes back, and stands still only on an
    output that stalls. *)
Lemma window_body_advance generate fe features tok opts cf st w ev ys st' w' :
  1 <= nb_max_frames fe ->
  seek st < cf ->
  window_body (init generate fe) features tok opts cf st w
    = inr (ev, ys, st', w') ->
  1 <= segment_size_at (init generate fe) cf (seek st) /\
  seek st <= seek st' /\
  (ev = Skipped ->
   seek st' = seek st + segment_size_at (init generate fe) cf (seek st)) /\
  (forall cs, ev = Decoded cs ->
   exists r avg t tokens,
     window_decode (init generate fe) features tok opts st w
       = inr (Some (r, avg, t), w') /\
     py_index (sequences_ids r) 0 = inr tokens /\
     ((seek st' = seek st + segment_size_at (init generate fe) cf (seek st) /\
       (ends_with_single_timestamp tok tokens \/
        forall i, ~ boundary tok tokens i))
      \/
      (~ ends_with_single_timestamp tok tokens /\
       exists i last_token,
         boundary tok tokens i /\
         (forall j, boundary tok tokens j -> j <= i) /\
         nth_error tokens (Z.to_nat (i - 1)) = Some last_token /\
         timestamp_begin tok <= last_token /\
         seek st' =
           seek st + (last_token - timestamp_begin tok)
                     * input_stride (init generate fe))) /\
     (stalls tok tokens -> seek st' = seek st) /\
     (~ stalls tok tokens -> seek st < seek st')).
Proof.
  intros Hnb Hseek H.
  assert (Hsize : 1 <= segment_size_at (init generate fe) cf (seek st))
    by (unfold segment_size_at; simpl; lia).
  split; [exact Hsize|].
  apply window_body_inv in H.
  destruct H as (r & avg & t & Hdec & [(_ & -> & -> & ->)|(_ & tokens & cs & sk & Htok & Hsplit & -> & _ & ->)]).
  - simpl. split; [lia|]. split; [auto|]. discriminate.
  - simpl seek.
    apply split_tokens_advance in Hsplit.
    pose proof Hsplit as Hexact.
    rewrite init_input_stride in Hsplit.
    assert (Hcases :
      (stalls tok tokens -> sk = seek st) /\
      (~ stalls tok tokens -> seek st < sk)).
    { destruct Hsplit as [(-> & Hwhy)|(Hns & i & t0 & Hi & Hmax & Ht0 & Hge & ->)].
      - split; [|lia]. intros (Hns & j & Hj & _). exfalso.
        destruct Hwhy as [He|Hnb']; [exact (Hns He)|exact (Hnb' j Hj)].
      - split.
        + intros (_ & j & Hj & Hjmax & Htj).
          assert (j = i) by (pose proof (Hmax j Hj); pose proof (Hjmax i Hi); lia).
          subst j. rewrite Ht0 in Htj. inversion Htj. lia.
        + intros Hn.
          assert (t0 <> timestamp_begin tok).
          { intros ->. apply Hn. split; [exact Hns|]. exists i. auto. }
          lia. }
    destruct Hcases as [Hstall Hmove].
    split.
    + destruct Hsplit as [(-> & _)|(_ & i & t0 & _ & _ & _ & Hge & ->)]; lia.
    + split; [discriminate|].
      intros cs' _. exists r, avg, t, tokens. auto.
Qed.

(** C1 (as amended).  With at least one frame per window,
    [segment_size] is at least 1 and [seek] never decreases.  It grows
    by [segment_size] on a no-speech skip and on a decoded window whose
    output has no boundary or ends in a single timestamp.  On any other
    decoded window it grows by [last_timestamp_position * input_stride],
    the position being that of the token before the last boundary, which
    is a timestamp: the advance is 0 when that token is
    [timestamp_begin] itself (the output stalls) and positive otherwise.
    With a decoder whose outputs never stall, the loop ends, normally or
    with an exception, within [content_frames] iterations. *)
Theorem seek_advances_unless_output_stalls generate fe tok :
  1 <= nb_max_frames fe ->
  (forall features opts cf st w ev ys st' w',
     seek st < cf ->
     window_body (init generate fe) features tok opts cf st w
       = inr (ev, ys, st', w') ->
     1 <= segment_size_at (init generate fe) cf (seek st) /\
     seek st <= seek st' /\
     (ev = Skipped ->
      seek st' = seek st + segment_size_at (init generate fe) cf (seek st)) /\
     (forall cs, ev = Decoded cs ->
      exists r avg t tokens,
        window_decode (init generate fe) features tok opts st w
          = inr (Some (r, avg, t), w') /\
        py_index (sequences_ids r) 0 = inr tokens /\
        ((seek st' = seek st + segment_size_at (init generate fe) cf (seek st) /\
          (ends_with_single_timestamp tok tokens \/
           forall i, ~ boundary tok tokens i))
         \/
         (~ ends_with_single_timestamp tok tokens /\
          exists i last_token,
            boundary tok tokens i /\
            (forall j, boundary tok tokens j -> j <= i) /\
            nth_error tokens (Z.to_nat (i - 1)) = Some last_token /\
            timestamp_begin tok <= last_token /\
            seek st' =
              seek st + (last_token - timestamp_begin tok)
                        * input_stride (init generate fe))) /\
        (stalls tok tokens -> seek st' = seek st) /\
        (~ stalls tok tokens -> seek st < seek st'))) /\
  (never_stalls generate tok ->
   forall features opts (fuel : nat) w,
     (Z.to_nat (len features - nb_max_frames fe) <= fuel)%nat ->
     exists ys,
       (exists st' w',
          generate_segments (init generate fe) features tok opts fuel w
            = (ys, Finished st' w')) \/
       (exists e,
          generate_segments (init generate fe) features tok opts fuel w
            = (ys, Raised e))).
Proof.
  intros Hnb. split.
  - intros features opts cf st w ev ys st' w' Hseek H.
    exact (window_body_advance generate fe features tok opts st w Hnb Hseek H).
  - intros Hnever features opts fuel w Hfuel.
    unfold generate_segments.
    change (nb_max_frames (feature_extractor (init generate fe)))
      with (nb_max_frames fe).
    set (cf := len features - nb_max_frames fe) in *.
    assert (Hloop : forall (n : nat) st w0,
      (Z.to_nat (cf - seek st) <= n)%nat ->
      exists ys,
        (exists st' w',
           while_loop (init generate fe) features tok opts cf n st w0
             = (ys, Finished st' w')) \/
        (exists e,
           while_loop (init generate fe) features tok opts cf n st w0
             = (ys, Raised e))).
    { induction n as [|n IH]; intros st w0 Hn.
      - simpl. destruct (seek st <? cf) eqn:E.
        + apply Z.ltb_lt in E. lia.
        + exists []. left. eauto.
      - simpl. destruct (seek st <? cf) eqn:E.
        + apply Z.ltb_lt in E.
          destruct (window_body (init generate fe) features tok opts cf st w0)
            as [e|[[[ev ys] st'] w']] eqn:Hbody.
          * exists []. right. eauto.
          * assert (Hmove : seek st < seek st').
            { destruct (window_body_advance generate fe features tok opts st w0 Hnb E Hbody)
                as (Hsize & Hle & Hskip & Hdec).
              destruct ev as [|cs].
              - rewrite (Hskip eq_refl). lia.
              - destruct (Hdec cs eq_refl)
                  as (r & avg & t & tokens & Hd & Htok & _ & _ & Hgo).
                apply Hgo.
                destruct (window_decode_from_model _ _ _ _ _ _ Hd)
                  as (call & w1 & results & Hgen & Hr).
                exact (Hnever call w1 results w' r tokens Hgen Hr Htok). }
            destruct (IH st' w') as (more & [(st2 & w2 & Hw)|(e & Hw)]);
              [lia| |]; rewrite Hw; exists (ys ++ more); eauto.
        + exists []. left. eauto. }
    apply Hloop. unfold initial_state. simpl seek. rewrite Z.sub_0_r.
    exact Hfuel.
Qed.

(** One more iteration of the loop. *)
Lemma while_loop_step
    self (features : list Frame) tok opts cf fuel st w ev ys st' w' :
  seek st < cf ->
  window_body self features tok opts cf st w = inr (ev, ys, st', w') ->
  while_loop self features tok opts cf (S fuel) st w =
    (ys ++ fst (while_loop self features tok opts cf fuel st' w'),
     snd (while_loop self features tok opts cf fuel st' w')).
Proof.
  intros Hlt Hbody. simpl.
  destruct (seek st <? cf) eqn:E; [|apply Z.ltb_ge in E; lia].
  rewrite Hbody.
  destruct (while_loop self features tok opts cf fuel st' w'); reflexivity.
Qed.

(** An iteration that raises ends the run. *)
Lemma while_loop_raise_first
    self (features : list Frame) tok opts cf (fuel : nat) st w e :
  seek st < cf ->
  window_body self features tok opts cf st w = inl e ->
  while_loop self features tok opts cf (S fuel) st w = ([], Raised e).
Proof.
  intros Hcf Hbody. simpl.
  destruct (seek st <? cf) eqn:E; [|apply Z.ltb_ge in E; lia].
  rewrite Hbody. reflexivity.
Qed.

(** *** The prompt reset *)

Lemma skipn_app_exact (l1 l2 : list Z) :
  skipn (List.length l1) (l1 ++ l2) = l2.
Proof. induction l1 as [|a l IH]; simpl; auto. Qed.

(** C2 (what the code does).  When a decoded window resets the prompt,
    because [condition_on_previous_text] is off or its temperature is
    above 0.5, [prompt_reset_since] becomes the length [all_tokens] had
    before the tokens of this window were appended; the previous-text
    context of the next window is therefore exactly the tokens of this
    window, and the next prompt is built from them. *)
Theorem reset_keeps_the_current_window_as_context
    self features tok opts cf st w r avg t w1 cs ys st' w' :
  window_decode self features tok opts st w = inr (Some (r, avg, t), w1) ->
  condition_on_previous_text opts = false \/ fgt t (lit 5 1) = true ->
  window_body self features tok opts cf st w
    = inr (Decoded cs, ys, st', w') ->
  prompt_reset_since st' = len (all_tokens st) /\
  all_tokens st' = all_tokens st ++ List.concat (map seg_tokens cs) /\
  previous_tokens_of st' = List.concat (map seg_tokens cs) /\
  window_prompt self tok opts st' =
    get_prompt self tok (List.concat (map seg_tokens cs))
      (without_timestamps opts) (prefix opts).
Proof.
  intros Hdec Hreset H.
  apply window_body_inv in H.
  destruct H as (r' & avg' & t' & Hdec' & [(_ & Hev & _)|(_ & tokens & cs' & sk & _ & _ & Hev & _ & ->)]);
    [discriminate|].
  rewrite Hdec in Hdec'. inversion Hdec'; subst r' avg' t' w'.
  inversion Hev; subst cs'.
  assert (Hr : resets_prompt opts t = true).
  { unfold resets_prompt. destruct Hreset as [-> | ->]; [reflexivity|].
    apply orb_true_r. }
  rewrite Hr.
  assert (Hprev :
    previous_tokens_of
      {| seek := sk;
         all_tokens := all_tokens st ++ List.concat (map seg_tokens cs);
         prompt_reset_since := len (all_tokens st) |}
    = List.concat (map seg_tokens cs)).
  { unfold previous_tokens_of. cbn [all_tokens prompt_reset_since].
    rewrite py_slice_suffix.
    - unfold len. rewrite Nat2Z.id. apply skipn_app_exact.
    - rewrite len_app.
      pose proof (len_nonneg (all_tokens st)).
      pose proof (len_nonneg (List.concat (map seg_tokens cs))). lia. }
  cbn [all_tokens prompt_reset_since].
  repeat split; try reflexivity; try exact Hprev.
  unfold window_prompt. rewrite Hprev. reflexivity.
Qed.

(** The converse for a decoded window: what the iteration returns once
    its parts are known. *)
Lemma window_body_decoded
    self (features : list Frame) tok opts cf st w r avg t w1 tokens cs seek' :
  window_decode self features tok opts st w = inr (Some (r, avg, t), w1) ->
  no_speech_skip opts r avg = false ->
  py_index (sequences_ids r) 0 = inr tokens ->
  split_tokens self tok (window_time_offset self st)
    (segment_size_at self cf (seek st)) (window_duration self cf st)
    (seek st) tokens = inr (cs, seek') ->
  window_body self features tok opts cf st w =
    inr (Decoded cs, map (segment_of tok) (filter (has_text tok) cs),
         {| seek := seek';
            all_tokens := all_tokens st ++ List.concat (map seg_tokens cs);
            prompt_reset_since :=
              if resets_prompt opts t then len (all_tokens st)
              else prompt_reset_since st |}, w1).
Proof.
  intros Hdec Hskip Htok Hsplit.
  unfold window_decode, window_segment, window_prompt in Hdec.
  unfold window_time_offset, window_duration in Hsplit.
  unfold window_body. unfold bind at 1. rewrite Hdec, Hskip.
  unfold bind at 1. unfold lift at 1. rewrite Htok.
  unfold bind at 1. unfold lift at 1. rewrite Hsplit.
  rewrite emit_loop_spec. reflexivity.
Qed.

(** *** The prompt *)

(** C8 (as amended).  With the constants of the constructor, the prompt is:
    when the context is not empty, the previous-text marker and the last
    223 (= max_length // 2 - 1) context tokens at most; the task and
    language sequence; the no-timestamps marker when asked for; and, when
    the prefix is a non-empty string, the first 223 tokens at most of the
    encoding of a space followed by the stripped prefix.  An empty prefix
    contributes nothing. *)
Theorem get_prompt_layout generate fe tok
    (previous_tokens : list Z) (without_timestamps : bool)
    (prefix : option string) :
  max_length (init generate fe : WhisperModel World Frame) / 2 - 1 = 223 /\
  get_prompt (init generate fe : WhisperModel World Frame) tok previous_tokens
      without_timestamps prefix =
    (match previous_tokens with
     | [] => []
     | _ => sot_prev tok
            :: skipn (List.length previous_tokens - 223) previous_tokens
     end)
    ++ sot_sequence tok
    ++ (if without_timestamps then [no_timestamps tok] else [])
    ++ (match prefix with
        | Some p =>
            if str_truthy p
            then firstn 223 (encode tok (" " ++ strip p)%string)
            else []
        | None => []
        end).
Proof.
  split; [reflexivity|].
  unfold get_prompt. rewrite init_max_length.
  change (448 / 2 - 1) with 223. change (448 / 2) with 224.
  assert (Hctx :
    (if list_truthy previous_tokens
     then ([] ++ [sot_prev tok]) ++ py_slice previous_tokens (Some (- (223))) None
     else []) =
    match previous_tokens with
    | [] => []
    | _ => sot_prev tok
           :: skipn (List.length previous_tokens - 223) previous_tokens
    end).
  { destruct previous_tokens as [|x l]; [reflexivity|].
    simpl list_truthy. cbv iota. rewrite py_slice_last_k by lia.
    reflexivity. }
  rewrite Hctx. clear Hctx.
  set (ctx := match previous_tokens with [] => [] | _ => _ end).
  assert (Hpre : forall toks : list Z,
    (if len toks >=? 224 then py_slice toks None (Some 223) else toks)
    = firstn 223 toks).
  { intros toks. destruct (len toks >=? 224) eqn:E.
    - rewrite py_slice_first_k by lia. reflexivity.
    - rewrite firstn_all2; [reflexivity|].
      rewrite Z.geb_leb in E. apply Z.leb_gt in E. unfold len in E. lia. }
  destruct prefix as [p|].
  - destruct (str_truthy p).
    + rewrite Hpre. destruct without_timestamps;
        rewrite <- ?app_assoc; reflexivity.
    + destruct without_timestamps; rewrite <- ?app_assoc, ?app_nil_r;
        reflexivity.
  - destruct without_timestamps; rewrite <- ?app_assoc, ?app_nil_r;
      reflexivity.
Qed.

(** *** History and emission *)

(** C9.  The raw segments of a window are handled in order: the tokens
    of every one of them are appended to [all_tokens], and a Segment with
    its start, end and decoded text is yielded exactly for those whose
    decoded text is not blank; this is what [emit_loop] computes and what
    a window that is not skipped does to the history and the output. *)
Theorem history_grows_and_blank_text_is_dropped self features tok opts cf :
  (forall cs all,
     emit_loop tok cs all =
       (all ++ List.concat (map seg_tokens cs),
        map (segment_of tok) (filter (has_text tok) cs))) /\
  (forall st w cs ys st' w',
     window_body self features tok opts cf st w
       = inr (Decoded cs, ys, st', w') ->
     all_tokens st' = all_tokens st ++ List.concat (map seg_tokens cs) /\
     ys = map (segment_of tok) (filter (has_text tok) cs) /\
     (forall r, In (segment_of tok r) ys <->
                exists r', In r' cs /\ has_text tok r' = true /\
                           segment_of tok r' = segment_of tok r)).
Proof.
  split; [apply emit_loop_spec|].
  intros st w cs ys st' w' H.
  apply window_body_inv in H.
  destruct H as (r & avg & t & _ & [(_ & Hev & _)|(_ & tokens & cs' & sk & _ & _ & Hev & Hys & Hst)]).
  - discriminate.
  - inversion Hev; subst cs'. subst st'. simpl. split; [reflexivity|].
    split; [exact Hys|]. subst ys. intros r0. rewrite in_map_iff. split.
    + intros (x & Hx & Hin). apply filter_In in Hin. exists x. tauto.
    + intros (x & Hin & Ht & Hx). exists x. rewrite filter_In. tauto.
Qed.

(** The decoding with which an iteration begins: the window's frames
    and the prompt built from [all_tokens[prompt_reset_since:]]. *)
Lemma window_body_decodes
    self (features : list Frame) tok opts cf st w ev ys st' w' :
  window_body self features tok opts cf st w = inr (ev, ys, st', w') ->
  exists r avg t,
    generate_with_fallback self
      (py_slice features (Some (seek st))
         (Some (seek st + nb_max_frames (feature_extractor self))))
      (get_prompt self tok (previous_tokens_of st) (without_timestamps opts)
         (prefix opts))
      tok opts w
    = inr (Some (r, avg, t), w').
Proof.
  intros H. apply window_body_inv in H.
  destruct H as (r & avg & t & Hdec & _). exists r, avg, t. exact Hdec.
Qed.

Lemma window_body_decode_raises
    self (features : list Frame) tok opts cf st w e :
  generate_with_fallback self
    (py_slice features (Some (seek st))
       (Some (seek st + nb_max_frames (feature_extractor self))))
    (get_prompt self tok (previous_tokens_of st) (without_timestamps opts)
       (prefix opts))
    tok opts w
  = inl e ->
  window_body self features tok opts cf st w = inl e.
Proof.
  intros H. unfold window_body. unfold bind at 1. rewrite H. reflexivity.
Qed.

(** C10.  With an initial prompt, the generator stands before its first
    window, without a call to the decoder, in a state that has the
    encoding of a space followed by the stripped prompt as [all_tokens],
    while [prompt_reset_since] is 0: the history holds tokens the decoder
    never produced.  The first window of every run is decoded with the
    prompt built from these tokens as previous-text context: when that
    decoding raises, so does the run, and otherwise the first iteration
    either raises or goes on from the result of that decoding. *)
Theorem initial_prompt_seeds_history self (features : list Frame) tok opts p :
  initial_prompt opts = Some p ->
  let st := initial_state tok opts in
  let seeded := encode tok (" " ++ strip p)%string in
  let cf := len features - nb_max_frames (feature_extractor self) in
  let decode_first :=
    generate_with_fallback self
      (py_slice features (Some 0)
         (Some (nb_max_frames (feature_extractor self))))
      (get_prompt self tok seeded (without_timestamps opts) (prefix opts))
      tok opts in
  seek st = 0 /\
  all_tokens st = seeded /\
  prompt_reset_since st = 0 /\
  previous_tokens_of st = seeded /\
  window_prompt self tok opts st =
    get_prompt self tok seeded (without_timestamps opts) (prefix opts) /\
  (forall w,
     0 < cf ->
     generate_segments self features tok opts 0 w = ([], Running st w)) /\
  (forall (fuel : nat) w e,
     0 < cf ->
     decode_first w = inl e ->
     generate_segments self features tok opts (S fuel) w = ([], Raised e)) /\
  (forall (fuel : nat) w,
     0 < cf ->
     (exists e,
        window_body self features tok opts cf st w = inl e /\
        generate_segments self features tok opts (S fuel) w
          = ([], Raised e)) \/
     (exists ev ys st1 w1 r avg t,
        decode_first w = inr (Some (r, avg, t), w1) /\
        window_body self features tok opts cf st w = inr (ev, ys, st1, w1) /\
        generate_segments self features tok opts (S fuel) w =
          (ys ++ fst (while_loop self features tok opts cf fuel st1 w1),
           snd (while_loop self features tok opts cf fuel st1 w1)))).
Proof.
  intros Hp st seeded cf decode_first.
  assert (Hst : st = {| seek := 0; all_tokens := seeded;
                        prompt_reset_since := 0 |})
    by (unfold st, initial_state; rewrite Hp; reflexivity).
  assert (Hprev : previous_tokens_of st = seeded).
  { rewrite Hst. unfold previous_tokens_of.
    cbn [all_tokens prompt_reset_since].
    rewrite py_slice_suffix by (split; [lia | apply len_nonneg]).
    reflexivity. }
  assert (Hseek : seek st = 0) by (rewrite Hst; reflexivity).
  assert (Hdecode : forall w,
    generate_with_fallback self
      (py_slice features (Some (seek st))
         (Some (seek st + nb_max_frames (feature_extractor self))))
      (get_prompt self tok (previous_tokens_of st) (without_timestamps opts)
         (prefix opts))
      tok opts w
    = decode_first w).
  { intros w. rewrite Hprev, Hseek. reflexivity. }
  assert (Hgen : forall (fuel : nat) w,
    generate_segments self features tok opts fuel w
    = while_loop self features tok opts cf fuel st w) by reflexivity.
  split; [exact Hseek|].
  split; [rewrite Hst; reflexivity|].
  split; [rewrite Hst; reflexivity|].
  split; [exact Hprev|].
  split; [unfold window_prompt; rewrite Hprev; reflexivity|].
  clearbody st cf decode_first.
  split; [|split].
  - intros w Hcf. rewrite Hgen. simpl. rewrite Hseek.
    destruct (0 <? cf) eqn:E; [reflexivity|apply Z.ltb_ge in E; lia].
  - intros fuel w e Hcf Hraise. rewrite Hgen.
    apply while_loop_raise_first; [rewrite Hseek; exact Hcf|].
    apply window_body_decode_raises. rewrite Hdecode. exact Hraise.
  - intros fuel w Hcf. rewrite !Hgen.
    destruct (window_body self features tok opts cf st w)
      as [e|[[[ev ys] st1] w1]] eqn:Hbody.
    + left. exists e. split; [reflexivity|].
      apply while_loop_raise_first; [rewrite Hseek; exact Hcf|exact Hbody].
    + right. destruct (window_body_decodes _ _ _ _ _ _ _ Hbody)
        as (r & avg & t & Hdec).
      rewrite Hdecode in Hdec.
      exists ev, ys, st1, w1, r, avg, t.
      split; [exact Hdec|]. split; [reflexivity|].
      apply while_loop_step with (ev := ev);
        [rewrite Hseek; exact Hcf|exact Hbody].
Qed.

End Properties.

(* ================================================================== *)
(** ** Further properties of the loop *)

Section Further.

Context {PF : PyFloat} {PL : PyLib}.
Variables World Frame : Type.

Implicit Types (self : WhisperModel World Frame) (tok : Tokenizer)
  (opts : TranscriptionOptions) (st : LoopState) (w : World)
  (fe : FeatureExtractor)
  (generate : GenerateCall Frame -> M World (list WhisperGenerationResult)).

(** *** Edge cases of the generator *)

Lemma while_loop_done self (features : list Frame) tok opts cf (fuel : nat) st w :
  cf <= seek st ->
  while_loop self features tok opts cf fuel st w = ([], Finished st w).
Proof.
  intros Hcf. destruct fuel; simpl;
    (destruct (seek st <? cf) eqn:E; [apply Z.ltb_lt in E; lia|reflexivity]).
Qed.

Lemma initial_state_seek tok opts : seek (initial_state tok opts) = 0.
Proof. reflexivity. Qed.

(** X1.  When the features hold no more frames than one window
    ([content_frames <= 0], which includes no frames at all), the
    generator yields nothing and ends at once, in its initial state and
    without a call to the decoder, whatever the options. *)
Theorem short_audio_yields_nothing
    self (features : list Frame) tok opts (fuel : nat) w :
  len features - nb_max_frames (feature_extractor self) <= 0 ->
  generate_segments self features tok opts fuel w
    = ([], Finished (initial_state tok opts) w).
Proof.
  intros Hcf. unfold generate_segments.
  apply while_loop_done. rewrite initial_state_seek. exact Hcf.
Qed.

(** With an empty ladder the fallback decoder returns no result and
    does not call the decoder. *)
Lemma empty_ladder_returns_none self (segment : list Frame) prompt tok opts mits w :
  temperatures opts = [] ->
  fround (fdiv (max_initial_timestamp opts) (time_precision self))
    = inr mits ->
  generate_with_fallback self segment prompt tok opts w = inr (None, w).
Proof.
  intros Ht Hm.
  rewrite generate_with_fallback_run with (mits := mits) by exact Hm.
  rewrite Ht. reflexivity.
Qed.

(** X2.  With an empty list of temperatures and audio longer than one
    window, the first iteration finds [result] to be [None]: the
    generator yields nothing and raises [AttributeError]. *)
Theorem empty_ladder_raises_attribute_error
    self (features : list Frame) tok opts mits (fuel : nat) w :
  temperatures opts = [] ->
  fround (fdiv (max_initial_timestamp opts) (time_precision self))
    = inr mits ->
  0 < len features - nb_max_frames (feature_extractor self) ->
  generate_segments self features tok opts (S fuel) w
    = ([], Raised AttributeError).
Proof.
  intros Ht Hm Hcf. unfold generate_segments.
  apply while_loop_raise_first; [rewrite initial_state_seek; exact Hcf|].
  unfold window_body. unfold bind at 1.
  rewrite empty_ladder_returns_none with (mits := mits) by assumption.
  reflexivity.
Qed.

(** X3.  A non-empty ladder never gives [None]: whatever the fallback
    decoder returns is the outcome of an attempt at one of the given
    temperatures; and with an empty ladder it returns [None] and leaves
    the decoder untouched. *)
Theorem fallback_result_comes_from_the_ladder
    self (segment : list Frame) prompt tok opts w res w' :
  generate_with_fallback self segment prompt tok opts w = inr (res, w') ->
  (temperatures opts = [] -> res = None /\ w' = w) /\
  (temperatures opts <> [] ->
   exists r avg t, res = Some (r, avg, t) /\ In t (temperatures opts)).
Proof.
  intros H.
  apply generate_with_fallback_inv in H. destruct H as (mits & _ & H).
  apply fallback_loop_inv in H.
  destruct H as [(Ht & -> & ->)|(pre & t & post & w1 & r & avg & nf & Ht & _ & _ & -> & _)].
  - split; [auto|]. intros Hne. congruence.
  - split.
    + intros E. rewrite E in Ht. destruct pre; discriminate.
    + intros _. exists r, avg, t. split; [reflexivity|].
      rewrite Ht. apply in_or_app. right. left. reflexivity.
Qed.

(** X4.  An exception of the decoder is not caught: when the decoder
    raises on the first call of the first window, the generator yields
    nothing and raises that exception. *)
Theorem decoder_failure_stops_the_generator
    self (features : list Frame) tok opts mits t rest e (fuel : nat) w :
  temperatures opts = t :: rest ->
  fround (fdiv (max_initial_timestamp opts) (time_precision self))
    = inr mits ->
  0 < len features - nb_max_frames (feature_extractor self) ->
  (forall call, model self call w = inl e) ->
  generate_segments self features tok opts (S fuel) w = ([], Raised e).
Proof.
  intros Ht Hm Hcf Hfail. unfold generate_segments.
  apply while_loop_raise_first; [rewrite initial_state_seek; exact Hcf|].
  unfold window_body. unfold bind at 1.
  rewrite generate_with_fallback_run with (mits := mits) by exact Hm.
  rewrite Ht. simpl fallback_loop. unfold bind at 1.
  unfold fallback_attempt. unfold bind at 1. rewrite Hfail.
  reflexivity.
Qed.

(** X5.  Without a [no_speech_threshold] no window is ever skipped,
    whatever its no-speech probability: every iteration that returns
    has decoded its window. *)
Theorem no_threshold_no_skip
    self (features : list Frame) tok opts cf st w ev ys st' w' :
  no_speech_threshold opts = None ->
  window_body self features tok opts cf st w = inr (ev, ys, st', w') ->
  exists cs, ev = Decoded cs.
Proof.
  intros Hn H. apply window_body_inv in H.
  destruct H as (r & avg & t & _ & [(Hs & _)|(_ & tokens & cs & sk & _ & _ & -> & _)]).
  - unfold no_speech_skip in Hs. rewrite Hn in Hs. discriminate.
  - eauto.
Qed.

(** *** The history across iterations *)

Lemma window_body_history
    self (features : list Frame) tok opts cf st w ev ys st' w' :
  window_body self features tok opts cf st w = inr (ev, ys, st', w') ->
  history_ok st ->
  history_ok st' /\
  (exists suffix, all_tokens st' = all_tokens st ++ suffix) /\
  prompt_reset_since st <= prompt_reset_since st'.
Proof.
  unfold history_ok. intros H Hok. apply window_body_inv in H.
  destruct H as (r & avg & t & _ & [(_ & _ & _ & ->)|(_ & tokens & cs & sk & _ & _ & _ & _ & ->)]).
  - simpl. split; [exact Hok|]. split; [|lia].
    exists []. rewrite app_nil_r. reflexivity.
  - cbn [all_tokens prompt_reset_since]. rewrite len_app.
    pose proof (len_nonneg (List.concat (map seg_tokens cs))).
    destruct (resets_prompt opts t).
    + split; [lia|]. split; [eauto|lia].
    + split; [lia|]. split; [eauto|lia].
Qed.

Lemma while_loop_history
    self (features : list Frame) tok opts cf (fuel : nat) :
  forall st w ys out st',
    while_loop self features tok opts cf fuel st w = (ys, out) ->
    final_state out = Some st' ->
    history_ok st ->
    history_ok st' /\
    (exists suffix, all_tokens st' = all_tokens st ++ suffix) /\
    prompt_reset_since st <= prompt_reset_since st'.
Proof.
  assert (Hsame : forall st, history_ok st ->
    history_ok st /\
    (exists suffix, all_tokens st = all_tokens st ++ suffix) /\
    prompt_reset_since st <= prompt_reset_since st).
  { intros st Hok. split; [exact Hok|]. split; [|lia].
    exists []. rewrite app_nil_r. reflexivity. }
  induction fuel as [|n IH]; intros st w ys out st' H Hfin Hok.
  - simpl in H. destruct (seek st <? cf); inversion H; subst;
      simpl in Hfin; inversion Hfin; subst; auto.
  - simpl in H. destruct (seek st <? cf).
    + destruct (window_body self features tok opts cf st w)
        as [e|[[[ev ys1] st1] w1]] eqn:Hbody.
      * inversion H; subst. discriminate.
      * destruct (while_loop self features tok opts cf n st1 w1)
          as [more out1] eqn:Hrest.
        inversion H; subst.
        apply window_body_history in Hbody; [|exact Hok].
        destruct Hbody as (Hok1 & (s1 & Hs1) & Hp1).
        destruct (IH _ _ _ _ _ Hrest Hfin Hok1) as (Hok' & (s2 & Hs2) & Hp2).
        split; [exact Hok'|]. split; [|lia].
        exists (s1 ++ s2). rewrite Hs2, Hs1, app_assoc. reflexivity.
    + inversion H; subst. simpl in Hfin. inversion Hfin; subst. auto.
Qed.

(** X6.  The history is append-only and [prompt_reset_since] stays an
    index into it: wherever a run of the generator stands or ends,
    [all_tokens] begins with the tokens of the initial prompt (if any)
    and [0 <= prompt_reset_since <= len(all_tokens)]. *)
Theorem history_is_append_only
    self (features : list Frame) tok opts (fuel : nat) w ys out st' :
  generate_segments self features tok opts fuel w = (ys, out) ->
  final_state out = Some st' ->
  0 <= prompt_reset_since st' <= len (all_tokens st') /\
  exists suffix,
    all_tokens st' = all_tokens (initial_state tok opts) ++ suffix.
Proof.
  unfold generate_segments. intros H Hfin.
  assert (Hok : history_ok (initial_state tok opts)).
  { unfold history_ok.
    assert (E : prompt_reset_since (initial_state tok opts) = 0)
      by reflexivity.
    rewrite E. split; [apply Z.le_refl|apply len_nonneg]. }
  apply while_loop_history with (st' := st') in H; [|exact Hfin|exact Hok].
  destruct H as (Hok' & Hsuf & _).
  split; [exact Hok'|exact Hsuf].
Qed.

(** *** What is yielded *)

Lemma window_body_yields_text
    self (features : list Frame) tok opts cf st w ev ys st' w' :
  window_body self features tok opts cf st w = inr (ev, ys, st', w') ->
  forall seg, In seg ys -> str_truthy (strip (text seg)) = true.
Proof.
  intros H seg Hin. apply window_body_inv in H.
  destruct H as (r & avg & t & _ & [(_ & _ & -> & _)|(_ & tokens & cs & sk & _ & _ & _ & -> & _)]).
  - destruct Hin.
  - apply in_map_iff in Hin. destruct Hin as (raw & <- & Hraw).
    apply filter_In in Hraw. exact (proj2 Hraw).
Qed.

(** X7.  The generator never yields a Segment whose text is blank:
    the text of every Segment of a run, however far it got, is
    non-empty after stripping. *)
Theorem yielded_text_is_never_blank
    self (features : list Frame) tok opts (fuel : nat) w seg :
  In seg (fst (generate_segments self features tok opts fuel w)) ->
  str_truthy (strip (text seg)) = true.
Proof.
  unfold generate_segments.
  generalize (len features - nb_max_frames (feature_extractor self)) as cf.
  generalize (initial_state tok opts) as st.
  revert w. induction fuel as [|n IH]; intros w st cf Hin.
  - simpl in Hin. destruct (seek st <? cf); destruct Hin.
  - simpl in Hin. destruct (seek st <? cf); [|destruct Hin].
    destruct (window_body self features tok opts cf st w)
      as [e|[[[ev ys1] st1] w1]] eqn:Hbody; [destruct Hin|].
    destruct (while_loop self features tok opts cf n st1 w1)
      as [more out1] eqn:Hrest.
    simpl in Hin. apply in_app_or in Hin. destruct Hin as [Hin|Hin].
    + eapply window_body_yields_text; eauto.
    + apply (IH w1 st1 cf). rewrite Hrest. exact Hin.
Qed.

(** *** The context of the next window *)

Lemma skipn_app_within (l1 l2 : list Z) (n : nat) :
  (n <= List.length l1)%nat -> skipn n (l1 ++ l2) = skipn n l1 ++ l2.
Proof.
  intros H. rewrite skipn_app.
  replace (n - List.length l1)%nat with 0%nat by lia. reflexivity.
Qed.

(** X8.  When a decoded window does not reset the prompt
    ([condition_on_previous_text] on and its temperature not above 0.5),
    [prompt_reset_since] keeps its value and the context of the next
    window is the context of this one followed by the tokens recorded
    for this window. *)
Theorem context_accumulates_without_reset
    self (features : list Frame) tok opts cf st w r avg t w1 cs ys st' w' :
  window_decode self features tok opts st w = inr (Some (r, avg, t), w1) ->
  condition_on_previous_text opts = true ->
  fgt t (lit 5 1) = false ->
  0 <= prompt_reset_since st <= len (all_tokens st) ->
  window_body self features tok opts cf st w
    = inr (Decoded cs, ys, st', w') ->
  prompt_reset_since st' = prompt_reset_since st /\
  previous_tokens_of st' =
    previous_tokens_of st ++ List.concat (map seg_tokens cs).
Proof.
  intros Hdec Hc Ht Hok H. apply window_body_inv in H.
  destruct H as (r' & avg' & t' & Hdec' & [(_ & Hev & _)|(_ & tokens & cs' & sk & _ & _ & Hev & _ & ->)]);
    [discriminate|].
  rewrite Hdec in Hdec'. inversion Hdec'; subst r' avg' t' w'.
  inversion Hev; subst cs'.
  assert (Hr : resets_prompt opts t = false)
    by (unfold resets_prompt; rewrite Hc, Ht; reflexivity).
  rewrite Hr. cbn [prompt_reset_since]. split; [reflexivity|].
  unfold previous_tokens_of. cbn [all_tokens prompt_reset_since].
  pose proof (len_nonneg (List.concat (map seg_tokens cs))).
  rewrite !py_slice_suffix by (rewrite ?len_app; lia).
  apply skipn_app_within. unfold len in Hok. lia.
Qed.

(** *** What is recorded of an output *)

Lemma last_snoc (l : list Z) x d : last (l ++ [x]) d = x.
Proof.
  induction l as [|a l IH]; [reflexivity|].
  simpl. destruct (l ++ [x]) eqn:E; [destruct l; discriminate|exact IH].
Qed.

Lemma map_seg_tokens_chunk_segment self tok time_offset (l : list (list Z)) :
  map seg_tokens (map (chunk_segment self tok time_offset) l) = l.
Proof. induction l as [|c l IH]; simpl; [|rewrite IH]; reflexivity. Qed.

Lemma split_tokens_records self tok time_offset size dur seek tokens cs seek' :
  split_tokens self tok time_offset size dur seek tokens = inr (cs, seek') ->
  (ends_with_single_timestamp tok tokens \/
   (forall i, ~ boundary tok tokens i) ->
   List.concat (map seg_tokens cs) = tokens) /\
  (~ ends_with_single_timestamp tok tokens ->
   forall i,
     boundary tok tokens i ->
     (forall j, boundary tok tokens j -> j <= i) ->
     List.concat (map seg_tokens cs) = firstn (Z.to_nat i) tokens).
Proof.
  intros H.
  destruct (filter (boundaryb tok tokens) (range (len tokens)))
    as [|x l] eqn:Eb.
  - rewrite (split_tokens_no_boundary self tok time_offset size dur seek tokens Eb) in H.
    inversion H; subst. simpl. rewrite app_nil_r. split; [reflexivity|].
    intros _ i Hi _. apply boundaryb_iff in Hi. rewrite Eb in Hi. destruct Hi.
  - destruct (single_timestamp_ending_spec tok tokens) as (ste & Hste & Hiff).
    assert (Hne : filter (boundaryb tok tokens) (range (len tokens)) <> [])
      by (rewrite Eb; discriminate).
    destruct (split_tokens_boundaries self tok time_offset size dur seek tokens Hste Hne)
      as (Hasc & t & _ & _ & Hsplit).
    rewrite Hsplit in H. inversion H; subst cs seek'. clear H.
    rewrite map_seg_tokens_chunk_segment.
    rewrite concat_chunks with (upto := len tokens) by (auto; lia).
    unfold tokens_between. rewrite Z.sub_0_r. simpl skipn.
    set (bounds := filter (boundaryb tok tokens) (range (len tokens))) in *.
    assert (Hbx : boundary tok tokens x).
    { apply boundaryb_iff. fold bounds. rewrite Eb. left. reflexivity. }
    destruct ste.
    + rewrite last_snoc. split.
      * intros _. apply firstn_all2. unfold len. lia.
      * intros Hn. exfalso. apply Hn, Hiff. reflexivity.
    + rewrite app_nil_r. split.
      * intros [He|Hno].
        -- apply Hiff in He. discriminate.
        -- exfalso. exact (Hno x Hbx).
      * intros _ i Hi Hmax.
        assert (Hlast : boundary tok tokens (last bounds 0))
          by (apply boundaryb_iff; fold bounds; apply last_in; exact Hne).
        pose proof (ascending_last _ _ _ (ascending_boundaries tok tokens))
          as (_ & _ & Hall). fold bounds in Hall.
        apply boundaryb_iff in Hi. fold bounds in Hi.
        pose proof (Hall i Hi). pose proof (Hmax _ Hlast).
        replace (last bounds 0) with i by lia. reflexivity.
Qed.

(** X9.  What a decoded window adds to [all_tokens] is a prefix of the
    decoder's output: the whole output when it has no boundary or ends
    in a single timestamp; otherwise the output up to its last boundary,
    the unfinished segment after it being left for the next window. *)
Theorem recorded_tokens_are_a_prefix_of_the_output
    self (features : list Frame) tok opts cf st w cs ys st' w' :
  window_body self features tok opts cf st w
    = inr (Decoded cs, ys, st', w') ->
  exists r avg t tokens,
    window_decode self features tok opts st w = inr (Some (r, avg, t), w') /\
    py_index (sequences_ids r) 0 = inr tokens /\
    (ends_with_single_timestamp tok tokens \/
     (forall i, ~ boundary tok tokens i) ->
     all_tokens st' = all_tokens st ++ tokens) /\
    (~ ends_with_single_timestamp tok tokens ->
     forall i,
       boundary tok tokens i ->
       (forall j, boundary tok tokens j -> j <= i) ->
       all_tokens st' = all_tokens st ++ firstn (Z.to_nat i) tokens).
Proof.
  intros H. apply window_body_inv in H.
  destruct H as (r & avg & t & Hdec & [(_ & Hev & _)|(_ & tokens & cs' & sk & Htok & Hsplit & Hev & _ & ->)]);
    [discriminate|].
  inversion Hev; subst cs'.
  exists r, avg, t, tokens. split; [exact Hdec|]. split; [exact Htok|].
  apply split_tokens_records in Hsplit. destruct Hsplit as [Hall Hcut].
  cbn [all_tokens]. split.
  - intros Hc. rewrite (Hall Hc). reflexivity.
  - intros Hn i Hi Hmax. rewrite (Hcut Hn i Hi Hmax). reflexivity.
Qed.

(** *** The prompt and the calls of the decoder *)

Lemma get_prompt_parts generate fe tok
    (previous_tokens : list Z) (without_timestamps : bool)
    (prefix : option string) :
  get_prompt (init generate fe : WhisperModel World Frame) tok previous_tokens
      without_timestamps prefix =
    (match previous_tokens with
     | [] => []
     | _ => sot_prev tok
            :: skipn (List.length previous_tokens - 223) previous_tokens
     end)
    ++ sot_sequence tok
    ++ (if without_timestamps then [no_timestamps tok] else [])
    ++ (match prefix with
        | Some p =>
            if str_truthy p
            then firstn 223 (encode tok (" " ++ strip p)%string)
            else []
        | None => []
        end).
Proof.
  unfold get_prompt. rewrite init_max_length.
  change (448 / 2 - 1) with 223. change (448 / 2) with 224.
  assert (Hctx :
    (if list_truthy previous_tokens
     then ([] ++ [sot_prev tok]) ++ py_slice previous_tokens (Some (- (223))) None
     else []) =
    match previous_tokens with
    | [] => []
    | _ => sot_prev tok
           :: skipn (List.length previous_tokens - 223) previous_tokens
    end).
  { destruct previous_tokens as [|x l]; [reflexivity|].
    simpl list_truthy. cbv iota. rewrite py_slice_last_k by lia.
    reflexivity. }
  rewrite Hctx. clear Hctx.
  set (ctx := match previous_tokens with [] => [] | _ => _ end).
  assert (Hpre : forall toks : list Z,
    (if len toks >=? 224 then py_slice toks None (Some 223) else toks)
    = firstn 223 toks).
  { intros toks. destruct (len toks >=? 224) eqn:E.
    - rewrite py_slice_first_k by lia. reflexivity.
    - rewrite firstn_all2; [reflexivity|].
      rewrite Z.geb_leb in E. apply Z.leb_gt in E. unfold len in E. lia. }
  destruct prefix as [p|].
  - destruct (str_truthy p).
    + rewrite Hpre. destruct without_timestamps;
        rewrite <- ?app_assoc; reflexivity.
    + destruct without_timestamps; rewrite <- ?app_assoc, ?app_nil_r;
        reflexivity.
  - destruct without_timestamps; rewrite <- ?app_assoc, ?app_nil_r;
      reflexivity.
Qed.

(** X10.  Whatever the context and the prefix, the prompt holds the
    task and language sequence and at most [max_length] = 448 tokens
    more. *)
Theorem prompt_length_is_bounded generate fe tok
    (previous_tokens : list Z) (without_timestamps : bool)
    (prefix : option string) :
  len (sot_sequence tok)
  <= len (get_prompt (init generate fe : WhisperModel World Frame) tok
            previous_tokens without_timestamps prefix)
  <= len (sot_sequence tok)
     + max_length (init generate fe : WhisperModel World Frame).
Proof.
  rewrite get_prompt_parts, init_max_length. rewrite !len_app.
  assert (Hctx :
    0 <= len (match previous_tokens with
              | [] => []
              | _ => sot_prev tok
                     :: skipn (List.length previous_tokens - 223)
                          previous_tokens
              end) <= 224).
  { destruct previous_tokens as [|x l]; [unfold len; simpl; lia|].
    unfold len. rewrite length_cons, length_skipn. lia. }
  assert (Hnots :
    0 <= len (if without_timestamps then [no_timestamps tok] else []) <= 1)
    by (destruct without_timestamps; unfold len; simpl; lia).
  assert (Hpre :
    0 <= len (match prefix with
              | Some p =>
                  if str_truthy p
                  then firstn 223 (encode tok (" " ++ strip p)%string)
                  else []
              | None => []
              end) <= 223).
  { destruct prefix as [p|]; [destruct (str_truthy p)|];
      unfold len; rewrite ?length_firstn; try (simpl; lia); lia. }
  lia.
Qed.

(** X11.  An attempt that returns has called the decoder once, with the
    window's features, the prompt as only prompt, [max_length], the
    options' length penalty and suppression settings, and
    with sampling (beam size 1, [best_of] hypotheses, no top-k limit,
    the temperature) when the temperature is above 0, with beam search
    ([beam_size], [patience]) when it is not, negative temperatures
    included; the result is the first entry of what the decoder
    returned. *)
Theorem attempt_calls_the_decoder_by_temperature
    self (features : list (list Frame)) prompt tok opts mits t w r avg nf w' :
  fallback_attempt self features prompt tok opts mits t w
    = inr (r, avg, nf, w') ->
  exists call results,
    model self call w = inr (results, w') /\
    py_index results 0 = inr r /\
    call_features call = features /\
    call_prompts call = [prompt] /\
    call_max_length call = max_length self /\
    call_length_penalty call = length_penalty opts /\
    call_suppress_blank call = suppress_blank opts /\
    call_suppress_tokens call = suppress_tokens opts /\
    call_max_initial_timestamp_index call = mits /\
    (fgt t (of_int 0) = true ->
     call_kwargs call = Sampling 1 (best_of opts) 0 t) /\
    (fgt t (of_int 0) = false ->
     call_kwargs call = BeamSearch (beam_size opts) (patience opts)).
Proof.
  unfold fallback_attempt. intros H.
  apply bind_inr in H. destruct H as (results & w1 & Hgen & H).
  apply bind_inr in H. destruct H as (r0 & w2 & Hr & H).
  apply lift_inr in Hr. destruct Hr as [Hr ->].
  apply bind_inr in H. destruct H as (tokens & w3 & Htok & H).
  apply lift_inr in Htok. destruct Htok as [_ ->].
  apply bind_inr in H. destruct H as (score & w4 & Hsc & H).
  apply lift_inr in Hsc. destruct Hsc as [_ ->].
  apply bind_inr in H. destruct H as (pw & w5 & Hpw & H).
  apply lift_inr in Hpw. destruct Hpw as [_ ->].
  apply bind_inr in H. destruct H as (ratio & w6 & Hra & H).
  apply lift_inr in Hra. destruct Hra as [_ ->].
  apply ret_inr in H. destruct H as [H ->]. inversion H; subst.
  eexists. exists results. split; [exact Hgen|]. split; [exact Hr|].
  cbn [call_features call_prompts call_max_length call_length_penalty
       call_suppress_blank call_suppress_tokens
       call_max_initial_timestamp_index call_kwargs].
  unfold fallback_kwargs.
  repeat split; try reflexivity; intros E; rewrite E; reflexivity.
Qed.

(** Without thresholds no attempt asks for a fallback. *)
Lemma needs_fallback_of_none opts ratio avg :
  compression_ratio_threshold opts = None ->
  log_prob_threshold opts = None ->
  needs_fallback_of opts ratio avg = false.
Proof.
  intros Hc Hl. unfold needs_fallback_of. rewrite Hc, Hl. reflexivity.
Qed.

(** X16.  With neither [compression_ratio_threshold] nor
    [log_prob_threshold] there is no fallback: the result of the first
    temperature is returned after a single attempt, and the other
    temperatures are never used. *)
Theorem no_thresholds_no_fallback
    self (segment : list Frame) prompt tok opts t rest w res w' :
  compression_ratio_threshold opts = None ->
  log_prob_threshold opts = None ->
  temperatures opts = t :: rest ->
  generate_with_fallback self segment prompt tok opts w = inr (res, w') ->
  exists mits r avg,
    fround (fdiv (max_initial_timestamp opts) (time_precision self))
      = inr mits /\
    fallback_attempt self (get_input segment) prompt tok opts mits t w
      = inr (r, avg, false, w') /\
    res = Some (r, avg, t).
Proof.
  intros Hc Hl Ht H.
  apply generate_with_fallback_inv in H. destruct H as (mits & Hm & H).
  rewrite Ht in H. simpl fallback_loop in H.
  apply bind_inr in H. destruct H as ([[r avg] nf] & w1 & Hatt & H).
  assert (Hnf : nf = false).
  { pose proof Hatt as Hinv. apply fallback_attempt_inv in Hinv.
    destruct Hinv as (call & results & tokens & score & pw & ratio & Hinv).
    destruct Hinv as (_ & _ & _ & _ & _ & _ & _ & _ & _ & ->).
    apply needs_fallback_of_none; assumption. }
  subst nf. simpl negb in H. cbv iota in H.
  apply ret_inr in H. destruct H as [-> ->].
  exists mits, r, avg. split; [exact Hm|]. split; [exact Hatt|reflexivity].
Qed.

(** A run that stands before a window goes on with that window when it
    is given one more iteration. *)
Lemma while_loop_extend self (features : list Frame) tok opts cf (n : nat) :
  forall st w ys st1 w1,
    while_loop self features tok opts cf n st w = (ys, Running st1 w1) ->
    seek st1 < cf /\
    while_loop self features tok opts cf (S n) st w =
      (ys ++ fst (while_loop self features tok opts cf 1 st1 w1),
       snd (while_loop self features tok opts cf 1 st1 w1)).
Proof.
  induction n as [|n IH]; intros st w ys st1 w1 H.
  - simpl in H. destruct (seek st <? cf) eqn:E; inversion H; subst.
    split; [apply Z.ltb_lt; exact E|].
    destruct (while_loop self features tok opts cf 1 st1 w1); reflexivity.
  - simpl in H. destruct (seek st <? cf) eqn:E; [|discriminate].
    destruct (window_body self features tok opts cf st w)
      as [e|[[[ev ys1] st'] w']] eqn:Hbody; [discriminate|].
    destruct (while_loop self features tok opts cf n st' w')
      as [more out] eqn:Hrest.
    inversion H; subst.
    destruct (IH _ _ _ _ _ Hrest) as [Hlt Hext].
    split; [exact Hlt|].
    rewrite while_loop_step with (ev := ev) (ys := ys1) (st' := st') (w' := w')
      by (try apply Z.ltb_lt; assumption).
    rewrite Hext. simpl fst. simpl snd. rewrite app_assoc. reflexivity.
Qed.

(** X17.  The prefix is not kept for the first window: with a non-empty
    prefix, wherever a run of the generator stands before a window, that
    window is decoded with a prompt that ends with the task and language
    sequence, the no-timestamps marker if asked for, and the tokens of
    the prefix.  When that decoding raises, so does the run; otherwise
    the iteration either raises or goes on from the result of that
    decoding. *)
Theorem prefix_is_sent_with_every_window
    generate fe (features : list Frame) tok opts p (n : nat) w ys st w1 :
  prefix opts = Some p ->
  str_truthy p = true ->
  generate_segments (init generate fe) features tok opts n w
    = (ys, Running st w1) ->
  exists context,
    let self : WhisperModel World Frame := init generate fe in
    let cf := len features - nb_max_frames fe in
    let decode_next :=
      generate_with_fallback self
        (py_slice features (Some (seek st)) (Some (seek st + nb_max_frames fe)))
        (context
         ++ sot_sequence tok
         ++ (if without_timestamps opts then [no_timestamps tok] else [])
         ++ firstn 223 (encode tok (" " ++ strip p)%string))
        tok opts in
    (forall e,
       decode_next w1 = inl e ->
       generate_segments self features tok opts (S n) w = (ys, Raised e)) /\
    ((exists e,
        window_body self features tok opts cf st w1 = inl e /\
        generate_segments self features tok opts (S n) w = (ys, Raised e)) \/
     (exists ev ys1 st2 w2 r avg t,
        decode_next w1 = inr (Some (r, avg, t), w2) /\
        window_body self features tok opts cf st w1
          = inr (ev, ys1, st2, w2) /\
        generate_segments self features tok opts (S n) w =
          (ys ++ ys1,
           if seek st2 <? cf then Running st2 w2 else Finished st2 w2))).
Proof.
  intros Hp Htruthy Hrun.
  exists (match previous_tokens_of st with
          | [] => []
          | _ => sot_prev tok
                 :: skipn (List.length (previous_tokens_of st) - 223)
                      (previous_tokens_of st)
          end).
  cbv zeta.
  replace (_ ++ sot_sequence tok ++ _ ++ firstn 223 _)
    with (get_prompt (init generate fe : WhisperModel World Frame) tok
            (previous_tokens_of st) (without_timestamps opts) (prefix opts))
    by (rewrite get_prompt_parts, Hp, Htruthy; reflexivity).
  unfold generate_segments in *.
  change (nb_max_frames (feature_extractor
            (init generate fe : WhisperModel World Frame)))
    with (nb_max_frames fe) in *.
  set (cf := len features - nb_max_frames fe) in *.
  apply while_loop_extend in Hrun. destruct Hrun as [Hlt Hext].
  rewrite Hext. clear Hext.
  assert (Hraise : forall e,
    window_body (init generate fe) features tok opts cf st w1 = inl e ->
    (ys ++ fst (while_loop (init generate fe) features tok opts cf 1 st w1),
     snd (while_loop (init generate fe) features tok opts cf 1 st w1))
    = (ys, Raised e)).
  { intros e Hbody.
    rewrite while_loop_raise_first with (e := e) by assumption.
    simpl. rewrite app_nil_r. reflexivity. }
  split.
  - intros e He. apply Hraise.
    apply window_body_decode_raises. exact He.
  - destruct (window_body (init generate fe) features tok opts cf st w1)
      as [e|[[[ev ys1] st2] w2]] eqn:Hbody.
    + left. exists e. split; [reflexivity|]. apply Hraise. reflexivity.
    + right. destruct (window_body_decodes _ _ _ _ _ _ _ Hbody)
        as (r & avg & t & Hdec).
      exists ev, ys1, st2, w2, r, avg, t.
      split; [exact Hdec|]. split; [reflexivity|].
      rewrite while_loop_step with (ev := ev) (ys := ys1) (st' := st2)
        (w' := w2) by assumption.
      simpl. destruct (seek st2 <? cf); simpl; rewrite app_nil_r; reflexivity.
Qed.

End Further.

(* ================================================================== *)
(** ** Properties of [transcribe] *)

Section StringFacts.

Lemma utf8_chars_ascii (s : string) :
  all_ascii s = true ->
  utf8_chars s
    = map (fun c => String c EmptyString) (list_ascii_of_string s).
Proof.
  induction s as [|c rest IH]; intros H; [reflexivity|].
  simpl in H. apply andb_prop in H. destruct H as [_ Hrest].
  specialize (IH Hrest). simpl utf8_chars. rewrite IH.
  destruct rest as [|c' rest']; [reflexivity|].
  simpl list_ascii_of_string. simpl map.
  simpl in Hrest. apply andb_prop in Hrest. destruct Hrest as [Hc' _].
  unfold starts_with_continuation, is_continuation.
  apply Nat.ltb_lt in Hc'.
  replace (128 <=? nat_of_ascii c')%nat with false
    by (symmetry; apply Nat.leb_gt; exact Hc').
  reflexivity.
Qed.

Lemma join_single_chars (l : list ascii) :
  join_chars (map (fun c => String c EmptyString) l) = string_of_list_ascii l.
Proof. induction l as [|c l IH]; simpl; [|rewrite <- IH]; reflexivity. Qed.

Lemma list_ascii_of_string_app (s1 s2 : string) :
  list_ascii_of_string (s1 ++ s2)
    = list_ascii_of_string s1 ++ list_ascii_of_string s2.
Proof. induction s1 as [|c s1 IH]; simpl; [|rewrite IH]; reflexivity. Qed.

Lemma all_ascii_app (s1 s2 : string) :
  all_ascii (s1 ++ s2) = all_ascii s1 && all_ascii s2.
Proof.
  induction s1 as [|c s1 IH]; simpl; [reflexivity|].
  rewrite IH, andb_assoc. reflexivity.
Qed.

Lemma py_slice_map A B (f : A -> B) (l : list A) start stop :
  py_slice (map f l) start stop = map f (py_slice l start stop).
Proof.
  unfold py_slice, len. rewrite length_map, skipn_map, firstn_map.
  reflexivity.
Qed.

(** Cutting two elements off each end of a list. *)
Lemma py_slice_trim A (a b c d : A) (l : list A) :
  py_slice (a :: b :: l ++ [c; d]) (Some 2) (Some (-2)) = l.
Proof.
  unfold py_slice, clamp_index.
  replace (len (a :: b :: l ++ [c; d])) with (len l + 4)
    by (unfold len; simpl; rewrite length_app; simpl; lia).
  pose proof (len_nonneg l) as Hn.
  replace (2 <? 0) with false by reflexivity.
  replace (-2 <? 0) with true by reflexivity.
  rewrite Z.min_l by lia. rewrite Z.max_l by lia.
  replace (Z.to_nat (-2 + (len l + 4) - 2)) with (List.length l)
    by (unfold len; lia).
  change (Z.to_nat 2) with 2%nat. simpl skipn.
  rewrite firstn_app, firstn_all, Nat.sub_diag. simpl firstn.
  apply app_nil_r.
Qed.

(** Cutting two characters off each end of a language token. *)
Lemma language_token_slice (code : string) :
  all_ascii code = true ->
  str_slice ("<|" ++ code ++ "|>") (Some 2) (Some (-2)) = code.
Proof.
  intros H. unfold str_slice.
  rewrite utf8_chars_ascii
    by (rewrite !all_ascii_app, H; reflexivity).
  rewrite py_slice_map, join_single_chars.
  rewrite !list_ascii_of_string_app.
  change (list_ascii_of_string "<|") with ["<"%char; "|"%char].
  change (list_ascii_of_string "|>") with ["|"%char; ">"%char].
  change (["<"%char; "|"%char] ++ list_ascii_of_string code
          ++ ["|"%char; ">"%char])
    with ("<"%char :: "|"%char :: list_ascii_of_string code
          ++ ["|"%char; ">"%char]).
  rewrite py_slice_trim. apply string_of_list_ascii_of_string.
Qed.

End StringFacts.

Section TranscribeFacts.

Context {PF : PyFloat} {PL : PyLib}.
Variables World Frame Waveform AudioFile : Type.

Variables (self : WhisperModel World Frame)
  (env : Collaborators World Frame Waveform AudioFile).

(** The arguments that [transcribe] only hands on. *)
Variables (task : string) (bs bo : Z) (pat lp : float)
  (crt lpt nst : option float) (cond : bool) (ip pfx : option string)
  (sb : bool) (stoks : option (list Z)) (wt : bool) (mit : float).

Local Abbreviation run audio lang temperature :=
  (transcribe self env audio lang task bs bo pat lp temperature crt lpt nst
     cond ip pfx sb stoks wt mit).

Local Abbreviation options_with ts :=
  {| beam_size := bs; best_of := bo; patience := pat; length_penalty := lp;
     log_prob_threshold := lpt; no_speech_threshold := nst;
     compression_ratio_threshold := crt;
     condition_on_previous_text := cond; temperatures := ts;
     initial_prompt := ip; prefix := pfx; suppress_blank := sb;
     suppress_tokens := stoks; without_timestamps := wt;
     max_initial_timestamp := mit |}.

(** The waveform [transcribe] works on. *)
Local Abbreviation loaded audio :=
  (match audio with
   | AudioArray waveform => inr waveform
   | AudioSource source => decode_audio env source (sampling_rate env)
   end).

Lemma load_step A (audio : AudioInput Waveform AudioFile) waveform
    (k : Waveform -> M World A) w :
  loaded audio = inr waveform ->
  bind
    (lift
       (match audio with
        | AudioArray wf => eret wf
        | AudioSource source => decode_audio env source (sampling_rate env)
        end)) k w
  = k waveform w.
Proof.
  intros H. destruct audio as [wf|source]; unfold bind, lift, eret.
  - inversion H. reflexivity.
  - rewrite H. reflexivity.
Qed.

(** X12.  With a language given, or with a model that is not
    multilingual, no language is detected: [transcribe] returns without
    a call to the model, reports the given language (or "en") with
    probability 1, and builds the tokenizer for that language. *)
Theorem known_language_needs_no_detection
    (audio : AudioInput Waveform AudioFile) (lang : option string)
    temperature waveform tok w :
  loaded audio = inr waveform ->
  (lang = None -> is_multilingual env = false) ->
  new_tokenizer env (is_multilingual env) task
    (match lang with Some l => l | None => "en"%string end) = inr tok ->
  exists segments,
    run audio lang temperature w
      = inr ((segments,
              {| language :=
                   match lang with Some l => l | None => "en"%string end;
                 language_probability := of_int 1 |}), w) /\
    segments =
      generate_segments self (extract_features env waveform) tok
        (options_with
           (match temperature with
            | TemperatureList ts => ts
            | TemperatureValue t => [t]
            end)).
Proof.
  intros Hload Hlang Htok. eexists. split; [|reflexivity].
  unfold transcribe. rewrite load_step with (waveform := waveform)
    by exact Hload.
  destruct lang as [l|].
  - unfold bind at 1. unfold ret at 1.
    unfold bind at 1. unfold lift at 1. rewrite Htok. reflexivity.
  - rewrite (Hlang eq_refl) in *. simpl negb. cbv iota.
    unfold bind at 1. unfold ret at 1.
    unfold bind at 1. unfold lift at 1. rewrite Htok. reflexivity.
Qed.

(** X13.  Without a language and with a multilingual model, the
    language is detected once, on the first window of the features,
    before anything is transcribed: the best candidate the model
    returns, a token [<|code|>], gives the language [code] and its
    probability, and the tokenizer is built for [code]. *)
Theorem language_is_detected_on_the_first_window
    (audio : AudioInput Waveform AudioFile) temperature waveform
    code probability others more tok w w1 :
  loaded audio = inr waveform ->
  is_multilingual env = true ->
  detect_language env
    (get_input
       (py_slice (extract_features env waveform) None
          (Some (nb_max_frames (feature_extractor self))))) w
    = inr (((("<|" ++ code ++ "|>")%string, probability) :: others) :: more,
           w1) ->
  all_ascii code = true ->
  new_tokenizer env true task code = inr tok ->
  run audio None temperature w
    = inr ((generate_segments self (extract_features env waveform) tok
              (options_with
                 (match temperature with
                  | TemperatureList ts => ts
                  | TemperatureValue t => [t]
                  end)),
            {| language := code; language_probability := probability |}),
           w1).
Proof.
  intros Hload Hmulti Hdet Hascii Htok.
  unfold transcribe. rewrite load_step with (waveform := waveform)
    by exact Hload.
  rewrite Hmulti. simpl negb. cbv iota.
  unfold bind at 1. unfold bind at 1. rewrite Hdet.
  unfold bind at 1. unfold lift at 1.
  rewrite py_index_nat by lia. simpl nth_error.
  unfold bind at 1. unfold lift at 1.
  rewrite py_index_nat by lia. simpl nth_error.
  unfold ret at 1.
  change (String "<" (String "|" (code ++ "|>")))
    with ("<|" ++ code ++ "|>")%string.
  rewrite language_token_slice by exact Hascii.
  unfold bind at 1. unfold lift at 1. rewrite Htok. reflexivity.
Qed.

(** X14.  When the model returns no candidate language, [transcribe]
    raises [IndexError] and returns nothing. *)
Theorem no_detected_language_raises_index_error
    (audio : AudioInput Waveform AudioFile) temperature waveform results w w1 :
  loaded audio = inr waveform ->
  is_multilingual env = true ->
  detect_language env
    (get_input
       (py_slice (extract_features env waveform) None
          (Some (nb_max_frames (feature_extractor self))))) w
    = inr (results, w1) ->
  results = [] \/ (exists more, results = [] :: more) ->
  run audio None temperature w = inl IndexError.
Proof.
  intros Hload Hmulti Hdet Hres.
  unfold transcribe. rewrite load_step with (waveform := waveform)
    by exact Hload.
  rewrite Hmulti. simpl negb. cbv iota.
  unfold bind at 1. unfold bind at 1. rewrite Hdet.
  destruct Hres as [->|(more & ->)]; reflexivity.
Qed.

(** X15.  Whatever [transcribe] returns, the tokenizer its generator
    decodes with was built for the language it reports and the task
    asked for, the features are those of the loaded waveform, and a
    single temperature stands for the list holding just it. *)
Theorem transcribe_decodes_in_the_reported_language
    (audio : AudioInput Waveform AudioFile) (lang : option string)
    temperature w segments info w' :
  run audio lang temperature w = inr ((segments, info), w') ->
  exists waveform tok,
    loaded audio = inr waveform /\
    new_tokenizer env (is_multilingual env) task (language info) = inr tok /\
    segments =
      generate_segments self (extract_features env waveform) tok
        (options_with
           (match temperature with
            | TemperatureList ts => ts
            | TemperatureValue t => [t]
            end)) /\
    (forall l, lang = Some l ->
       language info = l /\ language_probability info = of_int 1 /\ w' = w).
Proof.
  unfold transcribe. intros H.
  apply bind_inr in H. destruct H as (waveform & w0 & Hload & H).
  apply lift_inr in Hload. destruct Hload as [Hload ->].
  apply bind_inr in H. destruct H as ([l p] & w1 & Hlang & H).
  apply bind_inr in H. destruct H as (tok & w2 & Htok & H).
  apply lift_inr in Htok. destruct Htok as [Htok ->].
  apply ret_inr in H. destruct H as [H ->]. inversion H; subst segments info.
  exists waveform, tok. cbn [language language_probability].
  split; [exact Hload|]. split; [exact Htok|]. split; [reflexivity|].
  intros l0 ->. apply ret_inr in Hlang. destruct Hlang as [Hlp ->].
  inversion Hlp; subst. auto.
Qed.

End TranscribeFacts.

(* ================================================================== *)
(** ** Worked examples *)

Module Worked.

Import Binary64 AsciiLib Examples.

(** *** C1 *)

Lemma says_nothing_decodes st w :
  window_decode says_nothing (silence 3001) byte_tokenizer default_options st w
  = inr (Some (nothing_result, nothing_avg, lit 0 1),
         w ++ [window_prompt says_nothing byte_tokenizer default_options st]).
Proof. reflexivity. Qed.

(** Whatever the history, a window of [says_nothing] at frame 0 leaves
    [seek] at 0. *)
Lemma says_nothing_stands_still all prs w :
  window_body says_nothing (silence 3001) byte_tokenizer default_options 1
    {| seek := 0; all_tokens := all; prompt_reset_since := prs |} w
  = inr (Decoded [nothing_raw], [],
         {| seek := 0; all_tokens := all ++ [tb];
            prompt_reset_since := prs |},
         w ++ [window_prompt says_nothing byte_tokenizer default_options
                 {| seek := 0; all_tokens := all;
                    prompt_reset_since := prs |}]).
Proof.
  rewrite (@window_body_decoded binary64 ascii_lib _ _ says_nothing
             (silence 3001) byte_tokenizer default_options 1
             {| seek := 0; all_tokens := all; prompt_reset_since := prs |} w
             nothing_result nothing_avg (lit 0 1) _ [tb; tb] [nothing_raw] 0
             (says_nothing_decodes _ w) eq_refl eq_refl eq_refl).
  reflexivity.
Qed.

Lemma says_nothing_runs_on (fuel : nat) : forall all prs w,
  exists ys st w',
    while_loop says_nothing (silence 3001) byte_tokenizer default_options 1
      fuel {| seek := 0; all_tokens := all; prompt_reset_since := prs |} w
    = (ys, Running st w') /\ seek st = 0.
Proof.
  induction fuel as [|n IH]; intros all prs w.
  - exists [], {| seek := 0; all_tokens := all; prompt_reset_since := prs |}, w.
    split; reflexivity.
  - rewrite (@while_loop_step binary64 ascii_lib _ _ says_nothing
               (silence 3001) byte_tokenizer default_options 1 n
               {| seek := 0; all_tokens := all; prompt_reset_since := prs |}
               w _ _ _ _ eq_refl (says_nothing_stands_still all prs w)).
    destruct (IH (all ++ [tb]) prs
                (w ++ [window_prompt says_nothing byte_tokenizer default_options
                         {| seek := 0; all_tokens := all;
                            prompt_reset_since := prs |}]))
      as (ys & st & w' & Heq & Hseek).
    rewrite Heq. exists ([] ++ ys), st, w'. split; [reflexivity|exact Hseek].
Qed.

(** C1 (the claim as worded fails).  An output of two [<|0.00|>] tokens
    has a boundary and no single-timestamp ending; its last timestamp
    position is 0, so the advance [last_timestamp_position *
    input_stride] is 0: the window is decoded, not skipped, and [seek]
    stays at 0.  With a decoder that keeps answering so, the loop is
    still running after any number of iterations. *)
Lemma zero_timestamps_stall_the_loop :
  window_body says_nothing (silence 3001) byte_tokenizer default_options 1
      state0 []
    = inr (Decoded [nothing_raw], [],
           {| seek := 0; all_tokens := [tb]; prompt_reset_since := 0 |},
           [[50258; 50259; 50359]]) /\
  (forall fuel : nat,
     exists ys st w,
       generate_segments says_nothing (silence 3001) byte_tokenizer
         default_options fuel []
       = (ys, Running st w) /\ seek st = 0).
Proof.
  split; [reflexivity|].
  intros fuel. exact (says_nothing_runs_on fuel [] 0 []).
Qed.

Lemma says_hi_never_stalls :
  never_stalls hi_decoder byte_tokenizer.
Proof.
  intros call w results w' r tokens Hgen Hr Htok.
  unfold hi_decoder, constant_decoder in Hgen.
  inversion Hgen; subst results w'.
  inversion Hr; subst r. inversion Htok; subst tokens.
  intros (_ & i & Hi & _).
  apply boundaryb_iff in Hi. exact Hi.
Qed.

Lemma seek_advances_unless_output_stalls_witness :
  1 <= nb_max_frames extractor /\
  exists ys,
    (exists st' w',
       generate_segments says_hi (silence 9000) byte_tokenizer
         default_options (Z.to_nat 6000) []
       = (ys, Finished st' w')) \/
    (exists e,
       generate_segments says_hi (silence 9000) byte_tokenizer
         default_options (Z.to_nat 6000) []
       = (ys, Raised e)).
Proof.
  assert (Hnb : 1 <= nb_max_frames extractor) by (simpl; lia).
  split; [exact Hnb|].
  destruct (@seek_advances_unless_output_stalls binary64 ascii_lib _ _
              hi_decoder extractor byte_tokenizer Hnb) as [_ Hends].
  apply (Hends says_hi_never_stalls (silence 9000) default_options
           (Z.to_nat 6000) []).
  apply Nat.leb_le. vm_compute. reflexivity.
Defined.

(** The run of the witness: two windows, two segments, the end. *)
Example says_hi_finishes :
  generate_segments says_hi (silence 9000) byte_tokenizer default_options 2 []
  = ([ hi_segment;
       {| start := 30%float; end_ := 31%float; text := "hi" |} ],
     Finished
       {| seek := 6000;
          all_tokens := [tb; 104; 105; tb + 50; tb; 104; 105; tb + 50];
          prompt_reset_since := 0 |}
       [ [50258; 50259; 50359];
         [50361; tb; 104; 105; tb + 50; 50258; 50259; 50359] ]).
Proof. reflexivity. Qed.

(** *** C8 *)

(** C8 (the claim as worded fails).  With the empty string as prefix
    the prompt is the task and language sequence alone, not followed by
    the encoding of a space. *)
Lemma empty_prefix_adds_nothing :
  get_prompt says_hi byte_tokenizer [] false (Some EmptyString)
    = [50258; 50259; 50359] /\
  prompt_as_specified byte_tokenizer [] false (Some EmptyString)
    = [50258; 50259; 50359; 32] /\
  get_prompt says_hi byte_tokenizer [] false (Some EmptyString)
    <> prompt_as_specified byte_tokenizer [] false (Some EmptyString).
Proof.
  split; [reflexivity|]. split; [reflexivity|]. discriminate.
Qed.

(** *** C10 *)

Lemma initial_prompt_seeds_history_witness :
  initial_prompt (with_initial_prompt default_options (Some " Hi. "%string))
    = Some " Hi. "%string /\
  all_tokens
    (initial_state byte_tokenizer
       (with_initial_prompt default_options (Some " Hi. "%string)))
    = [32; 72; 105; 46] /\
  previous_tokens_of
    (initial_state byte_tokenizer
       (with_initial_prompt default_options (Some " Hi. "%string)))
    = [32; 72; 105; 46] /\
  generate_segments says_hi (silence 9000) byte_tokenizer
      (with_initial_prompt default_options (Some " Hi. "%string)) 0 []
    = ([], Running
             {| seek := 0; all_tokens := [32; 72; 105; 46];
                prompt_reset_since := 0 |} []) /\
  exists r avg t w1,
    generate_with_fallback says_hi
      (py_slice (silence 9000) (Some 0) (Some 3000))
      [50361; 32; 72; 105; 46; 50258; 50259; 50359]
      byte_tokenizer
      (with_initial_prompt default_options (Some " Hi. "%string)) []
    = inr (Some (r, avg, t), w1).
Proof.
  pose proof (@initial_prompt_seeds_history binary64 ascii_lib _ _ says_hi
                (silence 9000) byte_tokenizer
                (with_initial_prompt default_options (Some " Hi. "%string))
                " Hi. "%string eq_refl) as H.
  cbv zeta in H.
  destruct H as (_ & Hall & _ & Hprev & _ & Hbefore & _ & Hfirst).
  assert (Hcf :
    0 < len (silence 9000) - nb_max_frames (feature_extractor says_hi))
    by (apply Z.ltb_lt; reflexivity).
  split; [reflexivity|]. split; [rewrite Hall; reflexivity|].
  split; [rewrite Hprev; reflexivity|].
  split; [rewrite (Hbefore [] Hcf); reflexivity|].
  destruct (Hfirst 0%nat [] Hcf)
    as [(e & Hbody & _)|(ev & ys & st1 & w1 & r & avg & t & Hdec & _)].
  - exfalso.
    assert (Hruns :
      window_body says_hi (silence 9000) byte_tokenizer
        (with_initial_prompt default_options (Some " Hi. "%string))
        (len (silence 9000) - nb_max_frames (feature_extractor says_hi))
        (initial_state byte_tokenizer
           (with_initial_prompt default_options (Some " Hi. "%string))) []
      = inr (Decoded [hi_raw], [hi_segment],
             {| seek := 3000;
                all_tokens := [32; 72; 105; 46; tb; 104; 105; tb + 50];
                prompt_reset_since := 0 |},
             [[50361; 32; 72; 105; 46; 50258; 50259; 50359]]))
      by reflexivity.
    rewrite Hruns in Hbody. discriminate.
  - exists r, avg, t, w1. exact Hdec.
Defined.

(** The first call to the decoder receives the previous-text marker and
    the tokens of the initial prompt ahead of the task sequence. *)
Example initial_prompt_reaches_the_decoder :
  exists ys st,
    generate_segments says_hi (silence 6000) byte_tokenizer
      (with_initial_prompt default_options (Some " Hi. "%string)) 1 []
    = (ys, Finished st [[50361; 32; 72; 105; 46; 50258; 50259; 50359]]).
Proof. do 2 eexists. reflexivity. Qed.

(** *** C9 *)

Lemma history_grows_and_blank_text_is_dropped_witness :
  window_body says_hi (silence 6000) byte_tokenizer default_options 3000
      state0 []
    = inr (Decoded [hi_raw], [hi_segment],
           {| seek := 3000; all_tokens := [tb; 104; 105; tb + 50];
              prompt_reset_since := 0 |},
           [[50258; 50259; 50359]]) /\
  [tb; 104; 105; tb + 50] = [] ++ List.concat (map seg_tokens [hi_raw]) /\
  [hi_segment] =
    map (segment_of byte_tokenizer) (filter (has_text byte_tokenizer) [hi_raw]).
Proof.
  assert (Hrun :
    window_body says_hi (silence 6000) byte_tokenizer default_options 3000
        state0 []
      = inr (Decoded [hi_raw], [hi_segment],
             {| seek := 3000; all_tokens := [tb; 104; 105; tb + 50];
                prompt_reset_since := 0 |},
             [[50258; 50259; 50359]]))
    by reflexivity.
  split; [exact Hrun|].
  destruct (proj2 (@history_grows_and_blank_text_is_dropped binary64 ascii_lib
                     _ _ says_hi (silence 6000) byte_tokenizer
                     default_options 3000) _ _ _ _ _ _ Hrun)
    as (Hall & Hys & _).
  split; [exact Hall|exact Hys].
Defined.

(** A segment whose text is blank is not yielded, yet its tokens enter
    the history. *)
Example blank_segment_still_recorded :
  emit_loop byte_tokenizer
    [ {| seg_start := 0%float; seg_end := 1%float;
         seg_tokens := [tb; 32; tb + 50] |} ] [7]
  = ([7; tb; 32; tb + 50], []).
Proof. reflexivity. Qed.

(** *** C3 *)

Lemma no_boundary_in (tokens : list Z) :
  filter (boundaryb byte_tokenizer tokens) (range (len tokens)) = [] ->
  forall i, ~ boundary byte_tokenizer tokens i.
Proof.
  intros E i Hi. apply boundaryb_iff in Hi. rewrite E in Hi. exact Hi.
Qed.

(** C3 (the claim as worded fails).  The output [backwards] has no
    boundary and holds the timestamp 0.10 s, which is not
    [timestamp_begin]; yet its only segment lasts [segment_duration],
    30 s, because the last timestamp of the output is [timestamp_begin].
    No duration the wording allows gives the end of that segment. *)
Lemma duration_follows_the_last_timestamp_only :
  (forall i, ~ boundary byte_tokenizer backwards i) /\
  (exists t, In t backwards /\ timestamp_begin byte_tokenizer <= t /\
             t <> timestamp_begin byte_tokenizer) /\
  split_tokens says_hi byte_tokenizer 0%float 3000 30%float 0 backwards
    = inr ([ {| seg_start := 0%float; seg_end := 30%float;
                seg_tokens := backwards |} ], 3000) /\
  (forall d,
     duration_as_specified says_hi byte_tokenizer 30%float backwards d ->
     PrimFloat.add 0%float d <> 30%float).
Proof.
  split; [apply no_boundary_in; reflexivity|].
  split; [exists (tb + 5); split; [left; reflexivity|split; [discriminate|discriminate]]|].
  split; [reflexivity|].
  intros d [Hsome _] Hd.
  destruct Hsome as (t & Hin & Hge & Hne & Hdur).
  { exists (tb + 5). split; [left; reflexivity|split; discriminate]. }
  assert (Ht : t = tb + 5).
  { destruct Hin as [<-|[<-|[<-|[]]]].
    - reflexivity.
    - exfalso. apply Hge. reflexivity.
    - exfalso. apply Hne. reflexivity. }
  subst t d.
  apply (f_equal (fun x => PrimFloat.ltb x 1%float)) in Hd.
  vm_compute in Hd. discriminate.
Qed.

Lemma output_without_boundary_is_one_segment_witness :
  (forall i, ~ boundary byte_tokenizer [tb; 104; 105; tb + 50] i) /\
  split_tokens says_hi byte_tokenizer 0%float 3000 30%float 0
      [tb; 104; 105; tb + 50]
    = inr ([hi_raw], 3000).
Proof.
  split; [apply no_boundary_in; reflexivity|].
  rewrite (@output_without_boundary_is_one_segment binary64 _ _ says_hi
             byte_tokenizer 0%float 3000 30%float 0 [tb; 104; 105; tb + 50]
             (@no_boundary_in [tb; 104; 105; tb + 50] eq_refl)).
  reflexivity.
Defined.

(** *** C6 *)

Lemma boundaries_cut_the_output_into_segments_witness :
  (exists i, boundary byte_tokenizer two_sentences i) /\
  exists (bounds : list Z) (ste : bool) (seek' : Z),
    (forall i, In i bounds <-> boundary byte_tokenizer two_sentences i) /\
    ascending 0 bounds (len two_sentences - 1) /\
    (ste = true <-> ends_with_single_timestamp byte_tokenizer two_sentences) /\
    split_tokens says_hi byte_tokenizer 0%float 3000 30%float 0 two_sentences
      = inr (map (chunk_segment says_hi byte_tokenizer 0%float)
               (chunks two_sentences
                  (bounds ++ (if ste then [len two_sentences] else [])) 0),
             seek').
Proof.
  assert (Hb : exists i, boundary byte_tokenizer two_sentences i).
  { exists 4. apply boundaryb_iff. vm_compute. left. reflexivity. }
  split; [exact Hb|].
  destruct (@boundaries_cut_the_output_into_segments binary64 _ _ says_hi
              byte_tokenizer 0%float 3000 30%float 0 two_sentences Hb)
    as (bounds & ste & seek' & H1 & H2 & H3 & H4 & _).
  exists bounds, ste, seek'. auto.
Defined.

(** The two sentences come out as [1.0, 2.0) and [2.0, 3.0), relative
    to the start of the window. *)
Example two_sentences_give_two_segments :
  split_tokens says_hi byte_tokenizer 0%float 3000 30%float 0 two_sentences
  = inr ([ {| seg_start := 1%float; seg_end := 2%float;
              seg_tokens := [tb + 50; 104; 105; tb + 100] |};
           {| seg_start := 2%float; seg_end := 3%float;
              seg_tokens := [tb + 100; 106; tb + 150] |} ],
         3000).
Proof. reflexivity. Qed.

(** *** C4 *)

Lemma no_speech_gate_witness :
  no_speech_threshold default_options = Some (lit 6 1) /\
  window_decode hears_silence (silence 6000) byte_tokenizer default_options
      state0 []
    = inr (Some (silent_result,
                 (PrimFloat.opp (lit 16 1)), lit 10 1),
           repeat [50258; 50259; 50359] 6) /\
  window_body hears_silence (silence 6000) byte_tokenizer default_options 3000
      state0 []
    = inr (Skipped, [],
           {| seek := 3000; all_tokens := []; prompt_reset_since := 0 |},
           repeat [50258; 50259; 50359] 6).
Proof.
  assert (Hdec :
    window_decode hears_silence (silence 6000) byte_tokenizer default_options
        state0 []
      = inr (Some (silent_result,
                   (PrimFloat.opp (lit 16 1)), lit 10 1),
             repeat [50258; 50259; 50359] 6))
    by reflexivity.
  split; [reflexivity|]. split; [exact Hdec|].
  destruct (@no_speech_gate binary64 ascii_lib _ _ hears_silence
              (silence 6000) byte_tokenizer default_options 3000 state0 []
              (lit 6 1) _ _ _ _ eq_refl Hdec) as [Hskip _].
  rewrite Hskip.
  - reflexivity.
  - split; [reflexivity|].
    intros (lpt & Hl & Hgt). inversion Hl; subst lpt.
    vm_compute in Hgt. discriminate.
Defined.

(** No-speech probability 0.9 above the threshold 0.6, but average log
    probability -0.2 above the threshold -1.0: the window is decoded. *)
Example confident_transcript_is_not_skipped :
  no_speech_skip default_options
    (one_hypothesis [tb; 104; 105; tb + 50] (-0.25)%float (lit 9 1))
    (PrimFloat.opp (lit 2 1)) = false /\
  window_body
    (init (constant_decoder [tb; 104; 105; tb + 50] (-0.25)%float (lit 9 1))
       extractor)
    (silence 6000) byte_tokenizer default_options 3000 state0 []
  = inr (Decoded [hi_raw], [hi_segment],
         {| seek := 3000; all_tokens := [tb; 104; 105; tb + 50];
            prompt_reset_since := 0 |},
         [[50258; 50259; 50359]]).
Proof. split; reflexivity. Qed.

(** *** C5 and C7 *)

Lemma fallback_returns_first_pass_or_last_witness :
  fround (fdiv (max_initial_timestamp default_options)
            (time_precision replays)) = inr 50 /\
  generate_with_fallback replays [] [] byte_tokenizer default_options
      poor_then_good
    = inr (Some (second_try,
                 (-0.375)%float, lit 2 1),
           [third_try]).
Proof.
  assert (Hm :
    fround (fdiv (max_initial_timestamp default_options)
              (time_precision replays)) = inr 50)
    by reflexivity.
  split; [exact Hm|].
  destruct (@fallback_returns_first_pass_or_last binary64 ascii_lib _ _
              replays [] [] byte_tokenizer default_options 50 Hm)
    as (_ & Hfirst & _).
  apply (Hfirst [@lit binary64 0 1] (@lit binary64 2 1)
           [@lit binary64 4 1; @lit binary64 6 1; @lit binary64 8 1;
            @lit binary64 10 1]
           poor_then_good [second_try; third_try]).
  - reflexivity.
  - apply anf_cons with (w1 := [second_try; third_try]) (r := first_try)
      (avg := (-2.25)%float); [reflexivity|apply anf_nil].
  - reflexivity.
Defined.

Lemma avg_log_prob_is_recovered_from_score_witness :
  generate_with_fallback replays [] [] byte_tokenizer default_options
      poor_then_good
    = inr (Some (second_try,
                 (-0.375)%float, lit 2 1),
           [third_try]) /\
  exists tokens score pw,
    py_index
      (sequences_ids (second_try)) 0
      = inr tokens /\
    py_index
      (scores (second_try)) 0
      = inr score /\
    fpow_int (len tokens) (length_penalty default_options) = inr pw /\
    (-0.375)%float = fdiv (fmul score pw) (of_int (len tokens + 1)).
Proof.
  assert (Hrun :
    generate_with_fallback replays [] [] byte_tokenizer default_options
        poor_then_good
      = inr (Some (second_try,
                   (-0.375)%float, lit 2 1),
             [third_try]))
    by reflexivity.
  split; [exact Hrun|].
  exact (proj2 (@avg_log_prob_is_recovered_from_score binary64 ascii_lib _ _
                  replays [] [] byte_tokenizer default_options)
           _ _ _ _ _ Hrun).
Defined.

(** *** C2 *)

Lemma reset_keeps_the_current_window_as_context_witness :
  window_decode says_hi (silence 9000) byte_tokenizer no_context state0 []
    = inr (Some (hi_result, (PrimFloat.opp (lit 2 1)), lit 0 1), [[50258; 50259; 50359]]) /\
  condition_on_previous_text no_context = false /\
  window_body says_hi (silence 9000) byte_tokenizer no_context 6000 state0 []
    = inr (Decoded [hi_raw], [hi_segment],
           {| seek := 3000; all_tokens := [tb; 104; 105; tb + 50];
              prompt_reset_since := 0 |},
           [[50258; 50259; 50359]]) /\
  previous_tokens_of
    {| seek := 3000; all_tokens := [tb; 104; 105; tb + 50];
       prompt_reset_since := 0 |}
    = [tb; 104; 105; tb + 50] /\
  window_prompt says_hi byte_tokenizer no_context
    {| seek := 3000; all_tokens := [tb; 104; 105; tb + 50];
       prompt_reset_since := 0 |}
    = [50361; tb; 104; 105; tb + 50; 50258; 50259; 50359].
Proof.
  assert (Hdec :
    window_decode says_hi (silence 9000) byte_tokenizer no_context state0 []
      = inr (Some (hi_result, (PrimFloat.opp (lit 2 1)), lit 0 1), [[50258; 50259; 50359]]))
    by reflexivity.
  assert (Hrun :
    window_body says_hi (silence 9000) byte_tokenizer no_context 6000 state0 []
      = inr (Decoded [hi_raw], [hi_segment],
             {| seek := 3000; all_tokens := [tb; 104; 105; tb + 50];
                prompt_reset_since := 0 |},
             [[50258; 50259; 50359]]))
    by reflexivity.
  split; [exact Hdec|]. split; [reflexivity|]. split; [exact Hrun|].
  destruct (@reset_keeps_the_current_window_as_context binary64 ascii_lib _ _
              says_hi (silence 9000) byte_tokenizer no_context 6000 state0 []
              _ _ _ _ _ _ _ _ Hdec (or_introl eq_refl) Hrun)
    as (_ & _ & Hprev & Hprompt).
  split.
  - rewrite Hprev. reflexivity.
  - rewrite Hprompt. reflexivity.
Defined.

(** With [condition_on_previous_text] off, the second window is still
    prompted with the previous-text marker and the tokens of the first
    window, as the prompts received by the decoder show. *)
Example second_prompt_holds_the_first_window :
  generate_segments says_hi (silence 9000) byte_tokenizer no_context 2 []
  = ([ hi_segment;
       {| start := 30%float; end_ := 31%float; text := "hi" |} ],
     Finished
       {| seek := 6000;
          all_tokens := [tb; 104; 105; tb + 50; tb; 104; 105; tb + 50];
          prompt_reset_since := 4 |}
       [ [50258; 50259; 50359];
         [50361; tb; 104; 105; tb + 50; 50258; 50259; 50359] ]).
Proof. reflexivity. Qed.

End Worked.
Module WorkedFurther.

Import Binary64 AsciiLib Examples.

(** *** X1 *)

Lemma short_audio_yields_nothing_witness :
  len (silence 3000) - nb_max_frames (feature_extractor says_hi) <= 0 /\
  generate_segments says_hi (silence 3000) byte_tokenizer default_options 5 []
    = ([], Finished (initial_state byte_tokenizer default_options) []).
Proof.
  assert (Hcf :
    len (silence 3000) - nb_max_frames (feature_extractor says_hi) <= 0)
    by (apply Z.leb_le; reflexivity).
  split; [exact Hcf|].
  apply (@short_audio_yields_nothing binary64 ascii_lib _ _
           says_hi (silence 3000) byte_tokenizer default_options 5%nat []
           Hcf).
Defined.

(** *** X2 *)

Lemma empty_ladder_raises_attribute_error_witness :
  temperatures no_ladder = [] /\
  generate_segments says_hi (silence 6000) byte_tokenizer no_ladder 1 []
    = ([], Raised AttributeError).
Proof.
  split; [reflexivity|].
  apply (@empty_ladder_raises_attribute_error binary64 ascii_lib _ _
           says_hi (silence 6000) byte_tokenizer no_ladder 50 0%nat []).
  - reflexivity.
  - reflexivity.
  - apply Z.ltb_lt. reflexivity.
Defined.

(** *** X3 *)

Lemma fallback_result_comes_from_the_ladder_witness :
  generate_with_fallback replays [] [] byte_tokenizer default_options
      poor_then_good
    = inr (Some (second_try, (-0.375)%float, lit 2 1), [third_try]) /\
  exists r avg t,
    Some (second_try, (-0.375)%float, @lit binary64 2 1) = Some (r, avg, t) /\
    In t (temperatures default_options).
Proof.
  assert (Hrun :
    generate_with_fallback replays [] [] byte_tokenizer default_options
        poor_then_good
      = inr (Some (second_try, (-0.375)%float, lit 2 1), [third_try]))
    by reflexivity.
  split; [exact Hrun|].
  destruct (@fallback_result_comes_from_the_ladder binary64 ascii_lib _ _
              replays [] [] byte_tokenizer default_options poor_then_good
              _ _ Hrun) as [_ Hsome].
  apply Hsome. discriminate.
Defined.

(** *** X4 *)

Lemma decoder_failure_stops_the_generator_witness :
  (forall call, model breaks call [] = inl CollaboratorError) /\
  generate_segments breaks (silence 6000) byte_tokenizer default_options 1 []
    = ([], Raised CollaboratorError).
Proof.
  assert (Hfail : forall call, model breaks call [] = inl CollaboratorError)
    by (intros call; reflexivity).
  split; [exact Hfail|].
  apply (@decoder_failure_stops_the_generator binary64 ascii_lib _ _
           breaks (silence 6000) byte_tokenizer default_options 50
           (@lit binary64 0 1)
           [@lit binary64 2 1; @lit binary64 4 1; @lit binary64 6 1;
            @lit binary64 8 1; @lit binary64 10 1]
           CollaboratorError 0%nat []).
  - reflexivity.
  - reflexivity.
  - apply Z.ltb_lt. reflexivity.
  - exact Hfail.
Defined.

(** *** X5 *)

Lemma no_threshold_no_skip_witness :
  no_speech_threshold no_gate = None /\
  window_body hears_silence (silence 6000) byte_tokenizer no_gate 3000
      state0 []
    = inr (Decoded [hi_raw], [hi_segment], state1,
           [first_prompt; first_prompt; first_prompt; first_prompt;
            first_prompt; first_prompt]) /\
  exists cs, Decoded [hi_raw] = Decoded cs.
Proof.
  assert (Hrun :
    window_body hears_silence (silence 6000) byte_tokenizer no_gate 3000
        state0 []
      = inr (Decoded [hi_raw], [hi_segment], state1,
             [first_prompt; first_prompt; first_prompt; first_prompt;
              first_prompt; first_prompt]))
    by reflexivity.
  split; [reflexivity|]. split; [exact Hrun|].
  apply (@no_threshold_no_skip binary64 ascii_lib _ _
           hears_silence (silence 6000) byte_tokenizer no_gate 3000 state0 []
           _ _ _ _ eq_refl Hrun).
Defined.

(** *** X6 *)

Lemma history_is_append_only_witness :
  generate_segments says_hi (silence 9000) byte_tokenizer default_options 2 []
    = ([hi_segment; hi_again_segment],
       Finished state2 [first_prompt; second_prompt]) /\
  0 <= prompt_reset_since state2 <= len (all_tokens state2) /\
  exists suffix,
    all_tokens state2
      = all_tokens (initial_state byte_tokenizer default_options) ++ suffix.
Proof.
  assert (Hrun :
    generate_segments says_hi (silence 9000) byte_tokenizer default_options
        2 []
      = ([hi_segment; hi_again_segment],
         Finished state2 [first_prompt; second_prompt]))
    by reflexivity.
  split; [exact Hrun|].
  apply (@history_is_append_only binary64 ascii_lib _ _
           says_hi (silence 9000) byte_tokenizer default_options 2%nat []
           _ _ state2 Hrun eq_refl).
Defined.

(** *** X7 *)

Lemma yielded_text_is_never_blank_witness :
  In hi_again_segment
    (fst (generate_segments says_hi (silence 9000) byte_tokenizer
            default_options 2 [])) /\
  str_truthy (strip (text hi_again_segment)) = true.
Proof.
  assert (Hrun :
    generate_segments says_hi (silence 9000) byte_tokenizer default_options
        2 []
      = ([hi_segment; hi_again_segment],
         Finished state2 [first_prompt; second_prompt]))
    by reflexivity.
  assert (Hin :
    In hi_again_segment
      (fst (generate_segments says_hi (silence 9000) byte_tokenizer
              default_options 2 [])))
    by (rewrite Hrun; right; left; reflexivity).
  split; [exact Hin|].
  apply (@yielded_text_is_never_blank binary64 ascii_lib _ _
           says_hi (silence 9000) byte_tokenizer default_options 2%nat []
           hi_again_segment Hin).
Defined.

(** *** X8 *)

Lemma context_accumulates_without_reset_witness :
  window_decode says_hi (silence 9000) byte_tokenizer default_options
      state1 [first_prompt]
    = inr (Some (hi_result, PrimFloat.opp (lit 2 1), lit 0 1),
           [first_prompt; second_prompt]) /\
  window_body says_hi (silence 9000) byte_tokenizer default_options 6000
      state1 [first_prompt]
    = inr (Decoded [hi_again_raw], [hi_again_segment], state2,
           [first_prompt; second_prompt]) /\
  prompt_reset_since state2 = prompt_reset_since state1 /\
  previous_tokens_of state2
    = [tb; 104; 105; tb + 50; tb; 104; 105; tb + 50].
Proof.
  assert (Hdec :
    window_decode says_hi (silence 9000) byte_tokenizer default_options
        state1 [first_prompt]
      = inr (Some (hi_result, PrimFloat.opp (lit 2 1), lit 0 1),
             [first_prompt; second_prompt]))
    by reflexivity.
  assert (Hrun :
    window_body says_hi (silence 9000) byte_tokenizer default_options 6000
        state1 [first_prompt]
      = inr (Decoded [hi_again_raw], [hi_again_segment], state2,
             [first_prompt; second_prompt]))
    by reflexivity.
  assert (Hok : 0 <= prompt_reset_since state1 <= len (all_tokens state1))
    by (split; apply Z.leb_le; reflexivity).
  split; [exact Hdec|]. split; [exact Hrun|].
  destruct (@context_accumulates_without_reset binary64 ascii_lib _ _
              says_hi (silence 9000) byte_tokenizer default_options 6000
              state1 [first_prompt] _ _ _ _ _ _ _ _
              Hdec eq_refl eq_refl Hok Hrun) as [Hreset Hprev].
  split; [exact Hreset|]. rewrite Hprev. reflexivity.
Defined.

(** *** X9 *)

Lemma recorded_tokens_are_a_prefix_of_the_output_witness :
  window_body says_hi (silence 9000) byte_tokenizer default_options 6000
      state1 [first_prompt]
    = inr (Decoded [hi_again_raw], [hi_again_segment], state2,
           [first_prompt; second_prompt]) /\
  all_tokens state2 = all_tokens state1 ++ [tb; 104; 105; tb + 50].
Proof.
  assert (Hrun :
    window_body says_hi (silence 9000) byte_tokenizer default_options 6000
        state1 [first_prompt]
      = inr (Decoded [hi_again_raw], [hi_again_segment], state2,
             [first_prompt; second_prompt]))
    by reflexivity.
  split; [exact Hrun|].
  destruct (@recorded_tokens_are_a_prefix_of_the_output binary64 ascii_lib
              _ _ says_hi (silence 9000) byte_tokenizer default_options 6000
              state1 [first_prompt] _ _ _ _ Hrun)
    as (r & avg & t & tokens & Hdec & Htok & Hall & _).
  assert (Hdec' :
    window_decode says_hi (silence 9000) byte_tokenizer default_options
        state1 [first_prompt]
      = inr (Some (hi_result, PrimFloat.opp (lit 2 1), lit 0 1),
             [first_prompt; second_prompt]))
    by reflexivity.
  rewrite Hdec' in Hdec. inversion Hdec; subst r avg t.
  inversion Htok; subst tokens.
  apply Hall. left. exists [tb; 104], 105, (tb + 50).
  split; [reflexivity|].
  split; [apply Z.ltb_lt; reflexivity|apply Z.leb_le; reflexivity].
Defined.

(** *** X11 *)

Lemma attempt_calls_the_decoder_by_temperature_witness :
  fallback_attempt replays [[]] [] byte_tokenizer default_options 50
      (lit 0 1) poor_then_good
    = inr (first_try, (-2.25)%float, true, [second_try; third_try]) /\
  exists call,
    model replays call poor_then_good
      = inr ([first_try], [second_try; third_try]) /\
    call_kwargs call = BeamSearch 5 (of_int 1).
Proof.
  assert (Hrun :
    fallback_attempt replays [[]] [] byte_tokenizer default_options 50
        (lit 0 1) poor_then_good
      = inr (first_try, (-2.25)%float, true, [second_try; third_try]))
    by reflexivity.
  split; [exact Hrun|].
  destruct (@attempt_calls_the_decoder_by_temperature binary64 ascii_lib _ _
              replays [[]] [] byte_tokenizer default_options 50
              (@lit binary64 0 1) poor_then_good _ _ _ _ Hrun)
    as (call & results & _ & _ & _ & _ & _ & _ & _ & _ & _ & _ & Hbeam).
  exists call. split; [reflexivity|]. apply Hbeam. reflexivity.
Defined.

(** *** X12 *)

Lemma known_language_needs_no_detection_witness :
  is_multilingual english_only = false /\
  exists segments,
    transcribe says_hi english_only (AudioArray 9000) None "transcribe" 5 5
        (of_int 1) (of_int 1) (TemperatureValue (lit 0 1))
        (Some (lit 24 1)) (Some (PrimFloat.opp (of_int 1))) (Some (lit 6 1))
        true None None true (Some [-1]) false (of_int 1) []
      = inr ((segments,
              {| language := "en"; language_probability := of_int 1 |}), []) /\
    segments
      = generate_segments says_hi (silence 9000) byte_tokenizer greedy_options.
Proof.
  split; [reflexivity|].
  apply (@known_language_needs_no_detection binary64 ascii_lib _ _ _ _
           says_hi english_only "transcribe"%string 5 5
           (@of_int binary64 1) (@of_int binary64 1)
           (Some (@lit binary64 24 1))
           (Some (PrimFloat.opp (@of_int binary64 1)))
           (Some (@lit binary64 6 1))
           true None None true (Some [-1]) false (@of_int binary64 1)
           (AudioArray 9000) None (TemperatureValue (@lit binary64 0 1))
           9000 byte_tokenizer []).
  - reflexivity.
  - intros _. reflexivity.
  - reflexivity.
Defined.

(** *** X13 *)

Lemma language_is_detected_on_the_first_window_witness :
  is_multilingual hears_french = true /\
  transcribe says_hi hears_french (AudioSource "speech.wav"%string) None
      "transcribe" 5 5 (of_int 1) (of_int 1) (TemperatureValue (lit 0 1))
      (Some (lit 24 1)) (Some (PrimFloat.opp (of_int 1))) (Some (lit 6 1))
      true None None true (Some [-1]) false (of_int 1) []
    = inr ((generate_segments says_hi (silence 9000) byte_tokenizer
              greedy_options,
            {| language := "fr"; language_probability := lit 9 1 |}),
           [[-1]]).
Proof.
  split; [reflexivity|].
  apply (@language_is_detected_on_the_first_window binary64 ascii_lib
           _ _ _ _
           says_hi hears_french "transcribe"%string 5 5
           (@of_int binary64 1) (@of_int binary64 1)
           (Some (@lit binary64 24 1))
           (Some (PrimFloat.opp (@of_int binary64 1)))
           (Some (@lit binary64 6 1))
           true None None true (Some [-1]) false (@of_int binary64 1)
           (AudioSource "speech.wav"%string)
           (TemperatureValue (@lit binary64 0 1))
           9000 "fr"%string (@lit binary64 9 1)
           [("<|en|>"%string, @lit binary64 1 1)] [] byte_tokenizer [] [[-1]]).
  - reflexivity.
  - reflexivity.
  - reflexivity.
  - reflexivity.
  - reflexivity.
Defined.

(** *** X14 *)

Lemma no_detected_language_raises_index_error_witness :
  detect_language hears_no_language
      (get_input
         (py_slice (extract_features hears_no_language 9000) None
            (Some (nb_max_frames (feature_extractor says_hi))))) []
    = inr ([], [[-1]]) /\
  transcribe says_hi hears_no_language (AudioArray 9000) None
      "transcribe" 5 5 (of_int 1) (of_int 1) (TemperatureValue (lit 0 1))
      (Some (lit 24 1)) (Some (PrimFloat.opp (of_int 1))) (Some (lit 6 1))
      true None None true (Some [-1]) false (of_int 1) []
    = inl IndexError.
Proof.
  split; [reflexivity|].
  apply (@no_detected_language_raises_index_error binary64 ascii_lib
           _ _ _ _
           says_hi hears_no_language "transcribe"%string 5 5
           (@of_int binary64 1) (@of_int binary64 1)
           (Some (@lit binary64 24 1))
           (Some (PrimFloat.opp (@of_int binary64 1)))
           (Some (@lit binary64 6 1))
           true None None true (Some [-1]) false (@of_int binary64 1)
           (AudioArray 9000) (TemperatureValue (@lit binary64 0 1))
           9000 [] [] [[-1]]).
  - reflexivity.
  - reflexivity.
  - reflexivity.
  - left. reflexivity.
Defined.

(** *** X15 *)

Lemma transcribe_decodes_in_the_reported_language_witness :
  transcribe says_hi english_only (AudioArray 9000) (Some "de"%string)
      "translate" 5 5 (of_int 1) (of_int 1)
      (TemperatureList [lit 0 1; lit 4 1])
      (Some (lit 24 1)) (Some (PrimFloat.opp (of_int 1))) (Some (lit 6 1))
      true None None true (Some [-1]) false (of_int 1) []
    = inr ((generate_segments says_hi (silence 9000) byte_tokenizer
              (with_temperatures default_options [lit 0 1; lit 4 1]),
            {| language := "de"; language_probability := of_int 1 |}),
           []) /\
  exists waveform tok,
    new_tokenizer english_only (is_multilingual english_only) "translate" "de"
      = inr tok /\
    generate_segments says_hi (silence 9000) byte_tokenizer
      (with_temperatures default_options [lit 0 1; lit 4 1])
    = generate_segments says_hi (extract_features english_only waveform) tok
        (with_temperatures default_options [lit 0 1; lit 4 1]).
Proof.
  assert (Hrun :
    transcribe says_hi english_only (AudioArray 9000) (Some "de"%string)
        "translate" 5 5 (of_int 1) (of_int 1)
        (TemperatureList [lit 0 1; lit 4 1])
        (Some (lit 24 1)) (Some (PrimFloat.opp (of_int 1))) (Some (lit 6 1))
        true None None true (Some [-1]) false (of_int 1) []
      = inr ((generate_segments says_hi (silence 9000) byte_tokenizer
                (with_temperatures default_options [lit 0 1; lit 4 1]),
              {| language := "de"; language_probability := of_int 1 |}),
             []))
    by reflexivity.
  split; [exact Hrun|].
  destruct (@transcribe_decodes_in_the_reported_language binary64 ascii_lib
              _ _ _ _
              says_hi english_only "translate"%string 5 5
              (@of_int binary64 1) (@of_int binary64 1)
              (Some (@lit binary64 24 1))
              (Some (PrimFloat.opp (@of_int binary64 1)))
              (Some (@lit binary64 6 1))
              true None None true (Some [-1]) false (@of_int binary64 1)
              (AudioArray 9000) (Some "de"%string)
              (TemperatureList [@lit binary64 0 1; @lit binary64 4 1])
              [] _ _ _ Hrun)
    as (waveform & tok & _ & Htok & Hseg & _).
  exists waveform, tok. split; [exact Htok|exact Hseg].
Defined.

(** *** X16 *)

Lemma no_thresholds_no_fallback_witness :
  generate_with_fallback replays [] [] byte_tokenizer no_thresholds
      poor_then_good
    = inr (Some (first_try, (-2.25)%float, lit 0 1),
           [second_try; third_try]) /\
  exists mits r avg,
    fallback_attempt replays (get_input []) [] byte_tokenizer no_thresholds
        mits (lit 0 1) poor_then_good
      = inr (r, avg, false, [second_try; third_try]) /\
    Some (first_try, (-2.25)%float, @lit binary64 0 1)
      = Some (r, avg, @lit binary64 0 1).
Proof.
  assert (Hrun :
    generate_with_fallback replays [] [] byte_tokenizer no_thresholds
        poor_then_good
      = inr (Some (first_try, (-2.25)%float, lit 0 1),
             [second_try; third_try]))
    by reflexivity.
  split; [exact Hrun|].
  destruct (@no_thresholds_no_fallback binary64 ascii_lib _ _
              replays [] [] byte_tokenizer no_thresholds
              (@lit binary64 0 1)
              [@lit binary64 2 1; @lit binary64 4 1; @lit binary64 6 1;
               @lit binary64 8 1; @lit binary64 10 1]
              poor_then_good _ _ eq_refl eq_refl eq_refl Hrun)
    as (mits & r & avg & _ & Hatt & Hres).
  exists mits, r, avg. split; [exact Hatt|exact Hres].
Defined.

(** *** X17 *)

Lemma prefix_is_sent_with_every_window_witness :
  generate_segments says_hi (silence 9000) byte_tokenizer
      (with_prefix default_options (Some "Hi"%string)) 1 []
    = ([hi_segment],
       Running state1 [[50258; 50259; 50359; 32; 72; 105]]) /\
  exists context r avg t w2,
    generate_with_fallback says_hi
      (py_slice (silence 9000) (Some 3000) (Some 6000))
      (context ++ [50258; 50259; 50359; 32; 72; 105])
      byte_tokenizer (with_prefix default_options (Some "Hi"%string))
      [[50258; 50259; 50359; 32; 72; 105]]
    = inr (Some (r, avg, t), w2).
Proof.
  assert (Hrun :
    generate_segments says_hi (silence 9000) byte_tokenizer
        (with_prefix default_options (Some "Hi"%string)) 1 []
      = ([hi_segment],
         Running state1 [[50258; 50259; 50359; 32; 72; 105]]))
    by reflexivity.
  split; [exact Hrun|].
  destruct (@prefix_is_sent_with_every_window binary64 ascii_lib _ _
              hi_decoder extractor (silence 9000) byte_tokenizer
              (with_prefix default_options (Some "Hi"%string))
              "Hi"%string 1%nat [] _ _ _ eq_refl eq_refl Hrun)
    as (context & H).
  cbv zeta in H.
  destruct H
    as (_ & [(e & Hbody & _)|(ev & ys1 & st2 & w2 & r & avg & t & Hdec & _)]).
  - exfalso.
    assert (Hruns :
      window_body says_hi (silence 9000) byte_tokenizer
        (with_prefix default_options (Some "Hi"%string))
        (len (silence 9000) - nb_max_frames extractor) state1
        [[50258; 50259; 50359; 32; 72; 105]]
      = inr (Decoded [hi_again_raw], [hi_again_segment], state2,
             [[50258; 50259; 50359; 32; 72; 105];
              [50361; tb; 104; 105; tb + 50; 50258; 50259; 50359;
               32; 72; 105]]))
      by reflexivity.
    change (init hi_decoder extractor) with says_hi in Hbody.
    rewrite Hruns in Hbody. discriminate.
  - exists context, r, avg, t, w2. exact Hdec.
Defined.

End WorkedFurther.
